(** * GateWay file server: path resolution, hiding rules and request handling

    A shallow embedding of [util/path.go] and [fileserver/fileserver.go],
    together with the functions of the Go standard library they call
    ([strings], [path], [path/filepath], [strconv], [unicode/utf8]).

    Go strings are byte sequences: they are lists of [ascii] here, and a
    literal is written as a Rocq string.  The [path/filepath] functions are
    the ones of the platforms whose separator is the slash (the [linux]
    and [darwin] targets of the Makefile); [runtime.GOOS] is a parameter
    of the request handler, whose platform guard only uses the
    platform-independent packages [strings] and [path]. *)

From Stdlib Require Import Ascii String ZArith Lia Bool Arith List.
Import ListNotations.

Local Open Scope string_scope.
Local Open Scope list_scope.
Local Open Scope bool_scope.
Local Open Scope nat_scope.

(** ** Go strings *)

Definition gostring := list ascii.

Coercion list_ascii_of_string : string >-> list.

Definition gostrings (l : list string) : list gostring :=
  map list_ascii_of_string l.

Definition byte_eqb : ascii -> ascii -> bool := Ascii.eqb.

Definition gostring_eqb (a b : gostring) : bool :=
  if list_eq_dec ascii_dec a b then true else false.

(** ** Package [strings] *)

Module strings.

(** [strings.HasPrefix(s, prefix)] *)
Fixpoint HasPrefix (s prefix : gostring) {struct prefix} : bool :=
  match prefix with
  | [] => true
  | p :: prefix' =>
      match s with
      | [] => false
      | c :: s' => byte_eqb c p && HasPrefix s' prefix'
      end
  end.

(** [strings.HasSuffix(s, suffix)] *)
Definition HasSuffix (s suffix : gostring) : bool :=
  HasPrefix (rev s) (rev suffix).

(** [strings.TrimPrefix(s, prefix)]: [s] without the leading [prefix],
    [s] itself when it does not start with it. *)
Definition TrimPrefix (s prefix : gostring) : gostring :=
  if HasPrefix s prefix then skipn (length prefix) s else s.

(** [strings.Contains(s, substr)] *)
Fixpoint Contains (s substr : gostring) : bool :=
  HasPrefix s substr ||
  match s with
  | [] => false
  | _ :: s' => Contains s' substr
  end.

(** [strings.Join(elems, sep)] *)
Fixpoint Join (elems : list gostring) (sep : gostring) : gostring :=
  match elems with
  | [] => []
  | [e] => e
  | e :: rest => e ++ sep ++ Join rest sep
  end.

(** [strings.Split(s, sep)] for a one-byte separator: the pieces of [s]
    between the occurrences of [sep]; never an empty list. *)
Fixpoint SplitByte (s : gostring) (sep : ascii) : list gostring :=
  match s with
  | [] => [[]]
  | c :: s' =>
      if byte_eqb c sep then [] :: SplitByte s' sep
      else match SplitByte s' sep with
           | piece :: pieces => (c :: piece) :: pieces
           | [] => [[c]]
           end
  end.

(** [strings.TrimRight(s, cutset)]: [s] without its trailing bytes that
    belong to [cutset] (an ASCII cutset here, as at the call site). *)
Fixpoint dropWhileIn (cutset : gostring) (r : gostring) : gostring :=
  match r with
  | [] => []
  | c :: r' => if existsb (byte_eqb c) cutset then dropWhileIn cutset r' else r
  end.

Definition TrimRight (s cutset : gostring) : gostring :=
  rev (dropWhileIn cutset (rev s)).

End strings.

(** ** Package [unicode/utf8] *)

Module utf8.

Definition rune := N.

Definition RuneError : rune := 65533%N.

(** The entry of the table [first] for a leading byte: the length of
    the encoding and the range accepted for the second byte; [None]
    for a byte that starts no multi-byte encoding. *)
Definition first (s0 : N) : option (nat * N * N) :=
  if (s0 <? 194)%N then None                              (* 0x00-0xC1 *)
  else if (s0 <? 224)%N then Some (2, 128%N, 191%N)          (* 0xC2-0xDF *)
  else if (s0 =? 224)%N then Some (3, 160%N, 191%N)          (* 0xE0 *)
  else if (s0 <? 237)%N then Some (3, 128%N, 191%N)          (* 0xE1-0xEC *)
  else if (s0 =? 237)%N then Some (3, 128%N, 159%N)          (* 0xED *)
  else if (s0 <? 240)%N then Some (3, 128%N, 191%N)          (* 0xEE-0xEF *)
  else if (s0 =? 240)%N then Some (4, 144%N, 191%N)          (* 0xF0 *)
  else if (s0 <? 244)%N then Some (4, 128%N, 191%N)          (* 0xF1-0xF3 *)
  else if (s0 =? 244)%N then Some (4, 128%N, 143%N)          (* 0xF4 *)
  else None.                                               (* 0xF5-0xFF *)

Definition continuation (b : N) : bool := (128 <=? b)%N && (b <=? 191)%N.

Definition low6 (b : N) : N := N.land b 63.

(** [utf8.DecodeRuneInString(s)] *)
Definition DecodeRuneInString (s : gostring) : rune * nat :=
  match s with
  | [] => (RuneError, 0)
  | c0 :: t =>
      let s0 := N_of_ascii c0 in
      match first s0 with
      | None => if (s0 <? 128)%N then (s0, 1) else (RuneError, 1)
      | Some (sz, lo, hi) =>
          if length s <? sz then (RuneError, 1) else
          match t with
          | [] => (RuneError, 1)
          | c1 :: t1 =>
              let s1 := N_of_ascii c1 in
              if (s1 <? lo)%N || (hi <? s1)%N then (RuneError, 1)
              else if sz <=? 2 then
                (N.lor (N.shiftl (N.land s0 31) 6) (low6 s1), 2)
              else
                match t1 with
                | [] => (RuneError, 1)
                | c2 :: t2 =>
                    let s2 := N_of_ascii c2 in
                    if negb (continuation s2) then (RuneError, 1)
                    else if sz <=? 3 then
                      (N.lor (N.lor (N.shiftl (N.land s0 15) 12)
                                    (N.shiftl (low6 s1) 6)) (low6 s2), 3)
                    else
                      match t2 with
                      | [] => (RuneError, 1)
                      | c3 :: _ =>
                          let s3 := N_of_ascii c3 in
                          if negb (continuation s3) then (RuneError, 1)
                          else
                            (N.lor (N.lor (N.lor (N.shiftl (N.land s0 7) 18)
                                                 (N.shiftl (low6 s1) 12))
                                          (N.shiftl (low6 s2) 6)) (low6 s3), 4)
                      end
                end
          end
      end
  end.

End utf8.

(** ** Package [path/filepath], slash-separated platforms *)

Module filepath.

Definition Separator : ascii := "/"%char.

Definition isPathSeparator (c : ascii) : bool := byte_eqb c Separator.

Definition isDot (c : ascii) : bool := byte_eqb c "."%char.

(** [r == n || os.IsPathSeparator(path[r])] for the unread input [l]. *)
Definition atEndOrSep (l : gostring) : bool :=
  match l with
  | [] => true
  | c :: _ => isPathSeparator c
  end.

(** The [..] case of [Clean] when it can backtrack:
    [out.w--; for out.w > dotdot && !os.IsPathSeparator(out.index(out.w)) { out.w-- }].
    The buffer [out] holds the bytes written so far, last written
    first, so that [out.w] is its length and [out.index(out.w)] after
    a decrement is the byte just dropped. *)
Fixpoint backtrack (out : gostring) (dotdot : nat) : gostring :=
  match out with
  | [] => []
  | c :: out' =>
      if (dotdot <? length out') && negb (isPathSeparator c)
      then backtrack out' dotdot
      else out'
  end.

(** [if rooted && out.w != 1 || !rooted && out.w != 0 { out.append(Separator) }] *)
Definition slashIfNeeded (rooted : bool) (out : gostring) : gostring :=
  if (rooted && negb (length out =? 1)) || (negb rooted && negb (length out =? 0))
  then Separator :: out
  else out.

(** The main loop of [Clean], [for r < n { switch ... }], on the unread
    input.  [copying] is set while the loop of the default case, which
    copies a path element up to the next separator, is running. *)
Fixpoint cleanLoop (rooted : bool) (path : gostring) (copying : bool)
         (out : gostring) (dotdot : nat) {struct path} : gostring :=
  match path with
  | [] => out
  | c :: rest =>
      if copying then
        if isPathSeparator c then cleanLoop rooted rest false out dotdot
        else cleanLoop rooted rest true (c :: out) dotdot
      else if isPathSeparator c then
        (* empty path element *)
        cleanLoop rooted rest false out dotdot
      else if isDot c && atEndOrSep rest then
        (* . element *)
        cleanLoop rooted rest false out dotdot
      else
        match rest with
        | c1 :: rest1 =>
            if isDot c && isDot c1 && atEndOrSep rest1 then
              (* .. element: remove to last separator *)
              if dotdot <? length out then
                cleanLoop rooted rest1 false (backtrack out dotdot) dotdot
              else if negb rooted then
                let out1 := if 0 <? length out then Separator :: out else out in
                let out2 := "."%char :: "."%char :: out1 in
                cleanLoop rooted rest1 false out2 (length out2)
              else cleanLoop rooted rest1 false out dotdot
            else
              (* real path element: add slash if needed, copy element *)
              cleanLoop rooted rest true (c :: slashIfNeeded rooted out) dotdot
        | [] =>
            cleanLoop rooted rest true (c :: slashIfNeeded rooted out) dotdot
        end
  end.

(** [filepath.Clean(path)] *)
Definition Clean (path : gostring) : gostring :=
  match path with
  | [] => "."
  | c0 :: rest =>
      let out :=
        if isPathSeparator c0
        then cleanLoop true rest false [Separator] 1
        else cleanLoop false path false [] 0 in
      match out with
      | [] => "."
      | _ => rev out
      end
  end.

(** [filepath.Join(elem...)]: the elements from the first non-empty one
    on, joined with the separator and cleaned. *)
Fixpoint Join (elem : list gostring) : gostring :=
  match elem with
  | [] => []
  | [] :: rest => Join rest
  | _ :: _ => Clean (strings.Join elem [Separator])
  end.

(** [filepath.IsAbs(path)] *)
Definition IsAbs (path : gostring) : bool := strings.HasPrefix path "/".

(** *** [filepath.Match] *)

Definition isByte (c : ascii) (s : string) : bool :=
  match s with
  | String d EmptyString => byte_eqb c d
  | _ => false
  end.

(** The scanning loop of [scanChunk]: the chunk, which ends before the
    first star outside a character class, and the rest of the pattern.
    A backslash takes the next byte with it. *)
Fixpoint scanChunkLoop (pattern : gostring) (inrange : bool) : gostring * gostring :=
  match pattern with
  | [] => ([], [])
  | c :: p1 =>
      if isByte c "\" then
        match p1 with
        | c1 :: p2 =>
            let '(chunk, rest) := scanChunkLoop p2 inrange in (c :: c1 :: chunk, rest)
        | [] => ([c], [])
        end
      else if isByte c "[" then
        let '(chunk, rest) := scanChunkLoop p1 true in (c :: chunk, rest)
      else if isByte c "]" then
        let '(chunk, rest) := scanChunkLoop p1 false in (c :: chunk, rest)
      else if isByte c "*" && negb inrange then ([], pattern)
      else
        let '(chunk, rest) := scanChunkLoop p1 inrange in (c :: chunk, rest)
  end.

(** [for len(pattern) > 0 && pattern[0] == '*' { pattern = pattern[1:]; star = true }] *)
Fixpoint skipStars (pattern : gostring) (star : bool) : bool * gostring :=
  match pattern with
  | c :: p1 => if isByte c "*" then skipStars p1 true else (star, pattern)
  | [] => (star, pattern)
  end.

(** [scanChunk(pattern)]: [(star, chunk, rest)] *)
Definition scanChunk (pattern : gostring) : bool * gostring * gostring :=
  let '(star, pattern1) := skipStars pattern false in
  let '(chunk, rest) := scanChunkLoop pattern1 false in
  (star, chunk, rest).

(** [getEsc(chunk)]: a possibly escaped character of a character class
    and the chunk after it; [None] for [ErrBadPattern]. *)
Definition getEsc (chunk : gostring) : option (utf8.rune * gostring) :=
  match chunk with
  | [] => None
  | c :: chunk1 =>
      if isByte c "-" || isByte c "]" then None
      else
        let escaped := if isByte c "\" then chunk1 else chunk in
        match escaped with
        | [] => None
        | _ =>
            let '(r, n) := utf8.DecodeRuneInString escaped in
            let nchunk := skipn n escaped in
            if ((r =? utf8.RuneError)%N && (n =? 1)) then None
            else match nchunk with
                 | [] => None
                 | _ => Some (r, nchunk)
                 end
        end
  end.

(** The loop that parses the ranges of a character class, for the
    rune [r] of the name: the chunk after the closing bracket and
    whether a range contained [r]; [None] for [ErrBadPattern].  Each
    turn consumes a byte of the chunk, whose length bounds [fuel]. *)
Fixpoint parseRanges (fuel : nat) (chunk : gostring) (r : utf8.rune)
         (matched : bool) (nrange : nat) : option (gostring * bool) :=
  match fuel with
  | O => None
  | S fuel' =>
      match chunk with
      | c :: chunk1 =>
          if isByte c "]" && (0 <? nrange) then Some (chunk1, matched)
          else
            match getEsc chunk with
            | None => None
            | Some (lo, chunk2) =>
                match chunk2 with
                | d :: chunk3 =>
                    if isByte d "-" then
                      match getEsc chunk3 with
                      | None => None
                      | Some (hi, chunk4) =>
                          parseRanges fuel' chunk4 r
                            (matched || ((lo <=? r)%N && (r <=? hi)%N)) (S nrange)
                      end
                    else
                      parseRanges fuel' chunk2 r
                        (matched || ((lo <=? r)%N && (r <=? lo)%N)) (S nrange)
                | [] => None
                end
            end
      | [] => None
      end
  end.

Inductive chunkResult :=
| ChunkRest (rest : gostring)   (* [ok]: the name after the match *)
| ChunkFailed                   (* no match, no error *)
| ChunkBadPattern.              (* [ErrBadPattern] *)

(** The loop of [matchChunk(chunk, s)].  After the match has failed the
    loop goes on over the chunk, to check that it is well formed,
    without reading [s]. *)
Fixpoint matchChunkLoop (fuel : nat) (chunk s : gostring) (failed : bool) : chunkResult :=
  match fuel with
  | O => if failed then ChunkFailed else ChunkRest s
  | S fuel' =>
      match chunk with
      | [] => if failed then ChunkFailed else ChunkRest s
      | c :: chunk1 =>
          let failed := failed || (length s =? 0) in
          if isByte c "[" then
            (* character class *)
            let '(r, s1) :=
              if failed then (0%N, s)
              else let '(r, n) := utf8.DecodeRuneInString s in (r, skipn n s) in
            let '(negated, chunk2) :=
              match chunk1 with
              | d :: chunk2 => if isByte d "^" then (true, chunk2) else (false, chunk1)
              | [] => (false, chunk1)
              end in
            match parseRanges (S (length chunk2)) chunk2 r false 0 with
            | None => ChunkBadPattern
            | Some (chunk3, matched) =>
                matchChunkLoop fuel' chunk3 s1 (failed || Bool.eqb matched negated)
            end
          else if isByte c "?" then
            if failed then matchChunkLoop fuel' chunk1 s failed
            else
              let '(_, n) := utf8.DecodeRuneInString s in
              matchChunkLoop fuel' chunk1 (skipn n s) (isPathSeparator (hd "/"%char s))
          else
            (* a backslash escapes the next byte, which is compared as a literal *)
            let literal := if isByte c "\" then chunk1 else chunk in
            match literal with
            | [] => ChunkBadPattern
            | l :: chunk2 =>
                if failed then matchChunkLoop fuel' chunk2 s failed
                else
                  matchChunkLoop fuel' chunk2 (tl s) (negb (byte_eqb l (hd l s)))
            end
      end
  end.

(** [matchChunk(chunk, s)] *)
Definition matchChunk (chunk s : gostring) : chunkResult :=
  matchChunkLoop (length chunk) chunk s false.

(** The loop over [i] of the star case of [Match]: look for a match of
    the chunk after skipping [i+1] bytes of the name, none of them a
    separator.  [lastChunk] is [len(pattern) == 0].  The result is the
    name to go on with, [Some None] when the search ends without a match
    and [None] on a bad pattern. *)
Fixpoint starLoop (chunk : gostring) (lastChunk : bool) (name : gostring)
  : option (option gostring) :=
  match name with
  | [] => Some None
  | c :: name1 =>
      if isPathSeparator c then Some None
      else
        match matchChunk chunk name1 with
        | ChunkRest t =>
            if lastChunk && (0 <? length t) then starLoop chunk lastChunk name1
            else Some (Some t)
        | ChunkBadPattern => None
        | ChunkFailed => starLoop chunk lastChunk name1
        end
  end.

(** The loop [Pattern: for len(pattern) > 0] of [Match], which returns
    the value [matched]; an [ErrBadPattern] comes with [matched = false].
    Each turn consumes a byte of the pattern, whose length bounds
    [fuel]. *)
Fixpoint matchLoop (fuel : nat) (pattern name : gostring) : bool :=
  match pattern with
  | [] => length name =? 0
  | _ :: _ =>
      match fuel with
      | O => false
      | S fuel' =>
          let '(star, chunk, rest) := scanChunk pattern in
          if star && (length chunk =? 0) then
            (* trailing * matches rest of string unless it has a / *)
            negb (strings.Contains name [Separator])
          else
            let here := matchChunk chunk name in
            let continueHere :=
              match here with
              | ChunkRest t =>
                  if (length t =? 0) || (0 <? length rest) then Some t else None
              | _ => None
              end in
            match continueHere with
            | Some t => matchLoop fuel' rest t
            | None =>
                match here with
                | ChunkBadPattern => false
                | _ =>
                    if star then
                      match starLoop chunk (length rest =? 0) name with
                      | Some (Some t) => matchLoop fuel' rest t
                      | _ => false
                      end
                    else false
                end
            end
      end
  end.

(** *** [filepath.Abs] and [filepath.Ext] *)

(** [filepath.Match(pattern, name)], the value [matched]; every caller
    in this program discards the error. *)
Definition Match (pattern name : gostring) : bool :=
  matchLoop (length pattern) pattern name.

(** [filepath.Abs(path)]: [getwd] is the result of [os.Getwd()], [None]
    when it fails. *)
Definition Abs (getwd : option gostring) (path : gostring) : option gostring :=
  if IsAbs path then Some (Clean path)
  else match getwd with
       | Some wd => Some (Join [wd; path])
       | None => None
       end.

(** [filepath.Ext(path)], scanning the reversed path:
    [for i := len(path) - 1; i >= 0 && !os.IsPathSeparator(path[i]); i--]. *)
Fixpoint extLoop (r : gostring) (acc : gostring) : gostring :=
  match r with
  | [] => []
  | c :: r' =>
      if isPathSeparator c then []
      else if isDot c then c :: acc
      else extLoop r' (c :: acc)
  end.

Definition Ext (path : gostring) : gostring := extLoop (rev path) [].

End filepath.

(** ** [util/path.go] *)

Module util.

Definition separator : gostring := [filepath.Separator].

(** [SanitizedPathJoin(root, reqPath)] *)
Definition SanitizedPathJoin (root reqPath : gostring) : gostring :=
  let root := if gostring_eqb root "" then "."%string : gostring else root in
  let path := filepath.Join [root; filepath.Clean ("/" ++ reqPath)] in
  if strings.HasSuffix reqPath "/" && (1 <? length reqPath)
  then path ++ separator
  else path.

End util.

(** ** Package [strconv] *)

Module strconv.

Definition digits : gostring := "0123456789abcdefghijklmnopqrstuvwxyz".

Definition digit (d : Z) : ascii := nth (Z.to_nat d) digits "0"%char.

(** The general case of [formatBits]:
    [for u >= b { q := u / b; a[i] = digits[u - q*b]; u = q }; a[i] = digits[u]].
    The buffer has room for 64 digits and a sign, which bounds the
    number of iterations. *)
Fixpoint formatBitsLoop (fuel : nat) (u b : Z) (a : gostring) : gostring :=
  match fuel with
  | O => a
  | S fuel' =>
      if (b <=? u)%Z
      then let q := (u / b)%Z in
           formatBitsLoop fuel' q b (digit (u - q * b) :: a)
      else digit u :: a
  end.

(** [strconv.FormatInt(i, base)] for a base that is neither 10 nor a
    power of two, such as 36. *)
Definition FormatInt (i : Z) (base : Z) : gostring :=
  let neg := (i <? 0)%Z in
  let u := if neg then (- i)%Z else i in
  let a := formatBitsLoop 65 u base [] in
  if neg then "-"%char :: a else a.

End strconv.

(** ** Package [path] *)

Module path.

(** [for len(path) > 0 && path[len(path)-1] == '/' { path = path[0 : len(path)-1] }],
    on the reversed string. *)
Fixpoint stripLeadingSlashes (r : gostring) : gostring :=
  match r with
  | [] => []
  | c :: r' => if byte_eqb c "/"%char then stripLeadingSlashes r' else r
  end.

(** The bytes after the last slash, [path[i+1:]] for
    [i := strings.LastIndexByte(path, '/')], on the reversed string. *)
Fixpoint upToSlash (r : gostring) : gostring :=
  match r with
  | [] => []
  | c :: r' => if byte_eqb c "/"%char then [] else c :: upToSlash r'
  end.

(** [path.Base(path)] *)
Definition Base (path : gostring) : gostring :=
  match path with
  | [] => "."
  | _ =>
      let last := rev (upToSlash (stripLeadingSlashes (rev path))) in
      match last with
      | [] => "/"
      | _ => last
      end
  end.

End path.

(** ** Errors, file information and the file system *)

(** What the program asks of an error: [errors.Is(err, fs.ErrNotExist)],
    [errors.Is(err, fs.ErrPermission)], [errors.Is(err, fs.ErrInvalid)],
    and its text.  The errors of the [os] file system are [*PathError]
    values around an [errno], on which [os.IsNotExist] and
    [os.IsPermission] agree with the [errors.Is] tests. *)
Inductive ErrKind := KindNotExist | KindPermission | KindInvalid | KindOther.

Record GoError := mkError { errKind : ErrKind; errText : gostring }.

Definition isNotExist (e : GoError) : bool :=
  match errKind e with KindNotExist => true | _ => false end.

Definition isPermission (e : GoError) : bool :=
  match errKind e with KindPermission => true | _ => false end.

Definition isInvalid (e : GoError) : bool :=
  match errKind e with KindInvalid => true | _ => false end.

Definition ErrNotExist : GoError := mkError KindNotExist "file does not exist".

Inductive result (A : Type) :=
| Ok (a : A)
| Err (e : GoError).

Arguments Ok {A} a.
Arguments Err {A} e.

(** [fs.FileInfo]: the modification time is kept as its Unix seconds. *)
Record FileInfo := mkFileInfo {
  Name : gostring;
  Size : Z;
  ModTimeUnix : Z;
  IsDir : bool
}.

(** A 64-bit signed integer. *)
Definition int64 (z : Z) : Prop := (- 2 ^ 63 <= z < 2 ^ 63)%Z.

(** An open file is known by the name it was opened under. *)
Record File := mkFile { fileName : gostring }.

(** The file system of the [Spec]: [Stat] and [Open] by name. *)
Record FS := mkFS {
  fsStat : gostring -> result FileInfo;
  fsOpen : gostring -> result File
}.

(** ** The HTTP context: what a request leaves behind *)

Inductive Event :=
| EvStat (name : gostring)
| EvOpen (name : gostring)
| EvClose (name : gostring)
| EvServeContent (name : gostring) (modTimeUnix : Z) (file : gostring).

(** An [http.Header]: the values of each key, no entry for an absent key. *)
Definition Header := list (gostring * list gostring).

Module header.

Definition Values (h : Header) (key : gostring) : list gostring :=
  match find (fun kv => gostring_eqb (fst kv) key) h with
  | Some kv => snd kv
  | None => []
  end.

Definition Del (h : Header) (key : gostring) : Header :=
  filter (fun kv => negb (gostring_eqb (fst kv) key)) h.

Definition Set_ (h : Header) (key value : gostring) : Header :=
  (key, [value]) :: Del h key.

Definition Add (h : Header) (key value : gostring) : Header :=
  (key, Values h key ++ [value]) :: Del h key.

Definition Get (h : Header) (key : gostring) : gostring :=
  hd [] (Values h key).

End header.

Record Context := mkContext {
  ctxTags : list gostring;        (* [ctx.AddTag] *)
  ctxStatus : nat;                (* [w.SetStatusCode] *)
  ctxHeader : Header;             (* [w.Header()] *)
  ctxEvents : list Event          (* file system and collaborator calls, in order *)
}.

Record Request := mkRequest {
  Method : gostring;
  Path : gostring
}.

(** What [http.ServeContent(w, r, name, modtime, content)] does to the
    header of the response, by the request, the name, the modification
    time and the open file it is given. *)
Definition Serving : Type := Request -> gostring -> Z -> File -> Header -> Header.

(** *** A state monad over the context *)

Module M.

Definition t (A : Type) : Type := Context -> A * Context.

Definition ret {A} (a : A) : t A := fun c => (a, c).

Definition bind {A B} (m : t A) (k : A -> t B) : t B :=
  fun c => let '(a, c1) := m c in k a c1.

Definition AddTag (tag : gostring) : t unit :=
  fun c => (tt, mkContext (ctxTags c ++ [tag]) (ctxStatus c) (ctxHeader c) (ctxEvents c)).

Definition SetStatusCode (code : nat) : t unit :=
  fun c => (tt, mkContext (ctxTags c) code (ctxHeader c) (ctxEvents c)).

Definition modifyHeader (f : Header -> Header) : t unit :=
  fun c => (tt, mkContext (ctxTags c) (ctxStatus c) (f (ctxHeader c)) (ctxEvents c)).

Definition getHeader (key : gostring) : t gostring :=
  fun c => (header.Get (ctxHeader c) key, c).

Definition emit (e : Event) : t unit :=
  fun c => (tt, mkContext (ctxTags c) (ctxStatus c) (ctxHeader c) (ctxEvents c ++ [e])).

End M.

Declare Scope monad_scope.
Delimit Scope monad_scope with monad.
Notation "x <- m ;; k" := (M.bind m (fun x => k))
  (at level 61, m at next level, right associativity) : monad_scope.
Notation "m ;; k" := (M.bind m (fun _ => k))
  (at level 61, right associativity) : monad_scope.

(** ** [fileserver/fileserver.go] *)

Module fileserver.

Import filepath.
Local Open Scope monad_scope.

Definition separator : gostring := [Separator].

Definition resultIllegalADSPath : gostring := "illegalADSPath".
Definition resultIllegalShortName : gostring := "illegalShortName".
Definition resultNotFound : gostring := "notFound".
Definition resultErrPermission : gostring := "errPermission".
Definition resultErrHandleFile : gostring := "errHandleFile".
Definition resultMethodNotAllowed : gostring := "methodNotAllowed".

Definition StatusBadRequest := 400.
Definition StatusForbidden := 403.
Definition StatusNotFound := 404.
Definition StatusMethodNotAllowed := 405.
Definition StatusInternalServerError := 500.

Definition MethodGet : gostring := "GET".
Definition MethodHead : gostring := "HEAD".

(** [Spec]: the fields the handler reads. *)
Record Spec := mkSpec {
  fileSystem : FS;
  Root : gostring;
  Hide : list gostring;
  IndexNames : list gostring
}.

Definition quote : ascii := "034"%char.

(** [calculateEtag(d)] *)
Definition calculateEtag (d : FileInfo) : gostring :=
  let t := strconv.FormatInt (ModTimeUnix d) 36 in
  let s := strconv.FormatInt (Size d) 36 in
  [quote] ++ t ++ s ++ [quote].

(** The loop [for _, h := range hide] of [fileHidden], with the
    variable [components], which is filled at the first pattern without
    a separator. *)
Fixpoint hiddenLoop (filename : gostring) (components : list gostring)
         (hide : list gostring) : bool :=
  match hide with
  | [] => false
  | h :: rest =>
      if negb (strings.Contains h separator) then
        let components :=
          if length components =? 0
          then strings.SplitByte filename Separator
          else components in
        if existsb (fun c => Match h c) components then true
        else if Match h filename then true
        else hiddenLoop filename components rest
      else if strings.HasPrefix filename h
              && strings.HasPrefix (strings.TrimPrefix filename h) separator then true
      else if Match h filename then true
      else hiddenLoop filename components rest
  end.

(** [fileHidden(filename, hide)]; [getwd] is what [os.Getwd] returns
    to [filepath.Abs]. *)
Definition fileHidden (getwd : option gostring) (filename : gostring)
           (hide : list gostring) : bool :=
  if length hide =? 0 then false
  else
    let filename :=
      match Abs getwd filename with
      | Some filenameAbs => filenameAbs
      | None => filename
      end in
    hiddenLoop filename [] hide.

Section Handler.

(** [runtime.GOOS] *)
Variable GOOS : gostring.
(** [os.Getwd()], [None] when it fails *)
Variable getwd : option gostring.
(** [repl.ReplaceAll(input, empty)] of [util.NewReplacer()], which is
    declared outside the files at hand *)
Variable ReplaceAll : gostring -> gostring -> gostring.
(** [mime.TypeByExtension] *)
Variable TypeByExtension : gostring -> gostring.
(** [http.ServeContent]: it is handed [w.Std()], whose header is the
    header of [w], and writes to it ([Last-Modified], [Accept-Ranges],
    [Content-Length], a [Content-Type] it sniffs where the key is absent,
    and others by the request); what it writes to the connection is no
    part of the context *)
Variable ServeContent : Serving.
(** [fsrv.spec] *)
Variable spec : Spec.

(** [fs.Stat(fsrv.spec.fileSystem, name)] *)
Definition Stat (name : gostring) : M.t (result FileInfo) :=
  M.emit (EvStat name) ;; M.ret (fsStat (fileSystem spec) name).

(** [fsrv.openFile(filename)] *)
Definition openFile (filename : gostring) : M.t (result File) :=
  M.emit (EvOpen filename) ;; M.ret (fsOpen (fileSystem spec) filename).

(** The loop [for i := range parts] of [mapDirOpenError]: [seen] is
    [parts[:i]] and the list in recursion [parts[i:]]. *)
Fixpoint walkParts (originalErr : GoError) (seen parts : list gostring)
  : M.t GoError :=
  match parts with
  | [] => M.ret originalErr
  | part :: parts' =>
      if length part =? 0 then walkParts originalErr (seen ++ [part]) parts'
      else
        r <- Stat (strings.Join (seen ++ [part]) separator) ;;
        match r with
        | Err _ => M.ret originalErr
        | Ok fi =>
            if negb (IsDir fi) then M.ret ErrNotExist
            else walkParts originalErr (seen ++ [part]) parts'
        end
  end.

(** [fsrv.mapDirOpenError(originalErr, name)] *)
Definition mapDirOpenError (originalErr : GoError) (name : gostring) : M.t GoError :=
  if isNotExist originalErr || isPermission originalErr then M.ret originalErr
  else walkParts originalErr [] (strings.SplitByte name Separator).

(** [fsrv.transformHidePaths(repl)] *)
Definition transformHidePaths : list gostring :=
  map (fun pattern =>
         let h := ReplaceAll pattern "" in
         if strings.Contains h separator then
           match Abs getwd h with
           | Some abs => abs
           | None => h
           end
         else h)
      (Hide spec).

(** The loop [for _, indexPage := range fsrv.spec.IndexNames]: the
    file information and the file name after it. *)
Fixpoint indexLoop (filesToHide : list gostring) (dir : gostring)
         (info : FileInfo) (filename : gostring) (names : list gostring)
  : M.t (FileInfo * gostring) :=
  match names with
  | [] => M.ret (info, filename)
  | indexPage :: names' =>
      let indexPage := ReplaceAll indexPage "" in
      let indexPath := util.SanitizedPathJoin dir indexPage in
      if fileHidden getwd indexPath filesToHide then
        (* pretend this file doesn't exist *)
        indexLoop filesToHide dir info filename names'
      else
        r <- Stat indexPath ;;
        match r with
        | Err _ => indexLoop filesToHide dir info filename names'
        | Ok indexInfo => M.ret (indexInfo, indexPath)
        end
  end.

(** The end of [handle], from the method check on, with the file open. *)
Definition serveFile (r : Request) (info : FileInfo) (filename : gostring)
           (file : File) (etag : gostring) : M.t gostring :=
  let method := Method r in
  if negb (gostring_eqb method MethodGet) && negb (gostring_eqb method MethodHead) then
    M.modifyHeader (fun h => header.Add h "Allow" "GET, HEAD") ;;
    M.SetStatusCode StatusMethodNotAllowed ;;
    M.ret resultMethodNotAllowed
  else
    M.modifyHeader (fun h => header.Set_ h "Etag" etag) ;;
    contentType <- M.getHeader "Content-Type" ;;
    (if length contentType =? 0 then
       let mtyp := TypeByExtension (Ext filename) in
       if length mtyp =? 0
       then M.modifyHeader (fun h => header.Del h "Content-Type")
       else M.modifyHeader (fun h => header.Set_ h "Content-Type" mtyp)
     else M.ret tt) ;;
    M.emit (EvServeContent (Name info) (ModTimeUnix info) (fileName file)) ;;
    M.modifyHeader (ServeContent r (Name info) (ModTimeUnix info) file) ;;
    M.ret [].

(** [fsrv.handle(ctx)] after the platform guard, from
    [filesToHide := fsrv.transformHidePaths(repl)] to the end. *)
Definition resolve (r : Request) : M.t gostring :=
  let p := Path r in
  let filesToHide := transformHidePaths in
  let root := ReplaceAll (Root spec) "." in
  let filename := util.SanitizedPathJoin root p in
  (* get information about the file *)
  st <- Stat filename ;;
  match st with
  | Err err =>
      err <- mapDirOpenError err filename ;;
      if isNotExist err || isInvalid err then
        M.AddTag "not found" ;;
        M.SetStatusCode StatusNotFound ;;
        M.ret resultNotFound
      else if isPermission err then
        M.AddTag (errText err) ;;
        M.SetStatusCode StatusForbidden ;;
        M.ret resultErrPermission
      else
        M.AddTag (errText err) ;;
        M.SetStatusCode StatusInternalServerError ;;
        M.ret resultErrHandleFile
  | Ok info =>
      (* if the request mapped to a directory, see if there is an
         index file we can serve *)
      chosen <-
        (if IsDir info && (0 <? length (IndexNames spec))
         then indexLoop filesToHide filename info filename (IndexNames spec)
         else M.ret (info, filename)) ;;
      let '(info, filename) := chosen in
      if IsDir info then
        (* still referencing a directory *)
        M.AddTag "not found" ;;
        M.SetStatusCode StatusNotFound ;;
        M.ret resultNotFound
      else if fileHidden getwd filename filesToHide then
        M.AddTag "not found" ;;
        M.SetStatusCode StatusNotFound ;;
        M.ret resultNotFound
      else
        (* open the file *)
        opened <- openFile filename ;;
        match opened with
        | Err err =>
            err <- mapDirOpenError err filename ;;
            if isNotExist err then
              M.AddTag "not found" ;;
              M.SetStatusCode StatusNotFound ;;
              M.ret resultNotFound
            else if isPermission err then
              M.AddTag "permission denied" ;;
              M.SetStatusCode StatusForbidden ;;
              M.ret resultErrPermission
            else
              M.AddTag (errText err) ;;
              M.SetStatusCode StatusInternalServerError ;;
              M.ret resultErrHandleFile
        | Ok file =>
            let etag := calculateEtag info in
            res <- serveFile r info filename file etag ;;
            (* defer file.Close() *)
            M.emit (EvClose (fileName file)) ;;
            M.ret res
        end
  end.

(** [fsrv.handle(ctx)] *)
Definition handle (r : Request) : M.t gostring :=
  let p := Path r in
  let windows := gostring_eqb GOOS "windows" in
  if windows && strings.Contains p ":" then
    (* reject paths with Alternate Data Streams (ADS) *)
    M.AddTag "illegal ADS path" ;;
    M.SetStatusCode StatusBadRequest ;;
    M.ret resultIllegalADSPath
  else if windows
          && (let trimmedPath := strings.TrimRight p ". " in
              (length (path.Base trimmedPath) <=? 12)
              && strings.Contains trimmedPath "~") then
    (* reject paths with "8.3" short names *)
    M.AddTag "illegal short name" ;;
    M.SetStatusCode StatusBadRequest ;;
    M.ret resultIllegalShortName
  else resolve r.

End Handler.

End fileserver.

(** ** Notions used to state the properties *)

(** The number a base-36 numeral denotes, with its sign. *)
Module base36.

Fixpoint indexOf (c : ascii) (l : gostring) : nat :=
  match l with
  | [] => 0
  | d :: l' => if byte_eqb c d then 0 else S (indexOf c l')
  end.

Definition digitValue (c : ascii) : Z := Z.of_nat (indexOf c strconv.digits).

Definition magnitude (l : gostring) : Z :=
  fold_left (fun acc c => (acc * 36 + digitValue c)%Z) l 0%Z.

Definition value (l : gostring) : Z :=
  match l with
  | c :: l' => if byte_eqb c "-"%char then (- magnitude l')%Z else magnitude l
  | [] => 0%Z
  end.

End base36.

(** The lexical reading of a slash-separated path: its elements, and the
    effect of each element on the path read so far. *)
Module lexical.

Definition elements (s : gostring) : list gostring :=
  strings.SplitByte s filepath.Separator.

(** No separator among the bytes. *)
Definition sepFree (e : gostring) : Prop :=
  Forall (fun c => filepath.isPathSeparator c = false) e.

(** A name that stands for an entry of a directory: not empty, not
    [.], not [..], and without a separator. *)
Definition plainName (e : gostring) : Prop :=
  e <> [] /\ e <> "."%string /\ e <> ".."%string /\ sepFree e.

(** A path read so far: the number of leading [..] elements it keeps
    and the names after them, the last one first. *)
Definition state : Type := nat * list gostring.

Definition enter (rooted : bool) (st : state) (e : gostring) : state :=
  let '(ups, names) := st in
  if gostring_eqb e "" || gostring_eqb e "." then st
  else if gostring_eqb e ".." then
    match names with
    | _ :: names' => (ups, names')
    | [] => if rooted then st else (S ups, [])
    end
  else (ups, e :: names).

Definition body (st : state) : gostring :=
  strings.Join (repeat (".."%string : gostring) (fst st) ++ rev (snd st))
               [filepath.Separator].

Definition render (rooted : bool) (st : state) : gostring :=
  if rooted then filepath.Separator :: body st
  else match body st with
       | [] => "."
       | b => b
       end.

Definition read (rooted : bool) (s : gostring) : state :=
  fold_left (enter rooted) (elements s) (0, []).

(** What [filepath.Clean] computes, element by element. *)
Definition CleanSpec (s : gostring) : gostring :=
  let rooted := strings.HasPrefix s "/" in
  render rooted (read rooted s).

(** [base] followed by the [names], one directory level each. *)
Definition descend (base : gostring) (names : list gostring) : gostring :=
  match names with
  | [] => base
  | _ =>
      if gostring_eqb base "." then strings.Join names [filepath.Separator]
      else if gostring_eqb base "/" then
        filepath.Separator :: strings.Join names [filepath.Separator]
      else base ++ filepath.Separator :: strings.Join names [filepath.Separator]
  end.

(** [p] is lexically within [root]: it is the cleaned [root], followed
    by plain names only, and possibly by a closing separator. *)
Definition within (root p : gostring) : Prop :=
  exists names,
    Forall plainName names /\
    (p = descend (filepath.Clean root) names \/
     p = descend (filepath.Clean root) names ++ [filepath.Separator]).

End lexical.

(** The state of the loop of [filepath.Clean] between two elements. *)
Module cleanstate.

Import filepath lexical.

(** The state of the loop after the element [e]. *)
Definition applyElem (rooted : bool) (e : gostring) (out : gostring) (dotdot : nat)
  : gostring * nat :=
  if gostring_eqb e "" || gostring_eqb e "." then (out, dotdot)
  else if gostring_eqb e ".." then
    if dotdot <? length out then (backtrack out dotdot, dotdot)
    else if negb rooted then
      let out2 := "."%char :: "."%char
                  :: (if 0 <? length out then Separator :: out else out) in
      (out2, length out2)
    else (out, dotdot)
  else (rev e ++ slashIfNeeded rooted out, dotdot).

(** The loop on what follows an element: nothing, or a separator and
    the rest of the path. *)
Definition afterElem (rooted : bool) (tail : gostring) (st : gostring * nat) : gostring :=
  match tail with
  | [] => fst st
  | _ :: b => cleanLoop rooted b false (fst st) (snd st)
  end.

(** The buffer and the mark [dotdot] of the loop stand for the path
    read so far. *)
Definition Rep (rooted : bool) (st : state) (out : gostring) (dotdot : nat) : Prop :=
  let lead : gostring := if rooted then [Separator] else [] in
  Forall plainName (snd st)
  /\ (rooted = true -> fst st = 0)
  /\ rev out = lead ++ body st
  /\ dotdot = length (lead ++ strings.Join (repeat (".."%string : gostring) (fst st))
                                          [Separator]).

End cleanstate.

(** The hiding rules, one pattern at a time. *)
Module hiding.

Import filepath.

(** The file name the patterns are compared with: absolute if possible. *)
Definition canonical (getwd : option gostring) (filename : gostring) : gostring :=
  match Abs getwd filename with
  | Some filenameAbs => filenameAbs
  | None => filename
  end.

(** The pattern [h] hides the canonical file name: by one of its
    elements, or as a prefix followed by a separator, or as a glob for
    the whole name. *)
Definition patternHides (filename h : gostring) : bool :=
  if negb (strings.Contains h fileserver.separator) then
    existsb (fun c => Match h c) (strings.SplitByte filename Separator)
    || Match h filename
  else
    (strings.HasPrefix filename h
     && strings.HasPrefix (strings.TrimPrefix filename h) fileserver.separator)
    || Match h filename.

(** A byte with a meaning of its own in a pattern of [filepath.Match]. *)
Definition isMeta (c : ascii) : bool :=
  filepath.isByte c "*" || filepath.isByte c "?" || filepath.isByte c "[" || filepath.isByte c "\".

(** A pattern that stands for itself. *)
Definition literal (h : gostring) : Prop := Forall (fun c => isMeta c = false) h.

End hiding.

(** ** File systems and settings to evaluate the handler on *)
Module samples.

(** A file system given by its entries, which are known by their
    cleaned names.  A name below a regular file, or a regular file
    named with a closing separator, fails with the error of the
    operating system for it, which is none of not-exist, permission and
    invalid; another unknown name does not exist. *)
Definition ENOTDIR : GoError := mkError KindOther "not a directory".

Definition belowFile (entries : list (gostring * FileInfo)) (name : gostring) : bool :=
  existsb (fun e => negb (IsDir (snd e))
                    && strings.HasPrefix name (fst e ++ [filepath.Separator]))
          entries.

Definition lookup (entries : list (gostring * FileInfo)) (name : gostring)
  : result FileInfo :=
  match find (fun e => gostring_eqb (fst e) (filepath.Clean name)) entries with
  | Some e =>
      if negb (IsDir (snd e)) && strings.HasSuffix name [filepath.Separator]
      then Err ENOTDIR
      else Ok (snd e)
  | None => Err (if belowFile entries name then ENOTDIR else ErrNotExist)
  end.

Definition treeFS (entries : list (gostring * FileInfo)) : FS :=
  mkFS (lookup entries)
       (fun name => match lookup entries name with
                    | Ok _ => Ok (mkFile name)
                    | Err e => Err e
                    end).

Definition dir (name : string) : FileInfo := mkFileInfo name 4096 1700000000 true.
Definition file (name : string) : FileInfo := mkFileInfo name 12 1700000000 false.

Definition site : list (gostring * FileInfo) :=
  [ ("/site"%string : gostring, dir "site");
    ("/site/file.txt"%string : gostring, file "file.txt");
    ("/site/docs"%string : gostring, dir "docs");
    ("/site/docs/index.txt"%string : gostring, file "index.txt");
    ("/site/blog"%string : gostring, dir "blog");
    ("/site/blog/index.html"%string : gostring, file "index.html");
    ("/site/blog/index.txt"%string : gostring, file "index.txt");
    ("/site/a~b"%string : gostring, dir "a~b");
    ("/site/a~b/file.txt"%string : gostring, file "file.txt") ].

Definition siteSpec (hide : list string) : fileserver.Spec :=
  fileserver.mkSpec (treeFS site) "/site" (gostrings hide)
                    (gostrings ["index.html"; "index.txt"]).

Definition noReplace (s _ : gostring) : gostring := s.

Definition noType (_ : gostring) : gostring := [].

(** A [ServeContent] that answers in full: it sets the content type it
    sniffs where the header has none, and [Accept-Ranges]. *)
Definition plainServe : Serving :=
  fun _ _ _ _ h =>
    let h := match find (fun kv => gostring_eqb (fst kv) "Content-Type") h with
             | Some _ => h
             | None => header.Set_ h "Content-Type" "text/plain; charset=utf-8"
             end in
    header.Set_ h "Accept-Ranges" "bytes".

Definition fresh : Context := mkContext [] 200 [] [].

(** The handler on [site], from the working directory [/srv]. *)
Definition serve (goos : string) (hide : list string) (method path : string)
  : gostring * Context :=
  fileserver.handle goos (Some ("/srv"%string : gostring)) noReplace noType plainServe
                    (siteSpec hide) (mkRequest method path) fresh.

End samples.

(** What a stage of the handler leaves in the context. *)
Module trace.

Definition appendEvents (c : Context) (events : list Event) : Context :=
  mkContext (ctxTags c) (ctxStatus c) (ctxHeader c) (ctxEvents c ++ events).

Definition isStat (e : Event) : Prop := exists name, e = EvStat name.

(** The stage [m] only calls [Stat]: it adds [Stat] events to the
    context and leaves the rest as it is. *)
Definition onlyStats {A} (m : M.t A) : Prop :=
  forall c, exists stats, Forall isStat stats /\ snd (m c) = appendEvents c stats.

(** The three ways the handler ends after the platform guard: with an
    error before the file is opened, with an error from opening it, and
    with the file open, at the method check. *)
Inductive resolved (fs : FS) (TypeByExtension : gostring -> gostring)
          (ServeContent : Serving)
          (r : Request) (c : Context) : gostring * Context -> Prop :=
| EndsBeforeOpen (stats : list Event) (tag : gostring) (status : nat) (res : gostring) :
    Forall isStat stats ->
    In (res, status)
       [(fileserver.resultNotFound, fileserver.StatusNotFound);
        (fileserver.resultErrPermission, fileserver.StatusForbidden);
        (fileserver.resultErrHandleFile, fileserver.StatusInternalServerError)] ->
    resolved fs TypeByExtension ServeContent r c
             (res, mkContext (ctxTags c ++ [tag]) status (ctxHeader c)
                             (ctxEvents c ++ stats))
| EndsAtOpen (stats : list Event) (name : gostring) (err : GoError)
             (stats' : list Event) (tag : gostring) (status : nat) (res : gostring) :
    Forall isStat stats ->
    Forall isStat stats' ->
    fsOpen fs name = Err err ->
    In (res, status)
       [(fileserver.resultNotFound, fileserver.StatusNotFound);
        (fileserver.resultErrPermission, fileserver.StatusForbidden);
        (fileserver.resultErrHandleFile, fileserver.StatusInternalServerError)] ->
    resolved fs TypeByExtension ServeContent r c
             (res, mkContext (ctxTags c ++ [tag]) status (ctxHeader c)
                             (ctxEvents c ++ stats ++ EvOpen name :: stats'))
| EndsWithFile (stats : list Event) (info : FileInfo) (filename : gostring) (file : File) :
    Forall isStat stats ->
    fsOpen fs filename = Ok file ->
    resolved fs TypeByExtension ServeContent r c
             (let '(res, c') :=
                fileserver.serveFile TypeByExtension ServeContent r info filename file
                                     (fileserver.calculateEtag info)
                                     (appendEvents c (stats ++ [EvOpen filename])) in
              (res, appendEvents c' [EvClose (fileName file)])).

End trace.

(** Cases of the test tables of the Go distribution: [cleantests] and
    [matchTests] of [path/filepath], [basetests] of [path]. *)
Module tables.

Definition cleanTable : list (string * string) :=
  [ ("", "."); ("abc", "abc"); ("abc/def", "abc/def"); ("a/b/c", "a/b/c");
    (".", "."); ("..", ".."); ("../..", "../.."); ("../../abc", "../../abc");
    ("/abc", "/abc"); ("/", "/");
    ("abc/", "abc"); ("abc/def/", "abc/def"); ("a/b/c/", "a/b/c"); ("./", ".");
    ("../", ".."); ("../../", "../.."); ("/abc/", "/abc");
    ("abc//def//ghi", "abc/def/ghi"); ("//abc", "/abc"); ("///abc", "/abc");
    ("//abc//", "/abc"); ("abc//", "abc");
    ("abc/./def", "abc/def"); ("/./abc/def", "/abc/def"); ("abc/.", "abc");
    ("abc/def/ghi/../jkl", "abc/def/jkl"); ("abc/def/../ghi/../jkl", "abc/jkl");
    ("abc/def/..", "abc"); ("abc/def/../..", "."); ("/abc/def/../..", "/");
    ("abc/def/../../..", ".."); ("/abc/def/../../..", "/");
    ("abc/def/../../../ghi/jkl/../../../mno", "../../mno"); ("/../abc", "/abc");
    ("abc/./../def", "def"); ("abc//./../def", "def");
    ("abc/../../././../def", "../../def") ].

Definition matchTable : list (string * string * bool) :=
  [ ("abc", "abc", true); ("*", "abc", true); ("*c", "abc", true);
    ("a*", "a", true); ("a*", "abc", true); ("a*", "ab/c", false);
    ("a*/b", "abc/b", true); ("a*/b", "a/c/b", false);
    ("a*b*c*d*e*/f", "axbxcxdxe/f", true);
    ("a*b*c*d*e*/f", "axbxcxdxexxx/f", true);
    ("a*b*c*d*e*/f", "axbxcxdxe/xxx/f", false);
    ("a*b*c*d*e*/f", "axbxcxdxexxx/fff", false);
    ("a*b?c*x", "abxbbxdbxebxczzx", true);
    ("a*b?c*x", "abxbbxdbxebxczzy", false);
    ("ab[c]", "abc", true); ("ab[b-d]", "abc", true); ("ab[e-g]", "abc", false);
    ("ab[^c]", "abc", false); ("ab[^b-d]", "abc", false); ("ab[^e-g]", "abc", true);
    ("a\*b", "a*b", true); ("a\*b", "ab", false);
    ("a?b", "a/b", false); ("a*b", "a/b", false);
    ("[\]a]", "]", true); ("[\-]", "-", true); ("[x\-]", "x", true);
    ("[x\-]", "-", true); ("[x\-]", "z", false); ("[\-x]", "x", true);
    ("[\-x]", "-", true); ("[\-x]", "a", false);
    ("[]a]", "]", false); ("[-]", "-", false); ("[x-]", "x", false);
    ("[x-]", "-", false); ("[x-]", "z", false); ("[-x]", "x", false);
    ("[-x]", "-", false); ("[-x]", "a", false);
    ("\", "a", false); ("[a-b-c]", "a", false); ("[", "a", false);
    ("[^", "a", false); ("[^bc", "a", false); ("a[", "a", false);
    ("a[", "ab", false); ("a[", "x", false); ("a/b[", "x", false);
    ("*x", "xxx", true) ].

Definition baseTable : list (string * string) :=
  [ ("", "."); (".", "."); ("/.", "."); ("/", "/"); ("////", "/"); ("x/", "x");
    ("abc", "abc"); ("abc/def", "def"); ("a/b/.x", ".x"); ("a/b/c.", "c.");
    ("a/b/c.x", "c.x") ].

End tables.

(** ** The rest of [fileserver/fileserver.go] and notions for its properties *)

From Stdlib Require Import Permutation Sorted.

(** The filter as the pipeline sees it. *)
Module plugin.

(** [results] *)
Definition results : list gostring :=
  [fileserver.resultIllegalADSPath; fileserver.resultIllegalShortName;
   fileserver.resultMethodNotAllowed; fileserver.resultNotFound;
   fileserver.resultErrPermission; fileserver.resultErrHandleFile].

(** [fsrv.Results()] *)
Definition Results : list gostring := results.

End plugin.

(** Notions for cleaned paths and for the ETag. *)
Module cleanpath.

Import lexical.

(** A state of the lexical reading that a path can have: plain names,
    and no leading [..] element in a rooted path. *)
Definition valid (rooted : bool) (st : state) : Prop :=
  Forall plainName (snd st) /\ (rooted = true -> fst st = 0).

(** The bytes of an ETag between its quotes. *)
Definition etagByte (c : ascii) : bool :=
  existsb (byte_eqb c) strconv.digits || byte_eqb c "-"%char.

End cleanpath.


(** The exits of [handle] after the platform guard, each with the
    context it leaves. *)
Module exits.

Import fileserver trace.

(** The calls to the file system among the events. *)
Definition fileAccess (e : Event) : bool :=
  match e with
  | EvServeContent _ _ _ => false
  | _ => true
  end.

Section Exits.

Variable getwd : option gostring.
Variable ReplaceAll : gostring -> gostring -> gostring.
Variable TypeByExtension : gostring -> gostring.
Variable ServeContent : Serving.
Variable spec : Spec.
Variable r : Request.
Variable c : Context.

(** [root], the first [filename] and [filesToHide] of [handle], and
    [indexPath] for an index name. *)
Definition root : gostring := ReplaceAll (Root spec) ".".

Definition requested : gostring := util.SanitizedPathJoin root (Path r).

Definition filesToHide : list gostring := transformHidePaths getwd ReplaceAll spec.

Definition indexPath (n : gostring) : gostring :=
  util.SanitizedPathJoin requested (ReplaceAll n "").

(** The context after [ctx.AddTag(tag)], [w.SetStatusCode(status)] and
    the calls [events]. *)
Definition rejection (tag : gostring) (status : nat) (events : list Event) : Context :=
  mkContext (ctxTags c ++ [tag]) status (ctxHeader c) (ctxEvents c ++ events).

(** [mapDirOpenError] has turned [err] into [err'] with the calls
    [stats]. *)
Definition mapped (err err' : GoError) (stats : list Event) : Prop :=
  Forall isStat stats
  /\ (isNotExist err = true \/ isPermission err = true -> err' = err /\ stats = [])
  /\ (err' = err \/ err' = ErrNotExist).

(** [info] and [filename] after the search for an index file, with the
    calls [stats] made after the first [Stat]: they are those of the
    requested file, or those of an index file of it. *)
Inductive settles (info : FileInfo) (filename : gostring) (stats : list Event) : Prop :=
| SettlesRequested :
    fsStat (fileSystem spec) requested = Ok info ->
    filename = requested ->
    Forall isStat stats ->
    settles info filename stats
| SettlesIndex (dirInfo : FileInfo) (n : gostring) :
    fsStat (fileSystem spec) requested = Ok dirInfo ->
    IsDir dirInfo = true ->
    In n (IndexNames spec) ->
    filename = indexPath n ->
    fileHidden getwd filename filesToHide = false ->
    fsStat (fileSystem spec) filename = Ok info ->
    Forall isStat stats ->
    In (EvStat filename) stats ->
    settles info filename stats.

(** The header after the lines on [Content-Type]. *)
Definition contentTyped (filename : gostring) (h : Header) : Header :=
  if length (header.Get h "Content-Type") =? 0 then
    let mtyp := TypeByExtension (filepath.Ext filename) in
    if length mtyp =? 0
    then header.Del h "Content-Type"
    else header.Set_ h "Content-Type" mtyp
  else h.

Inductive resolution : gostring * Context -> Prop :=
| StatNotFound (err err' : GoError) (stats : list Event) :
    fsStat (fileSystem spec) requested = Err err ->
    mapped err err' stats ->
    isNotExist err' || isInvalid err' = true ->
    resolution (resultNotFound,
                rejection "not found" StatusNotFound (EvStat requested :: stats))
| StatPermission (err err' : GoError) (stats : list Event) :
    fsStat (fileSystem spec) requested = Err err ->
    mapped err err' stats ->
    isNotExist err' || isInvalid err' = false ->
    isPermission err' = true ->
    resolution (resultErrPermission,
                rejection (errText err') StatusForbidden (EvStat requested :: stats))
| StatOther (err err' : GoError) (stats : list Event) :
    fsStat (fileSystem spec) requested = Err err ->
    mapped err err' stats ->
    isNotExist err' || isInvalid err' = false ->
    isPermission err' = false ->
    resolution (resultErrHandleFile,
                rejection (errText err') StatusInternalServerError
                          (EvStat requested :: stats))
| StillDirectory (info : FileInfo) (filename : gostring) (stats : list Event) :
    settles info filename stats ->
    IsDir info = true ->
    resolution (resultNotFound,
                rejection "not found" StatusNotFound (EvStat requested :: stats))
| Hidden (info : FileInfo) (filename : gostring) (stats : list Event) :
    settles info filename stats ->
    IsDir info = false ->
    fileHidden getwd filename filesToHide = true ->
    resolution (resultNotFound,
                rejection "not found" StatusNotFound (EvStat requested :: stats))
| OpenNotFound (info : FileInfo) (filename : gostring) (stats : list Event)
               (err err' : GoError) (stats' : list Event) :
    settles info filename stats ->
    IsDir info = false ->
    fileHidden getwd filename filesToHide = false ->
    fsOpen (fileSystem spec) filename = Err err ->
    mapped err err' stats' ->
    isNotExist err' = true ->
    resolution (resultNotFound,
                rejection "not found" StatusNotFound
                          (EvStat requested :: stats ++ EvOpen filename :: stats'))
| OpenPermission (info : FileInfo) (filename : gostring) (stats : list Event)
                 (err err' : GoError) (stats' : list Event) :
    settles info filename stats ->
    IsDir info = false ->
    fileHidden getwd filename filesToHide = false ->
    fsOpen (fileSystem spec) filename = Err err ->
    mapped err err' stats' ->
    isNotExist err' = false ->
    isPermission err' = true ->
    resolution (resultErrPermission,
                rejection "permission denied" StatusForbidden
                          (EvStat requested :: stats ++ EvOpen filename :: stats'))
| OpenOther (info : FileInfo) (filename : gostring) (stats : list Event)
            (err err' : GoError) (stats' : list Event) :
    settles info filename stats ->
    IsDir info = false ->
    fileHidden getwd filename filesToHide = false ->
    fsOpen (fileSystem spec) filename = Err err ->
    mapped err err' stats' ->
    isNotExist err' = false ->
    isPermission err' = false ->
    resolution (resultErrHandleFile,
                rejection (errText err') StatusInternalServerError
                          (EvStat requested :: stats ++ EvOpen filename :: stats'))
| NotAllowed (info : FileInfo) (filename : gostring) (stats : list Event) (file : File) :
    settles info filename stats ->
    IsDir info = false ->
    fileHidden getwd filename filesToHide = false ->
    fsOpen (fileSystem spec) filename = Ok file ->
    Method r <> MethodGet ->
    Method r <> MethodHead ->
    resolution (resultMethodNotAllowed,
                mkContext (ctxTags c) StatusMethodNotAllowed
                          (header.Add (ctxHeader c) "Allow" "GET, HEAD")
                          (ctxEvents c
                             ++ EvStat requested
                             :: stats ++ [EvOpen filename; EvClose (fileName file)]))
| Served (info : FileInfo) (filename : gostring) (stats : list Event) (file : File) :
    settles info filename stats ->
    IsDir info = false ->
    fileHidden getwd filename filesToHide = false ->
    fsOpen (fileSystem spec) filename = Ok file ->
    Method r = MethodGet \/ Method r = MethodHead ->
    resolution ([],
                mkContext (ctxTags c) (ctxStatus c)
                          (ServeContent
                             r (Name info) (ModTimeUnix info) file
                             (contentTyped filename
                                           (header.Set_ (ctxHeader c) "Etag"
                                                        (calculateEtag info))))
                          (ctxEvents c
                             ++ EvStat requested
                             :: stats ++ [EvOpen filename;
                                          EvServeContent (Name info) (ModTimeUnix info)
                                                         (fileName file);
                                          EvClose (fileName file)])).

End Exits.

End exits.

(** File systems on which every call fails with the same error. *)
Module faults.

Definition EACCES : GoError := mkError KindPermission "permission denied".

Definition EIO : GoError := mkError KindOther "input/output error".

Definition failing (e : GoError) : FS := mkFS (fun _ => Err e) (fun _ => Err e).

Definition failingSpec (e : GoError) : fileserver.Spec :=
  fileserver.mkSpec (failing e) "/site" [] (gostrings ["index.html"; "index.txt"]).

End faults.
(** ** Evaluation on concrete inputs *)

(** The functions of the standard library, on cases of the test tables
    of the Go distribution. *)

Example Clean_table :
  forallb (fun t : string * string => gostring_eqb (filepath.Clean (fst t)) (snd t))
          tables.cleanTable = true.
Proof. vm_compute. reflexivity. Qed.

Example Match_table :
  forallb (fun t : string * string * bool =>
             Bool.eqb (filepath.Match (fst (fst t)) (snd (fst t))) (snd t))
          tables.matchTable = true.
Proof. vm_compute. reflexivity. Qed.

(** A question mark and a negated class take a whole UTF-8 sequence,
    here the three bytes of U+263A. *)
Example Match_rune :
  let smiley : gostring := ["226"%char; "152"%char; "186"%char] in
  filepath.Match "a?b" ("a" ++ smiley ++ "b") = true
  /\ filepath.Match "a[^a]b" ("a" ++ smiley ++ "b") = true
  /\ filepath.Match "a???b" ("a" ++ smiley ++ "b") = false
  /\ utf8.DecodeRuneInString smiley = (9786%N, 3).
Proof. vm_compute. repeat split; reflexivity. Qed.

Example Base_table :
  forallb (fun t : string * string => gostring_eqb (path.Base (fst t)) (snd t))
          tables.baseTable = true.
Proof. vm_compute. reflexivity. Qed.

Example FormatInt_examples :
  strconv.FormatInt 0 36 = "0"%string
  /\ strconv.FormatInt 35 36 = "z"%string
  /\ strconv.FormatInt 36 36 = "10"%string
  /\ strconv.FormatInt (-37) 36 = "-11"%string
  /\ strconv.FormatInt 1700000000 36 = "s44we8"%string
  /\ strconv.FormatInt (2 ^ 63 - 1) 36 = "1y2p0ij32e8e7"%string
  /\ strconv.FormatInt (- 2 ^ 63) 36 = "-1y2p0ij32e8e8"%string.
Proof. vm_compute. repeat split; reflexivity. Qed.

Example SanitizedPathJoin_examples :
  util.SanitizedPathJoin "/site" "/../../etc/passwd" = "/site/etc/passwd"%string
  /\ util.SanitizedPathJoin "" "/" = "."%string
  /\ util.SanitizedPathJoin "" "foo/../../bar" = "bar"%string
  /\ util.SanitizedPathJoin "/a/b" "/foo/" = "/a/b/foo/"%string
  /\ util.SanitizedPathJoin "/a/b" "/foo" = "/a/b/foo"%string
  /\ util.SanitizedPathJoin "a/.." "x/../../y" = "y"%string
  /\ util.SanitizedPathJoin "../r" "/x" = "../r/x"%string.
Proof. vm_compute. repeat split; reflexivity. Qed.

(** ** The ETag *)

Section Etag.

Import strconv base36.
Local Open Scope Z_scope.

Lemma digitValue_digit (x : Z) : 0 <= x < 36 -> digitValue (digit x) = x.
Proof.
  intros Hx.
  assert (Hn : (Z.to_nat x < 36)%nat) by lia.
  rewrite <- (Z2Nat.id x) at 2 by lia.
  unfold digitValue, digit.
  generalize dependent (Z.to_nat x). clear x Hx.
  intros n Hn.
  do 36 (destruct n as [|n]; [reflexivity|]). lia.
Qed.

Lemma digit_not_minus (x : Z) : 0 <= x < 36 -> byte_eqb (digit x) "-"%char = false.
Proof.
  intros Hx.
  assert (Hn : (Z.to_nat x < 36)%nat) by lia.
  unfold digit. generalize dependent (Z.to_nat x). clear x Hx.
  intros n Hn.
  do 36 (destruct n as [|n]; [reflexivity|]). lia.
Qed.

Lemma magnitude_from (l : gostring) (x : Z) :
  fold_left (fun acc c => acc * 36 + digitValue c) l x
  = x * 36 ^ Z.of_nat (length l) + magnitude l.
Proof.
  unfold magnitude. revert x.
  induction l as [|c l IH]; intros x.
  - simpl. lia.
  - cbn [fold_left length]. rewrite IH. rewrite (IH (0 * 36 + digitValue c)).
    rewrite Nat2Z.inj_succ, Z.pow_succ_r by lia. ring.
Qed.

Lemma magnitude_cons (c : ascii) (l : gostring) :
  magnitude (c :: l) = digitValue c * 36 ^ Z.of_nat (length l) + magnitude l.
Proof.
  unfold magnitude at 1. cbn [fold_left]. rewrite magnitude_from. ring.
Qed.

(** The digits the loop writes in front of [a] denote [u]. *)
Lemma formatBitsLoop_magnitude (fuel : nat) :
  forall u a, 0 <= u < 36 ^ Z.of_nat fuel ->
    magnitude (formatBitsLoop fuel u 36 a)
    = u * 36 ^ Z.of_nat (length a) + magnitude a.
Proof.
  induction fuel as [|fuel IH]; intros u a Hu.
  - simpl in Hu. assert (u = 0) by lia. subst u. simpl. lia.
  - rewrite Nat2Z.inj_succ, Z.pow_succ_r in Hu by lia.
    cbn [formatBitsLoop]. destruct (Z.leb_spec 36 u) as [Hge|Hlt].
    + rewrite IH.
      * rewrite magnitude_cons, digitValue_digit.
        -- cbn [length]. rewrite Nat2Z.inj_succ, Z.pow_succ_r by lia.
           pose proof (Z.div_mod u 36). lia.
        -- pose proof (Z.mod_pos_bound u 36). pose proof (Z.div_mod u 36). lia.
      * split; [apply Z.div_pos; lia|].
        apply Z.div_lt_upper_bound; lia.
    + rewrite magnitude_cons, digitValue_digit by lia. ring.
Qed.

Lemma formatBitsLoop_head (fuel : nat) :
  forall u a, 0 <= u ->
    exists x rest, 0 <= x < 36 /\ formatBitsLoop (S fuel) u 36 a = digit x :: rest.
Proof.
  induction fuel as [|fuel IH]; intros u a Hu.
  - cbn [formatBitsLoop]. destruct (Z.leb_spec 36 u).
    + exists (u - u / 36 * 36), a. split; [|reflexivity].
      pose proof (Z.mod_pos_bound u 36). pose proof (Z.div_mod u 36). lia.
    + exists u, a. split; [lia|reflexivity].
  - remember (S fuel) as f. cbn [formatBitsLoop]. subst f.
    destruct (Z.leb_spec 36 u).
    + apply IH. apply Z.div_pos; lia.
    + exists u, a. split; [lia|reflexivity].
Qed.

(** [FormatInt(i, 36)] is a base-36 numeral of [i]. *)
Lemma FormatInt_value (i : Z) : int64 i -> value (FormatInt i 36) = i.
Proof.
  unfold int64. intros Hi. unfold FormatInt.
  assert (H65 : 2 ^ 63 < 36 ^ Z.of_nat 65) by (vm_compute; reflexivity).
  destruct (Z.ltb_spec i 0) as [Hneg|Hpos].
  - unfold value. cbn [byte_eqb]. change (byte_eqb "-" "-") with true. cbv iota.
    rewrite formatBitsLoop_magnitude by lia. simpl length. cbn. lia.
  - destruct (formatBitsLoop_head 64 i [] Hpos) as (x & rest & Hx & Heq).
    pose proof (formatBitsLoop_magnitude 65 i [] ltac:(lia)) as Hm.
    rewrite Heq in *. unfold value. rewrite digit_not_minus by exact Hx.
    rewrite Hm. simpl length. cbn. lia.
Qed.

Lemma FormatInt_injective (i j : Z) :
  int64 i -> int64 j -> FormatInt i 36 = FormatInt j 36 -> i = j.
Proof.
  intros Hi Hj Heq.
  rewrite <- (FormatInt_value i Hi), <- (FormatInt_value j Hj), Heq. reflexivity.
Qed.

End Etag.

(** Two files that differ in both the modification time and the size can
    share an ETag: the two numerals are concatenated without a mark
    between them. *)
Remark calculateEtag_joint_change_collides :
  fileserver.calculateEtag (mkFileInfo "a" 36 1 false)
  = fileserver.calculateEtag (mkFileInfo "b" 0 37 false).
Proof. reflexivity. Qed.

(** C4 as claimed fails: a change of the modification time or of the
    size does not always change the ETag.  The files with modification
    time 1 and size 36, and with modification time 37 and size 0, differ
    in both and have the same ETag, ["110"] between the quotes. *)
Lemma calculateEtag_change_without_effect :
  ~ (forall d1 d2 : FileInfo,
        int64 (ModTimeUnix d1) -> int64 (Size d1) ->
        int64 (ModTimeUnix d2) -> int64 (Size d2) ->
        ModTimeUnix d1 <> ModTimeUnix d2 \/ Size d1 <> Size d2 ->
        fileserver.calculateEtag d1 <> fileserver.calculateEtag d2).
Proof.
  intros H.
  apply (H (mkFileInfo "a" 36 1 false) (mkFileInfo "b" 0 37 false));
    try (unfold int64; cbn [ModTimeUnix Size]; lia).
  reflexivity.
Qed.

(** C4, amended: the ETag is the quoted concatenation of the base-36
    numerals of the modification time in Unix seconds and of the size;
    file informations with the same modification time and size have the
    same ETag whatever their other fields; a change of the modification
    time with the size kept, or of the size with the modification time
    kept, changes the ETag; a change of both may leave it as it is. *)
Theorem calculateEtag_mtime_size (d1 d2 : FileInfo)
  (Ht1 : int64 (ModTimeUnix d1)) (Hs1 : int64 (Size d1))
  (Ht2 : int64 (ModTimeUnix d2)) (Hs2 : int64 (Size d2)) :
  (fileserver.calculateEtag d1
   = [fileserver.quote] ++ strconv.FormatInt (ModTimeUnix d1) 36
       ++ strconv.FormatInt (Size d1) 36 ++ [fileserver.quote]
   /\ base36.value (strconv.FormatInt (ModTimeUnix d1) 36) = ModTimeUnix d1
   /\ base36.value (strconv.FormatInt (Size d1) 36) = Size d1)
  /\ (ModTimeUnix d1 = ModTimeUnix d2 -> Size d1 = Size d2 ->
      fileserver.calculateEtag d1 = fileserver.calculateEtag d2)
  /\ (ModTimeUnix d1 <> ModTimeUnix d2 -> Size d1 = Size d2 ->
      fileserver.calculateEtag d1 <> fileserver.calculateEtag d2)
  /\ (ModTimeUnix d1 = ModTimeUnix d2 -> Size d1 <> Size d2 ->
      fileserver.calculateEtag d1 <> fileserver.calculateEtag d2)
  /\ (exists e1 e2 : FileInfo,
         (int64 (ModTimeUnix e1) /\ int64 (Size e1))
         /\ (int64 (ModTimeUnix e2) /\ int64 (Size e2))
         /\ ModTimeUnix e1 <> ModTimeUnix e2
         /\ Size e1 <> Size e2
         /\ fileserver.calculateEtag e1 = fileserver.calculateEtag e2).
Proof.
  assert (Hboth : exists e1 e2 : FileInfo,
             (int64 (ModTimeUnix e1) /\ int64 (Size e1))
             /\ (int64 (ModTimeUnix e2) /\ int64 (Size e2))
             /\ ModTimeUnix e1 <> ModTimeUnix e2
             /\ Size e1 <> Size e2
             /\ fileserver.calculateEtag e1 = fileserver.calculateEtag e2).
  { exists (mkFileInfo "a" 36 1 false), (mkFileInfo "b" 0 37 false).
    unfold int64. cbn [ModTimeUnix Size].
    repeat split; try lia; try discriminate. }
  split; [|split; [|split; [|split; [|exact Hboth]]]]; clear Hboth;
    unfold fileserver.calculateEtag.
  repeat split.
  - apply FormatInt_value; assumption.
  - apply FormatInt_value; assumption.
  - intros -> ->. reflexivity.
  - intros Hne Hsz Heq. apply Hne. rewrite Hsz in Heq.
    apply app_inv_head in Heq. apply app_inv_tail in Heq.
    apply FormatInt_injective; assumption.
  - intros Hmt Hne Heq. apply Hne. rewrite Hmt in Heq.
    apply app_inv_head in Heq. apply app_inv_head in Heq.
    apply app_inv_tail in Heq.
    apply FormatInt_injective; assumption.
Qed.

Lemma calculateEtag_mtime_size_witness :
  fileserver.calculateEtag (mkFileInfo "index.html" 1024 1700000000 false)
  = [fileserver.quote] ++ "s44we8" ++ "sg" ++ [fileserver.quote]
  /\ fileserver.calculateEtag (mkFileInfo "index.html" 1024 1700000000 false)
     <> fileserver.calculateEtag (mkFileInfo "index.html" 1025 1700000000 false).
Proof.
  pose proof (calculateEtag_mtime_size
                (mkFileInfo "index.html" 1024 1700000000 false)
                (mkFileInfo "index.html" 1025 1700000000 false)) as H.
  cbn [ModTimeUnix Size] in H.
  specialize (H ltac:(unfold int64; lia) ltac:(unfold int64; lia)
                ltac:(unfold int64; lia) ltac:(unfold int64; lia)).
  destruct H as [[H0 _] [_ [_ [H3 _]]]].
  split.
  - exact H0.
  - apply H3; [reflexivity | discriminate].
Defined.

(** ** [filepath.Clean], element by element *)

Section CleanRefinement.

Import filepath lexical cleanstate.

Lemma byte_eqb_eq (a b : ascii) : byte_eqb a b = true <-> a = b.
Proof. apply Ascii.eqb_eq. Qed.

Lemma gostring_eqb_eq (a b : gostring) : gostring_eqb a b = true <-> a = b.
Proof.
  unfold gostring_eqb. destruct (list_eq_dec ascii_dec a b); split; congruence.
Qed.

Lemma gostring_eqb_neq (a b : gostring) : gostring_eqb a b = false <-> a <> b.
Proof.
  unfold gostring_eqb. destruct (list_eq_dec ascii_dec a b); split; congruence.
Qed.

Lemma gostring_eqb_refl (a : gostring) : gostring_eqb a a = true.
Proof. apply gostring_eqb_eq. reflexivity. Qed.

(** *** The loop on one element *)

Lemma cleanLoop_copy (rooted : bool) (e tail : gostring) :
  sepFree e -> atEndOrSep tail = true ->
  forall out dotdot,
    cleanLoop rooted (e ++ tail) true out dotdot
    = afterElem rooted tail (rev e ++ out, dotdot).
Proof.
  intros He Ht. induction He as [|c e Hc He IH]; intros out dotdot.
  - destruct tail as [|t b]; [reflexivity|].
    simpl in Ht. simpl. rewrite Ht. reflexivity.
  - cbn [app cleanLoop]. rewrite Hc. rewrite IH.
    cbn [rev]. rewrite <- app_assoc. reflexivity.
Qed.

Lemma atEndOrSep_app (e tail : gostring) :
  sepFree e -> atEndOrSep tail = true ->
  atEndOrSep (e ++ tail) = match e with [] => true | _ => false end.
Proof.
  intros He Ht. destruct e as [|c e]; [exact Ht|].
  inversion He; subst. assumption.
Qed.

Lemma cleanLoop_tail (rooted : bool) (tail : gostring) :
  atEndOrSep tail = true ->
  forall out dotdot,
    cleanLoop rooted tail false out dotdot = afterElem rooted tail (out, dotdot).
Proof.
  intros Ht out dotdot. destruct tail as [|t b]; [reflexivity|].
  simpl in Ht. cbn [cleanLoop afterElem fst snd]. rewrite Ht. reflexivity.
Qed.

Lemma applyElem_dotdot (rooted : bool) (out : gostring) (dotdot : nat) :
  applyElem rooted ".." out dotdot
  = if dotdot <? length out then (backtrack out dotdot, dotdot)
    else if negb rooted then
      let out2 := "."%char :: "."%char
                  :: (if 0 <? length out then Separator :: out else out) in
      (out2, length out2)
    else (out, dotdot).
Proof. reflexivity. Qed.

Lemma applyElem_name (rooted : bool) (e out : gostring) (dotdot : nat) :
  e <> [] -> e <> "."%string -> e <> ".."%string ->
  applyElem rooted e out dotdot = (rev e ++ slashIfNeeded rooted out, dotdot).
Proof.
  intros H0 H1 H2. unfold applyElem.
  apply gostring_eqb_neq in H0, H1, H2.
  change (gostring_eqb e "") with (gostring_eqb e []).
  rewrite H0, H1, H2. reflexivity.
Qed.

Lemma cleanLoop_element (rooted : bool) (e tail : gostring) :
  sepFree e -> atEndOrSep tail = true ->
  forall out dotdot,
    cleanLoop rooted (e ++ tail) false out dotdot
    = afterElem rooted tail (applyElem rooted e out dotdot).
Proof.
  intros He Ht out dotdot.
  destruct e as [|c e].
  - (* the empty element *)
    apply cleanLoop_tail. assumption.
  - inversion He as [|? ? Hc He']; subst.
    cbn [app cleanLoop]. rewrite Hc.
    rewrite (atEndOrSep_app e tail He' Ht).
    destruct e as [|c1 e].
    + (* one byte *)
      destruct (isDot c) eqn:Hdot.
      * apply byte_eqb_eq in Hdot. subst c.
        cbn [andb app]. apply cleanLoop_tail. assumption.
      * cbn [andb app].
        rewrite applyElem_name; try discriminate.
        2:{ intros Heq. inversion Heq; subst. discriminate. }
        destruct tail as [|t b]; [reflexivity|].
        simpl in Ht. cbn [afterElem fst snd rev app cleanLoop].
        rewrite Ht. reflexivity.
    + (* two bytes or more *)
      inversion He' as [|? ? Hc1 He'']; subst.
      cbn [andb app].
      rewrite andb_false_r.
      rewrite (atEndOrSep_app e tail He'' Ht).
      destruct (isDot c && isDot c1 && match e with [] => true | _ => false end) eqn:Hdd.
      * (* the element [..] *)
        apply andb_prop in Hdd. destruct Hdd as [Hdd He0].
        apply andb_prop in Hdd. destruct Hdd as [Hd Hd1].
        apply byte_eqb_eq in Hd, Hd1. subst c c1.
        destruct e; [|discriminate].
        cbn [app].
        change ["."%char; "."%char] with (list_ascii_of_string "..").
        rewrite applyElem_dotdot.
        destruct (dotdot <? length out); [apply cleanLoop_tail; assumption|].
        destruct rooted; cbn [negb]; apply cleanLoop_tail; assumption.
      * (* a name *)
        rewrite applyElem_name; try discriminate.
        2:{ intros Heq. inversion Heq; subst. discriminate. }
        change (c1 :: e ++ tail) with ((c1 :: e) ++ tail).
        rewrite cleanLoop_copy by assumption.
        cbn [rev]. rewrite <- !app_assoc. reflexivity.
Qed.

(** *** Joining elements *)

Local Abbreviation J l := (strings.Join l [Separator]).

Lemma Join_cons (e : gostring) (l : list gostring) :
  l <> [] -> J (e :: l) = e ++ Separator :: J l.
Proof. destruct l; [congruence|reflexivity]. Qed.

Lemma Join_app (l1 l2 : list gostring) :
  l1 <> [] -> l2 <> [] -> J (l1 ++ l2) = J l1 ++ Separator :: J l2.
Proof.
  intros H1 H2. induction l1 as [|e l1 IH]; [congruence|].
  destruct l1 as [|e' l1].
  - cbn [app]. rewrite Join_cons by assumption. reflexivity.
  - change ((e :: e' :: l1) ++ l2) with (e :: ((e' :: l1) ++ l2)).
    rewrite Join_cons by discriminate.
    rewrite IH by discriminate.
    rewrite (Join_cons e (e' :: l1)) by discriminate.
    rewrite <- app_assoc. reflexivity.
Qed.

Lemma Join_snoc (l : list gostring) (e : gostring) :
  l <> [] -> J (l ++ [e]) = J l ++ Separator :: e.
Proof. intros H. rewrite Join_app by (assumption || discriminate). reflexivity. Qed.

Lemma Join_nonempty (l : list gostring) :
  Forall (fun e => e <> []) l -> l <> [] -> J l <> [].
Proof.
  intros Hall Hne. destruct l as [|e l]; [congruence|].
  inversion Hall; subst. destruct l.
  - assumption.
  - rewrite Join_cons by discriminate. destruct e; [congruence|discriminate].
Qed.

Lemma repeat_nonempty (ups : nat) :
  Forall (fun e : gostring => e <> []) (repeat (".."%string : gostring) ups).
Proof. induction ups; constructor; [discriminate|assumption]. Qed.

Lemma plain_nonempty (names : list gostring) :
  Forall plainName names -> Forall (fun e : gostring => e <> []) names.
Proof. apply Forall_impl. intros e He. apply He. Qed.

Lemma kept_nonempty (ups : nat) (names : list gostring) :
  Forall plainName names ->
  Forall (fun e : gostring => e <> [])
         (repeat (".."%string : gostring) ups ++ rev names).
Proof.
  intros H. apply Forall_app. split; [apply repeat_nonempty|].
  apply Forall_rev. apply plain_nonempty. assumption.
Qed.

(** *** Dropping the last name *)

Lemma backtrack_name (m : gostring) :
  m <> [] -> Forall (fun c => isPathSeparator c = false) m ->
  forall base dotdot,
    (length base = dotdot -> backtrack (m ++ base) dotdot = base)
    /\ (forall base', base = Separator :: base' -> dotdot <= length base' ->
        backtrack (m ++ base) dotdot = base').
Proof.
  intros Hne Hm. induction Hm as [|c m Hc Hm IH]; [congruence|].
  intros base dotdot. cbn [app backtrack]. rewrite Hc. cbn [negb].
  destruct m as [|c' m].
  - cbn [app]. split.
    + intros <-. rewrite Nat.ltb_irrefl. reflexivity.
    + intros base' -> Hle. cbn [length].
      replace (dotdot <? S (length base')) with true
        by (symmetry; apply Nat.ltb_lt; lia).
      cbn [andb backtrack]. rewrite andb_false_r. reflexivity.
  - specialize (IH ltac:(discriminate) base dotdot). destruct IH as [IH1 IH2].
    split.
    + intros Hlen.
      replace (dotdot <? length ((c' :: m) ++ base)) with true
        by (symmetry; apply Nat.ltb_lt; rewrite length_app; cbn [length]; lia).
      cbn [andb]. apply IH1. assumption.
    + intros base' Hb Hle.
      replace (dotdot <? length ((c' :: m) ++ base)) with true
        by (symmetry; apply Nat.ltb_lt; subst base; rewrite length_app;
            cbn [length]; lia).
      cbn [andb]. apply IH2; assumption.
Qed.

(** *** The loop state stands for the path read so far *)

Lemma sepFree_rev (e : gostring) : sepFree e -> sepFree (rev e).
Proof. apply Forall_rev. Qed.

Lemma kept_empty (ups : nat) (names : list gostring) :
  repeat (".."%string : gostring) ups ++ rev names = [] -> ups = 0 /\ names = [].
Proof.
  intros H. apply app_eq_nil in H. destruct H as [Hu Hn].
  split.
  - destruct ups; [reflexivity|discriminate].
  - destruct names as [|n names]; [reflexivity|].
    cbn [rev] in Hn. apply app_eq_nil in Hn. destruct Hn; discriminate.
Qed.

Lemma Join_prefix_length (l1 l2 : list gostring) :
  length (J l1) <= length (J (l1 ++ l2)).
Proof.
  destruct l1 as [|e l1]; [cbn; lia|].
  destruct l2 as [|e2 l2]; [rewrite app_nil_r; lia|].
  rewrite Join_app by discriminate. rewrite length_app. lia.
Qed.

Lemma Rep_dotdot (rooted : bool) (st : state) (out : gostring) (dotdot : nat) :
  Rep rooted st out dotdot ->
  (snd st <> [] -> (dotdot <? length out) = true)
  /\ (snd st = [] -> dotdot = length out).
Proof.
  destruct st as [ups names]. unfold Rep, body. cbn [fst snd].
  intros (Hpl & Hroot & Hout & Hdd).
  assert (Hlen : length out
                 = length ((if rooted then [Separator] else [])
                           ++ J (repeat (".."%string : gostring) ups ++ rev names))).
  { rewrite <- (length_rev out), Hout. reflexivity. }
  split.
  - intros Hne. apply Nat.ltb_lt. rewrite Hlen, Hdd, !length_app.
    destruct names as [|n names]; [congruence|]. cbn [rev].
    rewrite app_assoc.
    remember (repeat (".."%string : gostring) ups ++ rev names) as L.
    assert (Hn : n <> []) by (inversion Hpl as [|? ? Hp ?]; apply Hp).
    destruct L as [|e L].
    + symmetry in HeqL. apply kept_empty in HeqL. destruct HeqL as [-> _].
      destruct n; [congruence|]. destruct rooted; simpl; lia.
    + rewrite Join_snoc by discriminate. rewrite length_app. cbn [length].
      pose proof (Join_prefix_length (repeat (".."%string : gostring) ups) (rev names)).
      rewrite <- HeqL in H. destruct rooted; cbn [length] in *; lia.
  - intros ->. cbn [rev] in *. rewrite app_nil_r in Hlen.
    rewrite Hlen, Hdd. destruct rooted; reflexivity.
Qed.

Lemma slashIfNeeded_Rep (rooted : bool) (st : state) (out : gostring) (dotdot : nat) :
  Rep rooted st out dotdot ->
  slashIfNeeded rooted out
  = match repeat (".."%string : gostring) (fst st) ++ rev (snd st) with
    | [] => out
    | _ => Separator :: out
    end.
Proof.
  destruct st as [ups names]. unfold Rep, body. cbn [fst snd].
  intros (Hpl & Hroot & Hout & Hdd).
  assert (Hlen : length out
                 = length ((if rooted then [Separator] else [])
                           ++ J (repeat (".."%string : gostring) ups ++ rev names))).
  { rewrite <- (length_rev out), Hout. reflexivity. }
  pose proof (kept_nonempty ups names Hpl) as Hall.
  unfold slashIfNeeded.
  destruct (repeat (".."%string : gostring) ups ++ rev names) as [|e L] eqn:HL.
  - destruct rooted; cbn in Hlen; rewrite Hlen; reflexivity.
  - pose proof (Join_nonempty _ Hall ltac:(discriminate)) as Hne.
    destruct (J (e :: L)) as [|x xs]; [congruence|].
    rewrite length_app in Hlen. cbn [length] in Hlen.
    destruct rooted; cbn [length] in Hlen; rewrite Hlen; reflexivity.
Qed.

Lemma Join_ups_succ (n : nat) :
  J (repeat (".."%string : gostring) (S (S n)))
  = J (repeat (".."%string : gostring) (S n)) ++ Separator :: ".."%string.
Proof.
  change (repeat (".."%string : gostring) (S (S n)))
    with ((".."%string : gostring) :: repeat (".."%string : gostring) (S n)).
  rewrite repeat_cons. apply Join_snoc. discriminate.
Qed.

Lemma applyElem_Rep (rooted : bool) (e : gostring) (st : state)
      (out : gostring) (dotdot : nat) :
  sepFree e -> Rep rooted st out dotdot ->
  Rep rooted (enter rooted st e)
      (fst (applyElem rooted e out dotdot)) (snd (applyElem rooted e out dotdot)).
Proof.
  intros He HR.
  pose proof (Rep_dotdot _ _ _ _ HR) as [Hlt Heq].
  pose proof (slashIfNeeded_Rep _ _ _ _ HR) as Hslash.
  destruct st as [ups names]. unfold enter, applyElem.
  destruct (gostring_eqb e "" || gostring_eqb e ".") eqn:Hskip; [exact HR|].
  apply orb_false_elim in Hskip. destruct Hskip as [H0 H1].
  destruct (gostring_eqb e "..") eqn:H2.
  - (* [..] *)
    cbn [fst snd] in *.
    destruct HR as (Hpl & Hroot & Hout & Hdd). unfold body in Hout. cbn [fst snd] in *.
    destruct names as [|n names].
    + rewrite (Heq eq_refl), Nat.ltb_irrefl.
      destruct rooted; cbn [negb fst snd].
      * unfold Rep, body. cbn [fst snd]. rewrite <- (Heq eq_refl). auto.
      * cbn [rev] in Hout. rewrite app_nil_r in Hout. cbn [app] in Hout.
        unfold Rep, body. cbn [fst snd rev]. rewrite app_nil_r.
        assert (Hnew : rev ("."%char :: "."%char
                             :: (if 0 <? length out then Separator :: out else out))
                       = J (repeat (".."%string : gostring) (S ups))).
        { destruct ups as [|ups].
          - cbn in Hout. destruct out as [|x out].
            + reflexivity.
            + apply (f_equal (@length ascii)) in Hout.
              rewrite length_rev in Hout. discriminate.
          - rewrite Join_ups_succ. rewrite <- Hout.
            assert (Hlo : (0 <? length out) = true).
            { apply Nat.ltb_lt. rewrite <- length_rev, Hout.
              destruct ups; cbn; lia. }
            rewrite Hlo. cbn [rev]. rewrite <- !app_assoc. reflexivity. }
        repeat split.
        -- constructor.
        -- discriminate.
        -- exact Hnew.
        -- cbn [app]. rewrite <- Hnew. rewrite length_rev. reflexivity.
    + rewrite (Hlt ltac:(discriminate)). cbn [fst snd].
      inversion Hpl as [|? ? Hn Hpl']; subst.
      destruct Hn as (Hn0 & _ & _ & Hnsep).
      assert (Hrn : rev n <> []).
      { intros Hr. apply Hn0. apply (f_equal (@rev ascii)) in Hr.
        rewrite rev_involutive in Hr. exact Hr. }
      pose proof (backtrack_name (rev n) Hrn (sepFree_rev n Hnsep)) as Hbt.
      unfold Rep, body. cbn [fst snd].
      split; [assumption|]. split; [assumption|]. split; [|reflexivity].
      cbn [rev] in Hout. rewrite app_assoc in Hout.
      apply (f_equal (@rev ascii)) in Hout. rewrite rev_involutive in Hout.
      pose proof (Join_prefix_length (repeat (".."%string : gostring) ups) (rev names))
        as Hp.
      destruct (repeat (".."%string : gostring) ups ++ rev names) as [|x L] eqn:HL.
      * apply kept_empty in HL. destruct HL as [-> ->].
        cbn [app strings.Join repeat] in *. rewrite app_nil_r.
        rewrite rev_app_distr in Hout. subst out.
        rewrite (proj1 (Hbt _ _)) by (rewrite length_rev; reflexivity).
        apply rev_involutive.
      * rewrite Join_snoc in Hout by discriminate.
        rewrite app_assoc, rev_app_distr in Hout. cbn [rev] in Hout.
        rewrite <- app_assoc in Hout. cbn [app] in Hout. subst out.
        rewrite (proj2 (Hbt _ _) _ eq_refl).
        -- apply rev_involutive.
        -- rewrite length_rev, !length_app. lia.
  - (* a name *)
    cbn [fst snd] in *.
    destruct HR as (Hpl & Hroot & Hout & Hdd). unfold body in Hout. cbn [fst snd] in *.
    apply gostring_eqb_neq in H0, H1, H2.
    unfold Rep, body. cbn [fst snd].
    repeat split; try assumption.
    + constructor; [|assumption]. repeat split; assumption.
    + rewrite Hslash. rewrite rev_app_distr, rev_involutive.
      cbn [rev]. rewrite app_assoc.
      destruct (repeat (".."%string : gostring) ups ++ rev names) as [|x L] eqn:HL.
      * rewrite Hout. cbn [strings.Join app]. rewrite app_nil_r. reflexivity.
      * rewrite Join_snoc by discriminate. cbn [rev]. rewrite Hout.
        rewrite <- !app_assoc. reflexivity.
Qed.

(** *** The loop on a whole path *)

Lemma elements_cases (s : gostring) :
  (sepFree s /\ elements s = [s])
  \/ (exists a b, sepFree a /\ s = a ++ Separator :: b
                  /\ elements s = a :: elements b).
Proof.
  unfold elements. induction s as [|c s IH].
  - left. split; [constructor|reflexivity].
  - cbn [strings.SplitByte]. destruct (byte_eqb c Separator) eqn:Hc.
    + right. apply byte_eqb_eq in Hc. subst c.
      exists [], s. repeat split. constructor.
    + destruct IH as [[Hs Hel]|(a & b & Ha & Hs & Hel)].
      * left. rewrite Hel. split; [constructor; assumption|reflexivity].
      * right. rewrite Hel. exists (c :: a), b.
        repeat split; [constructor; assumption|subst s; reflexivity].
Qed.

Lemma cleanLoop_read (rooted : bool) (n : nat) :
  forall s st out dotdot,
    length s <= n ->
    Rep rooted st out dotdot ->
    rev (cleanLoop rooted s false out dotdot)
    = (if rooted then [Separator] else [])
        ++ body (fold_left (enter rooted) (elements s) st)
    /\ Forall plainName (snd (fold_left (enter rooted) (elements s) st)).
Proof.
  induction n as [|n IH]; intros s st out dotdot Hlen HR.
  - destruct s; [|cbn in Hlen; lia].
    destruct st as [ups names]. unfold elements.
    cbn [cleanLoop strings.SplitByte fold_left].
    change (enter rooted (ups, names) []) with (ups, names).
    destruct HR as (Hpl & _ & Hout & _). split; assumption.
  - destruct (elements_cases s) as [[Hs Hel]|(a & b & Ha & Hs & Hel)].
    + rewrite Hel. cbn [fold_left].
      rewrite <- (app_nil_r s) at 1.
      rewrite cleanLoop_element by (assumption || reflexivity).
      cbn [afterElem].
      pose proof (applyElem_Rep rooted s st out dotdot Hs HR) as (Hpl & _ & Hout & _).
      split; assumption.
    + rewrite Hel. cbn [fold_left]. rewrite Hs.
      rewrite cleanLoop_element by (assumption || reflexivity).
      cbn [afterElem].
      apply IH.
      * subst s. rewrite length_app in Hlen. cbn [length] in Hlen. lia.
      * apply applyElem_Rep; assumption.
Qed.

Lemma Rep_start (rooted : bool) :
  Rep rooted (0, []) (if rooted then [Separator] else []) (if rooted then 1 else 0).
Proof. destruct rooted; repeat split; try constructor. Qed.

Lemma HasPrefix_slash (s : gostring) :
  strings.HasPrefix s "/"
  = match s with c :: _ => isPathSeparator c | [] => false end.
Proof.
  destruct s as [|c s]; [reflexivity|].
  cbn [strings.HasPrefix list_ascii_of_string].
  unfold isPathSeparator, Separator.
  destruct (byte_eqb c "/"); reflexivity.
Qed.

(** [filepath.Clean] reads its argument element by element. *)
Theorem Clean_refines (s : gostring) : Clean s = CleanSpec s.
Proof.
  unfold CleanSpec, read. rewrite HasPrefix_slash.
  destruct s as [|c s]; [reflexivity|].
  unfold Clean. destruct (isPathSeparator c) eqn:Hc.
  - pose proof (cleanLoop_read true (length s) s (0, []) [Separator] 1
                               (Nat.le_refl _) (Rep_start true)) as [Hout _].
    unfold elements at 1. cbn [strings.SplitByte].
    unfold isPathSeparator in Hc. rewrite Hc. cbn [fold_left enter].
    change (gostring_eqb [] "") with true. cbn [orb].
    unfold render. fold (elements s).
    destruct (cleanLoop true s false [Separator] 1) as [|x out] eqn:Hloop.
    + cbn in Hout. discriminate.
    + exact Hout.
  - pose proof (cleanLoop_read false (length (c :: s)) (c :: s) (0, []) [] 0
                               (Nat.le_refl _) (Rep_start false)) as [Hout _].
    cbn [app] in Hout. unfold render. rewrite <- Hout.
    destruct (cleanLoop false (c :: s) false [] 0) as [|x out]; [reflexivity|].
    destruct (rev (x :: out)) eqn:Hr; [|reflexivity].
    apply (f_equal (@length ascii)) in Hr. rewrite length_rev in Hr. discriminate.
Qed.

Lemma read_plain (rooted : bool) (s : gostring) :
  Forall plainName (snd (read rooted s)).
Proof.
  unfold read.
  apply (cleanLoop_read rooted (length s) s (0, []) _ _ (Nat.le_refl _) (Rep_start rooted)).
Qed.

(** *** A cleaned request joined onto a root *)

Lemma SplitByte_nonempty (s : gostring) (c : ascii) : strings.SplitByte s c <> [].
Proof.
  destruct s as [|x s]; cbn [strings.SplitByte]; [discriminate|].
  destruct (byte_eqb x c); [discriminate|].
  destruct (strings.SplitByte s c); discriminate.
Qed.

Lemma elements_app (a b : gostring) :
  elements (a ++ Separator :: b) = elements a ++ elements b.
Proof.
  unfold elements. induction a as [|c a IH].
  - cbn [app strings.SplitByte]. unfold byte_eqb. rewrite Ascii.eqb_refl. reflexivity.
  - cbn [app strings.SplitByte]. destruct (byte_eqb c Separator).
    + rewrite IH. reflexivity.
    + rewrite IH. pose proof (SplitByte_nonempty a Separator) as Hne.
      destruct (strings.SplitByte a Separator); [congruence|reflexivity].
Qed.

Lemma elements_sepFree (e : gostring) : sepFree e -> elements e = [e].
Proof.
  intros He. destruct (elements_cases e) as [[_ H]|(a & b & _ & Heq & _)]; [exact H|].
  exfalso. subst e. unfold sepFree in He. rewrite Forall_app in He.
  destruct He as [_ He]. inversion He as [|? ? Hc _]. discriminate.
Qed.

Lemma elements_Join (l : list gostring) :
  Forall plainName l -> l <> [] -> elements (J l) = l.
Proof.
  intros Hl Hne. induction Hl as [|e l He Hl IH]; [congruence|].
  destruct l as [|e' l].
  - apply elements_sepFree. apply He.
  - rewrite Join_cons by discriminate. rewrite elements_app.
    rewrite IH by discriminate. rewrite elements_sepFree by apply He. reflexivity.
Qed.

Lemma enter_plain (rooted : bool) (st : state) (e : gostring) :
  plainName e -> enter rooted st e = (fst st, e :: snd st).
Proof.
  intros (H0 & H1 & H2 & _). destruct st as [ups names]. unfold enter.
  apply gostring_eqb_neq in H0, H1, H2.
  change (gostring_eqb e "") with (gostring_eqb e []).
  rewrite H0, H1, H2. reflexivity.
Qed.

Lemma enter_empty (rooted : bool) (st : state) : enter rooted st [] = st.
Proof. destruct st. reflexivity. Qed.

Lemma fold_enter_plain (rooted : bool) (l : list gostring) :
  Forall plainName l ->
  forall st, fold_left (enter rooted) l st = (fst st, rev l ++ snd st).
Proof.
  induction 1 as [|e l He Hl IH]; intros st.
  - destruct st. reflexivity.
  - cbn [fold_left]. rewrite enter_plain by assumption. rewrite IH.
    cbn [fst snd rev]. rewrite <- app_assoc. reflexivity.
Qed.

Lemma read_rooted_ups (s : gostring) : fst (read true s) = 0.
Proof.
  unfold read. generalize (elements s).
  assert (H : forall l st, fst st = 0 -> fst (fold_left (enter true) l st) = 0).
  { induction l as [|e l IH]; intros st Hst; [exact Hst|].
    cbn [fold_left]. apply IH. destruct st as [ups names]. cbn [fst] in Hst. subst ups.
    unfold enter.
    destruct (gostring_eqb e "" || gostring_eqb e "."); [reflexivity|].
    destruct (gostring_eqb e ".."); [destruct names|]; reflexivity. }
  intros l. apply H. reflexivity.
Qed.

(** A cleaned request path is a slash followed by plain names. *)
Lemma Clean_request (reqPath : gostring) :
  exists names,
    Forall plainName names
    /\ Clean (Separator :: reqPath) = Separator :: J names.
Proof.
  exists (rev (snd (read true (Separator :: reqPath)))).
  split.
  - apply Forall_rev. apply read_plain.
  - rewrite Clean_refines. unfold CleanSpec.
    change (strings.HasPrefix (Separator :: reqPath) "/") with true.
    unfold render, body. rewrite read_rooted_ups. reflexivity.
Qed.

Lemma kept_not_dot (ups : nat) (names : list gostring) :
  Forall plainName names ->
  let K := repeat (".."%string : gostring) ups ++ rev names in
  K <> [] -> J K <> [] /\ J K <> "."%string /\ J K <> "/"%string.
Proof.
  intros Hpl K HK.
  assert (Hall : Forall (fun e : gostring =>
                           e <> [] /\ e <> "."%string /\ e <> "/"%string) K).
  { apply Forall_app. split.
    - apply Forall_forall. intros e He. apply repeat_spec in He. subst e.
      repeat split; discriminate.
    - apply Forall_rev. revert Hpl. apply Forall_impl.
      intros e (H0 & H1 & _ & Hs). repeat split; try assumption.
      intros ->. inversion Hs as [|? ? Hc _]. discriminate. }
  destruct K as [|e K']; [congruence|].
  inversion Hall as [|? ? (H0 & H1 & H2) _]; subst.
  destruct K' as [|e' K''].
  - cbn [strings.Join]. auto.
  - rewrite Join_cons by discriminate.
    destruct e as [|c e]; [congruence|].
    repeat split; try discriminate.
    + destruct e; discriminate.
    + destruct e; discriminate.
Qed.

Lemma render_descend (rooted : bool) (ups : nat) (below names : list gostring) :
  Forall plainName below -> Forall plainName names ->
  render rooted (ups, names ++ below)
  = descend (render rooted (ups, below)) (rev names).
Proof.
  intros Hb Hn. unfold descend.
  destruct (rev names) as [|n N] eqn:HN.
  - apply (f_equal (@rev gostring)) in HN. rewrite rev_involutive in HN.
    subst names. reflexivity.
  - unfold render, body. cbn [fst snd].
    rewrite rev_app_distr, HN, app_assoc.
    pose proof (kept_not_dot ups below Hb) as HK. cbn zeta in HK.
    destruct (repeat (".."%string : gostring) ups ++ rev below) as [|k K] eqn:HKeq.
    + assert (HJ : J (n :: N) <> []).
      { apply Join_nonempty; [|discriminate].
        rewrite <- HN. apply Forall_rev. apply plain_nonempty. assumption. }
      cbn [app]. change (J []) with (@nil ascii).
      remember (J (n :: N)) as jn eqn:Hjn.
      destruct rooted; [reflexivity|].
      change (gostring_eqb "." ".") with true. cbv iota.
      destruct jn; [congruence|reflexivity].
    + destruct (HK ltac:(discriminate)) as (H0 & H1 & H2).
      rewrite Join_app by discriminate.
      destruct rooted.
      * replace (gostring_eqb (Separator :: J (k :: K)) ".") with false.
        2:{ symmetry. apply gostring_eqb_neq. intros Heq.
            first [ inversion Heq; fail | inversion Heq as [Hx]; apply H0; exact Hx ]. }
        replace (gostring_eqb (Separator :: J (k :: K)) "/") with false.
        2:{ symmetry. apply gostring_eqb_neq. intros Heq.
            first [ inversion Heq; fail | inversion Heq as [Hx]; apply H0; exact Hx ]. }
        reflexivity.
      * destruct (J (k :: K)) as [|x xs] eqn:HJ; [congruence|].
        replace (gostring_eqb (x :: xs) ".") with false
          by (symmetry; apply gostring_eqb_neq; assumption).
        replace (gostring_eqb (x :: xs) "/") with false
          by (symmetry; apply gostring_eqb_neq; assumption).
        reflexivity.
Qed.

Lemma read_app_names (root : gostring) (names : list gostring) :
  root <> [] -> Forall plainName names ->
  let rooted := strings.HasPrefix root "/" in
  read rooted (root ++ Separator :: Separator :: J names)
  = (fst (read rooted root), rev names ++ snd (read rooted root)).
Proof.
  intros Hroot Hn rooted. unfold read.
  rewrite elements_app, fold_left_app.
  change (Separator :: J names) with ([] ++ Separator :: J names).
  rewrite elements_app, fold_left_app.
  change (elements []) with [@nil ascii]. cbn [fold_left]. rewrite enter_empty.
  destruct names as [|n names].
  - change (elements (J [])) with [@nil ascii]. cbn [fold_left].
    rewrite enter_empty. destruct (fold_left _ _ _). reflexivity.
  - rewrite elements_Join by (assumption || discriminate).
    apply fold_enter_plain. assumption.
Qed.

(** The join of a root with a cleaned request path goes down from the
    cleaned root by the names of the request. *)
Lemma Join_root_request (root : gostring) (names : list gostring) :
  root <> [] -> Forall plainName names ->
  Join [root; Separator :: J names] = descend (Clean root) names.
Proof.
  intros Hroot Hn.
  destruct root as [|r0 root]; [congruence|].
  cbn [Join strings.Join].
  change ((r0 :: root) ++ [Separator] ++ Separator :: J names)
    with ((r0 :: root) ++ Separator :: Separator :: J names).
  rewrite !Clean_refines. unfold CleanSpec.
  assert (Hpre : strings.HasPrefix ((r0 :: root) ++ Separator :: Separator :: J names) "/"
                 = strings.HasPrefix (r0 :: root) "/").
  { rewrite !HasPrefix_slash. reflexivity. }
  rewrite Hpre.
  rewrite (read_app_names (r0 :: root) names) by (discriminate || assumption).
  rewrite <- (rev_involutive names) at 2.
  destruct (read (strings.HasPrefix (r0 :: root) "/") (r0 :: root)) as [ups below] eqn:Hread.
  cbn [fst snd].
  apply render_descend.
  - pose proof (read_plain (strings.HasPrefix (r0 :: root) "/") (r0 :: root)) as Hp.
    rewrite Hread in Hp. exact Hp.
  - apply Forall_rev. assumption.
Qed.

(** The shape of a sanitized join. *)
Lemma SanitizedPathJoin_shape (root reqPath : gostring) :
  exists names,
    Forall plainName names
    /\ Clean (Separator :: reqPath) = Separator :: J names
    /\ util.SanitizedPathJoin root reqPath
       = descend (Clean root) names
           ++ (if strings.HasSuffix reqPath "/" && (1 <? length reqPath)
               then [Separator] else []).
Proof.
  destruct (Clean_request reqPath) as (names & Hn & Hc).
  exists names. split; [assumption|]. split; [assumption|].
  unfold util.SanitizedPathJoin. cbv zeta.
  change ("/" ++ reqPath) with (Separator :: reqPath). rewrite Hc.
  match goal with
  | |- context [Join ?l] => replace (Join l) with (descend (Clean root) names)
  end.
  2:{ symmetry. destruct root as [|r0 root].
      - change (gostring_eqb [] "") with true. cbv iota.
        rewrite Join_root_request by (discriminate || assumption). reflexivity.
      - replace (gostring_eqb (r0 :: root) "") with false
          by (symmetry; apply gostring_eqb_neq; discriminate).
        apply Join_root_request; [discriminate|assumption]. }
  destruct (strings.HasSuffix reqPath "/" && (1 <? length reqPath)).
  - reflexivity.
  - rewrite app_nil_r. reflexivity.
Qed.

(** *** The last byte of a sanitized join *)

Lemma HasSuffix_snoc (s : gostring) (c : ascii) :
  strings.HasSuffix (s ++ [c]) "/" = isPathSeparator c.
Proof.
  unfold strings.HasSuffix. rewrite rev_app_distr.
  cbn [rev app list_ascii_of_string strings.HasPrefix].
  unfold isPathSeparator, Separator. apply andb_true_r.
Qed.

Lemma Join_last_byte (names : list gostring) :
  Forall plainName names -> names <> [] ->
  exists pre c, J names = pre ++ [c] /\ isPathSeparator c = false.
Proof.
  intros Hn Hne. induction Hn as [|e l He Hl IH]; [congruence|].
  destruct l as [|e' l].
  - destruct He as (H0 & _ & _ & Hs).
    destruct (exists_last H0) as (pre & c & ->).
    exists pre, c. split; [reflexivity|].
    unfold sepFree in Hs. rewrite Forall_app in Hs. destruct Hs as [_ Hs].
    inversion Hs. assumption.
  - destruct (IH ltac:(discriminate)) as (pre & c & Hj & Hc).
    exists (e ++ Separator :: pre), c. split; [|assumption].
    rewrite Join_cons by discriminate. rewrite Hj.
    rewrite <- app_assoc. reflexivity.
Qed.

Lemma descend_no_trailing (base : gostring) (names : list gostring) :
  Forall plainName names -> names <> [] ->
  strings.HasSuffix (descend base names) "/" = false.
Proof.
  intros Hn Hne.
  destruct (Join_last_byte names Hn Hne) as (pre & c & Hj & Hc).
  unfold descend. destruct names as [|n names]; [congruence|].
  rewrite Hj.
  destruct (gostring_eqb base ".").
  - rewrite HasSuffix_snoc. assumption.
  - destruct (gostring_eqb base "/").
    + change (Separator :: pre ++ [c]) with ((Separator :: pre) ++ [c]).
      rewrite HasSuffix_snoc. assumption.
    + change (base ++ Separator :: pre ++ [c]) with (base ++ (Separator :: pre) ++ [c]).
      rewrite app_assoc. rewrite HasSuffix_snoc. assumption.
Qed.

Lemma Join_names_empty (names : list gostring) :
  Forall plainName names -> J names = [] -> names = [].
Proof.
  intros Hn Hj. destruct names as [|n names]; [reflexivity|].
  exfalso. apply (Join_nonempty (n :: names)); try assumption.
  - apply plain_nonempty. assumption.
  - discriminate.
Qed.

End CleanRefinement.

(** C1: for every root, the empty one included, which stands for [.],
    and every request path, whatever [..] elements it has, the sanitized
    join is lexically within the root: it is the cleaned root followed
    by plain names, none of them [..]. *)
Theorem SanitizedPathJoin_within_root (root reqPath : gostring) :
  lexical.within root (util.SanitizedPathJoin root reqPath)
  /\ util.SanitizedPathJoin "" reqPath = util.SanitizedPathJoin "." reqPath.
Proof.
  split; [|reflexivity].
  destruct (SanitizedPathJoin_shape root reqPath) as (names & Hn & _ & Heq).
  exists names. split; [assumption|]. rewrite Heq.
  destruct (strings.HasSuffix reqPath "/" && (1 <? length reqPath)).
  - right. reflexivity.
  - left. apply app_nil_r.
Qed.

(** The separator is appended by the length of the request path as it
    is given, not as it is cleaned: the request path [//], which cleans
    to [/], gets one. *)
Remark SanitizedPathJoin_double_slash :
  util.SanitizedPathJoin "/site" "//" = "/site/"%string
  /\ filepath.Clean ("/" ++ "//"%string) = "/"%string.
Proof. split; reflexivity. Qed.

(** C5 as claimed fails: a separator is appended for a request path
    whose normalized form has length 1.  The request path [//] is
    normalized to [/], and its sanitized join onto [/site] is [/site/],
    the join with a separator appended. *)
Lemma trailing_slash_by_normalized_length :
  ~ (forall root reqPath : gostring,
        length (filepath.Clean ("/" ++ reqPath)) <= 1 ->
        util.SanitizedPathJoin root reqPath
        = filepath.Join [if gostring_eqb root "" then "."%string : gostring else root;
                         filepath.Clean ("/" ++ reqPath)]).
Proof.
  intros H.
  specialize (H ("/site"%string : gostring) ("//"%string : gostring)).
  assert (Hlen : length (filepath.Clean ("/" ++ ("//"%string : gostring))) <= 1)
    by (vm_compute; lia).
  specialize (H Hlen). vm_compute in H. discriminate H.
Qed.

(** C5, amended: the sanitized join of ["/a/"] ends in a separator and
    the one of ["/a"] does not; the one of ["/"] is the cleaned root
    itself; no separator is appended for a request path that has length
    at most 1 as it is passed, before it is normalized; a longer request
    path that ends in a separator gets one, also when it is normalized
    to [/]; and unless the result is the cleaned root itself, it ends in
    a separator exactly when the request path does. *)
Theorem SanitizedPathJoin_trailing_slash (root reqPath : gostring) :
  strings.HasSuffix (util.SanitizedPathJoin root "/a/") "/" = true
  /\ strings.HasSuffix (util.SanitizedPathJoin root "/a") "/" = false
  /\ util.SanitizedPathJoin root "/" = filepath.Clean root
  /\ (length reqPath <= 1 ->
      util.SanitizedPathJoin root reqPath
      = filepath.Join [if gostring_eqb root "" then "."%string : gostring else root;
                       filepath.Clean ("/" ++ reqPath)])
  /\ (util.SanitizedPathJoin root reqPath <> filepath.Clean root ->
      strings.HasSuffix (util.SanitizedPathJoin root reqPath) "/"
      = strings.HasSuffix reqPath "/")
  /\ (strings.HasSuffix reqPath "/" = true -> 1 < length reqPath ->
      util.SanitizedPathJoin root reqPath
      = filepath.Join [if gostring_eqb root "" then "."%string : gostring else root;
                       filepath.Clean ("/" ++ reqPath)]
          ++ [filepath.Separator]).
Proof.
  split; [|split; [|split; [|split; [|split]]]].
  6:{ intros Hsuf Hlen. unfold util.SanitizedPathJoin. cbv zeta.
      rewrite Hsuf. apply Nat.ltb_lt in Hlen. rewrite Hlen. reflexivity. }
  - destruct (SanitizedPathJoin_shape root "/a/") as (names & _ & _ & Heq).
    rewrite Heq. apply HasSuffix_snoc.
  - destruct (SanitizedPathJoin_shape root "/a") as (names & Hn & Hc & Heq).
    rewrite Heq. cbn [andb]. rewrite app_nil_r.
    apply descend_no_trailing; [assumption|].
    intros ->. discriminate.
  - destruct (SanitizedPathJoin_shape root "/") as (names & Hn & Hc & Heq).
    rewrite Heq.
    assert (Hnil : names = []).
    { apply Join_names_empty; [assumption|]. injection Hc as Hc. symmetry. exact Hc. }
    subst names. unfold lexical.descend. apply app_nil_r.
  - intros Hlen. unfold util.SanitizedPathJoin. cbv zeta.
    replace (1 <? length reqPath) with false by (symmetry; apply Nat.ltb_ge; exact Hlen).
    rewrite andb_false_r. reflexivity.
  - intros Hne.
    destruct (SanitizedPathJoin_shape root reqPath) as (names & Hn & Hc & Heq).
    rewrite Heq in *.
    destruct (strings.HasSuffix reqPath "/") eqn:Hsuf.
    + destruct (1 <? length reqPath) eqn:Hlen; cbn [andb] in *.
      * apply HasSuffix_snoc.
      * (* the request path is ["/"] *)
        exfalso. apply Hne. rewrite app_nil_r.
        assert (Hreq : reqPath = "/"%string).
        { apply Nat.ltb_ge in Hlen.
          destruct reqPath as [|c [|c' r]]; [discriminate| |cbn in Hlen; lia].
          unfold strings.HasSuffix in Hsuf. cbn in Hsuf.
          rewrite andb_true_r in Hsuf. apply Ascii.eqb_eq in Hsuf. subst c.
          reflexivity. }
        subst reqPath.
        assert (Hnil : names = []).
        { apply Join_names_empty; [assumption|]. injection Hc as Hc. symmetry. exact Hc. }
        subst names. reflexivity.
    + cbn [andb] in *. rewrite app_nil_r in *.
      destruct names as [|n names].
      * exfalso. apply Hne. reflexivity.
      * apply descend_no_trailing; [assumption|discriminate].
Qed.

Lemma SanitizedPathJoin_trailing_slash_witness :
  util.SanitizedPathJoin "/site" "/" = "/site"
  /\ strings.HasSuffix (util.SanitizedPathJoin "/site" "/docs/") "/" = true.
Proof.
  split.
  - pose proof (SanitizedPathJoin_trailing_slash "/site" "/") as (_ & _ & _ & H & _).
    rewrite H by (cbn; lia). reflexivity.
  - pose proof (SanitizedPathJoin_trailing_slash "/site" "/docs/")
      as (_ & _ & _ & _ & H & _).
    rewrite H; [reflexivity|]. vm_compute. discriminate.
Defined.

(** ** Hidden files *)

Section Hidden.

Import filepath fileserver hiding.

Lemma hiddenLoop_existsb (filename : gostring) (hide : list gostring) :
  forall components,
    components = [] \/ components = strings.SplitByte filename Separator ->
    hiddenLoop filename components hide = existsb (patternHides filename) hide.
Proof.
  induction hide as [|h hide IH]; intros components Hc; [reflexivity|].
  cbn [hiddenLoop existsb]. unfold patternHides at 1.
  destruct (negb (strings.Contains h separator)).
  - assert (Hsplit : (if length components =? 0
                      then strings.SplitByte filename Separator else components)
                     = strings.SplitByte filename Separator).
    { destruct Hc as [-> | ->]; [reflexivity|].
      pose proof (SplitByte_nonempty filename Separator) as Hne.
      destruct (strings.SplitByte filename Separator); [congruence|reflexivity]. }
    rewrite Hsplit.
    destruct (existsb (fun c => Match h c) (strings.SplitByte filename Separator));
      [reflexivity|].
    destruct (Match h filename); [reflexivity|].
    cbn [orb]. apply IH. right. reflexivity.
  - destruct (strings.HasPrefix filename h
              && strings.HasPrefix (strings.TrimPrefix filename h) separator);
      [reflexivity|].
    destruct (Match h filename); [reflexivity|].
    cbn [orb]. apply IH. assumption.
Qed.

(** [fileHidden] asks each pattern in turn about the canonical name. *)
Lemma fileHidden_existsb (getwd : option gostring) (filename : gostring)
      (hide : list gostring) :
  fileHidden getwd filename hide
  = existsb (patternHides (canonical getwd filename)) hide.
Proof.
  unfold fileHidden. destruct hide as [|h hide]; [reflexivity|].
  cbn [length Nat.eqb]. apply hiddenLoop_existsb. left. reflexivity.
Qed.

(** *** Prefixes *)

Lemma HasPrefix_app (s h : gostring) :
  strings.HasPrefix s h = true <-> exists t, s = h ++ t.
Proof.
  revert s. induction h as [|c h IH]; intros s.
  - split; [intros _; exists s; reflexivity|reflexivity].
  - destruct s as [|x s]; cbn [strings.HasPrefix].
    + split; [discriminate|intros (t & Ht); discriminate].
    + rewrite andb_true_iff, IH, byte_eqb_eq. split.
      * intros (-> & t & ->). exists t. reflexivity.
      * intros (t & Ht). injection Ht as -> ->. split; [reflexivity|]. exists t. reflexivity.
Qed.

Lemma skipn_prefix (h t : gostring) : skipn (length h) (h ++ t) = t.
Proof. induction h; [reflexivity|assumption]. Qed.

Lemma prefix_then_separator (s h : gostring) :
  strings.HasPrefix s h && strings.HasPrefix (strings.TrimPrefix s h) separator = true
  <-> exists rest, s = h ++ separator ++ rest.
Proof.
  rewrite andb_true_iff. unfold strings.TrimPrefix. split.
  - intros (Hp & Hs). rewrite Hp in Hs. apply HasPrefix_app in Hp.
    destruct Hp as (t & ->). rewrite skipn_prefix in Hs.
    apply HasPrefix_app in Hs. destruct Hs as (rest & ->). exists rest. reflexivity.
  - intros (rest & ->).
    assert (Hp : strings.HasPrefix (h ++ separator ++ rest) h = true)
      by (apply HasPrefix_app; eexists; reflexivity).
    rewrite Hp, skipn_prefix. split; [reflexivity|].
    apply HasPrefix_app. eexists. reflexivity.
Qed.

(** *** Patterns that stand for themselves *)

Lemma isMeta_false (c : ascii) :
  isMeta c = false ->
  filepath.isByte c "*" = false /\ filepath.isByte c "?" = false
  /\ filepath.isByte c "[" = false /\ filepath.isByte c "\" = false.
Proof.
  unfold isMeta. intros H.
  apply orb_false_elim in H. destruct H as [H H4].
  apply orb_false_elim in H. destruct H as [H H3].
  apply orb_false_elim in H. destruct H as [H1 H2]. auto.
Qed.

Lemma scanChunkLoop_literal (h : gostring) (inrange : bool) :
  literal h -> filepath.scanChunkLoop h inrange = (h, []).
Proof.
  intros Hh. revert inrange. induction Hh as [|c h Hc Hh IH]; intros inrange.
  - reflexivity.
  - apply isMeta_false in Hc. destruct Hc as (Hstar & _ & Hopen & Hesc).
    cbn [filepath.scanChunkLoop]. rewrite Hesc, Hopen, Hstar. cbn [andb].
    destruct (filepath.isByte c "]"); rewrite IH; reflexivity.
Qed.

Lemma scanChunk_literal (h : gostring) :
  literal h -> filepath.scanChunk h = (false, h, []).
Proof.
  intros Hh. unfold filepath.scanChunk.
  assert (Hs : filepath.skipStars h false = (false, h)).
  { destruct Hh as [|c h Hc Hh]; [reflexivity|].
    apply isMeta_false in Hc. destruct Hc as (Hstar & _).
    cbn [filepath.skipStars]. rewrite Hstar. reflexivity. }
  rewrite Hs, scanChunkLoop_literal by assumption. reflexivity.
Qed.

Lemma matchChunkLoop_literal (chunk : gostring) :
  literal chunk ->
  forall fuel s failed,
    length chunk <= fuel ->
    filepath.matchChunkLoop fuel chunk s failed
    = if failed then filepath.ChunkFailed
      else if strings.HasPrefix s chunk
           then filepath.ChunkRest (skipn (length chunk) s)
           else filepath.ChunkFailed.
Proof.
  intros Hl. induction Hl as [|c chunk Hc Hl IH]; intros fuel s failed Hfuel.
  - destruct fuel; reflexivity.
  - destruct fuel as [|fuel]; [cbn in Hfuel; lia|].
    cbn [length] in Hfuel.
    apply isMeta_false in Hc. destruct Hc as (_ & Hq & Hopen & Hesc).
    cbn [filepath.matchChunkLoop]. rewrite Hopen, Hq, Hesc.
    destruct failed; cbn [orb].
    + rewrite IH by lia. reflexivity.
    + destruct s as [|x s]; cbn [length Nat.eqb].
      * rewrite IH by lia. reflexivity.
      * cbn [hd tl strings.HasPrefix skipn]. rewrite IH by lia.
        unfold byte_eqb. rewrite (Ascii.eqb_sym c x).
        destruct (Ascii.eqb x c); reflexivity.
Qed.

(** A literal pattern matches itself and nothing else. *)
Lemma Match_literal (h name : gostring) :
  literal h -> (Match h name = true <-> name = h).
Proof.
  intros Hh. unfold Match.
  destruct h as [|c h].
  - cbn. destruct name; split; (reflexivity || discriminate).
  - cbn [length filepath.matchLoop].
    rewrite scanChunk_literal by assumption.
    cbn [andb]. unfold filepath.matchChunk.
    rewrite matchChunkLoop_literal by (assumption || lia).
    destruct (strings.HasPrefix name (c :: h)) eqn:Hp.
    + apply HasPrefix_app in Hp. destruct Hp as (t & ->).
      rewrite skipn_prefix. cbn [length Nat.ltb Nat.leb orb].
      rewrite orb_false_r.
      destruct t as [|x t].
      * cbn [length Nat.eqb filepath.matchLoop]. rewrite app_nil_r.
        destruct h; split; reflexivity.
      * cbn [length Nat.eqb]. split; [discriminate|].
        intros Heq. apply (f_equal (@length ascii)) in Heq.
        rewrite length_app in Heq. cbn [length] in Heq. lia.
    + split; [discriminate|]. intros ->.
      assert (Hself : strings.HasPrefix (c :: h) (c :: h) = true)
        by (apply HasPrefix_app; exists []; symmetry; apply app_nil_r).
      congruence.
Qed.

End Hidden.

(** C7: no path is hidden by the empty hide list, and a path hidden by a
    hide list is hidden by every list that has all its patterns. *)
Theorem fileHidden_monotonic (getwd : option gostring) (p : gostring)
        (h1 h2 : list gostring) :
  fileserver.fileHidden getwd p [] = false
  /\ ((forall h, In h h1 -> In h h2) ->
      fileserver.fileHidden getwd p h1 = true ->
      fileserver.fileHidden getwd p h2 = true).
Proof.
  split; [reflexivity|].
  intros Hincl. rewrite !fileHidden_existsb, !existsb_exists.
  intros (h & Hin & Hh). exists h. split; [apply Hincl|]; assumption.
Qed.

Lemma fileHidden_monotonic_witness :
  fileserver.fileHidden (Some ("/srv" : gostring)) "/site/x/bar/y"
                        (gostrings ["*.bak"; "bar"; "/site/private"]) = true.
Proof.
  apply (proj2 (fileHidden_monotonic (Some ("/srv" : gostring)) "/site/x/bar/y"
                                     (gostrings ["bar"])
                                     (gostrings ["*.bak"; "bar"; "/site/private"]))).
  - intros h [<- | []]. right. left. reflexivity.
  - reflexivity.
Defined.

(** A pattern with a character class is a prefix of the path equal to
    it, and does not hide it: the glob does not match; and a pattern
    with a star hides a path it is a prefix of with no separator after
    it: the glob matches. *)
Remark glob_decides_without_separator (getwd : option gostring) :
  fileserver.fileHidden getwd "/a[b]" (gostrings ["/a[b]"]) = false
  /\ fileserver.fileHidden getwd "/foobar" (gostrings ["/foo*"]) = true.
Proof. split; reflexivity. Qed.



(** ** Hide patterns and the working directory *)

Section WorkingDirectory.

Import filepath fileserver lexical.

(** A relative path joined onto a directory is read from where the
    directory ends. *)
Lemma read_app (root s : gostring) :
  let rooted := strings.HasPrefix root "/" in
  read rooted (root ++ Separator :: s)
  = fold_left (enter rooted) (elements s) (read rooted root).
Proof.
  intros rooted. unfold read. rewrite elements_app, fold_left_app. reflexivity.
Qed.

Lemma Join_dot_name (wd name : gostring) :
  wd <> [] -> plainName name ->
  Join [wd; "./"%string ++ name] = descend (Clean wd) [name].
Proof.
  intros Hwd Hname.
  destruct wd as [|w0 wd]; [congruence|].
  cbn [Join strings.Join].
  change ((w0 :: wd) ++ [Separator] ++ "./"%string ++ name)
    with ((w0 :: wd) ++ Separator :: ("."%string ++ Separator :: name)).
  rewrite !Clean_refines. unfold CleanSpec.
  assert (Hpre : strings.HasPrefix
                   ((w0 :: wd) ++ Separator :: ("."%string ++ Separator :: name)) "/"
                 = strings.HasPrefix (w0 :: wd) "/").
  { rewrite !HasPrefix_slash. reflexivity. }
  rewrite Hpre, read_app, elements_app.
  rewrite (elements_sepFree name) by apply Hname.
  change (elements "."%string) with [("."%string : gostring)].
  cbn [app fold_left].
  destruct (read (strings.HasPrefix (w0 :: wd) "/") (w0 :: wd)) as [ups below] eqn:Hread.
  change (enter (strings.HasPrefix (w0 :: wd) "/") (ups, below) ".") with (ups, below).
  rewrite enter_plain by assumption. cbn [fst snd].
  change (name :: below) with ([name] ++ below).
  apply (render_descend _ ups below [name]).
  - pose proof (read_plain (strings.HasPrefix (w0 :: wd) "/") (w0 :: wd)) as Hp.
    rewrite Hread in Hp. exact Hp.
  - constructor; [assumption|constructor].
Qed.

End WorkingDirectory.

(** With the working directory [/srv/app] and the root [/site], the
    pattern [./secret] hides [/srv/app/secret] and leaves [/site/secret]
    in sight. *)
Example hide_relative_to_working_directory :
  let spec := fileserver.mkSpec (mkFS (fun _ => Err ErrNotExist) (fun _ => Err ErrNotExist))
                                "/site" (gostrings ["./secret"]) [] in
  let hide := fileserver.transformHidePaths (Some ("/srv/app" : gostring))
                                            (fun s _ => s) spec in
  hide = gostrings ["/srv/app/secret"]
  /\ fileserver.fileHidden (Some ("/srv/app" : gostring))
                           (util.SanitizedPathJoin "/site" "/secret") hide = false
  /\ fileserver.fileHidden (Some ("/srv/app" : gostring)) "/srv/app/secret" hide = true.
Proof. repeat split; reflexivity. Qed.

(** C10: [transformHidePaths] leaves a pattern without a separator as it
    is and makes a pattern with a separator absolute, from the working
    directory when it is relative, leaving it as it is only when the
    working directory cannot be had; [fileHidden] does the same to the
    file name; so [./secret] stands for [secret] in the working
    directory, whatever the root. *)
Theorem transformHidePaths_working_directory
        (getwd : option gostring) (ReplaceAll : gostring -> gostring -> gostring)
        (spec : fileserver.Spec) :
  let absolute h :=
    if filepath.IsAbs h then filepath.Clean h
    else match getwd with
         | Some wd => filepath.Join [wd; h]
         | None => h
         end in
  length (fileserver.transformHidePaths getwd ReplaceAll spec)
  = length (fileserver.Hide spec)
  /\ (forall i pattern,
        nth_error (fileserver.Hide spec) i = Some pattern ->
        nth_error (fileserver.transformHidePaths getwd ReplaceAll spec) i
        = Some (let h := ReplaceAll pattern "" in
                if strings.Contains h fileserver.separator then absolute h else h))
  /\ (forall filename hide,
        hide <> [] ->
        fileserver.fileHidden getwd filename hide
        = fileserver.hiddenLoop (absolute filename) [] hide)
  /\ (forall wd,
        getwd = Some wd -> wd <> [] ->
        (forall s, ReplaceAll s "" = s) ->
        fileserver.Hide spec = gostrings ["./secret"] ->
        fileserver.transformHidePaths getwd ReplaceAll spec
        = [lexical.descend (filepath.Clean wd) (gostrings ["secret"])]).
Proof.
  intros absolute.
  assert (Habs : forall h, match filepath.Abs getwd h with
                           | Some a => a
                           | None => h
                           end = absolute h).
  { intros h. unfold filepath.Abs, absolute.
    destruct (filepath.IsAbs h); [reflexivity|]. destruct getwd; reflexivity. }
  unfold fileserver.transformHidePaths.
  split; [|split; [|split]].
  - apply length_map.
  - intros i pattern Hi. rewrite nth_error_map, Hi. cbn [option_map].
    rewrite Habs. reflexivity.
  - intros filename hide Hne. unfold fileserver.fileHidden.
    destruct hide; [congruence|]. cbn [length Nat.eqb]. rewrite Habs. reflexivity.
  - intros wd -> Hwd Hrepl Hhide. rewrite Hhide. cbn [gostrings map].
    rewrite Hrepl.
    change (strings.Contains "./secret" fileserver.separator) with true.
    cbv iota. unfold filepath.Abs.
    change (filepath.IsAbs "./secret") with false. cbv iota.
    f_equal. apply (Join_dot_name wd "secret" Hwd).
    repeat split; try discriminate. repeat constructor.
Qed.

Lemma transformHidePaths_working_directory_witness :
  fileserver.transformHidePaths
    (Some ("/srv/app" : gostring)) (fun s _ => s)
    (fileserver.mkSpec (mkFS (fun _ => Err ErrNotExist) (fun _ => Err ErrNotExist))
                       "/site" (gostrings ["./secret"]) [])
  = gostrings ["/srv/app/secret"].
Proof.
  pose proof (transformHidePaths_working_directory
                (Some ("/srv/app" : gostring)) (fun s _ => s)
                (fileserver.mkSpec (mkFS (fun _ => Err ErrNotExist)
                                         (fun _ => Err ErrNotExist))
                                   "/site" (gostrings ["./secret"]) []))
    as (_ & _ & _ & H).
  rewrite (H "/srv/app"%string); try reflexivity. discriminate.
Defined.

(** ** The request handler on concrete requests *)

Example serve_examples :
  fst (samples.serve "linux" [] "GET" "/file.txt") = ""%string
  /\ ctxEvents (snd (samples.serve "linux" [] "GET" "/file.txt"))
     = [EvStat "/site/file.txt"; EvOpen "/site/file.txt";
        EvServeContent "file.txt" 1700000000 "/site/file.txt";
        EvClose "/site/file.txt"]
  /\ fst (samples.serve "linux" [] "GET" "/../../etc/passwd") = fileserver.resultNotFound
  /\ ctxEvents (snd (samples.serve "linux" [] "GET" "/../../etc/passwd"))
     = [EvStat "/site/etc/passwd"]
  /\ fst (samples.serve "linux" [] "GET" "/docs/") = ""%string
  /\ fst (samples.serve "linux" [] "GET" "/file.txt/sub") = fileserver.resultNotFound
  /\ fst (samples.serve "windows" [] "GET" "/file.txt:stream") = fileserver.resultIllegalADSPath
  /\ fst (samples.serve "windows" [] "GET" "/FILE~1.TXT") = fileserver.resultIllegalShortName.
Proof. repeat split; reflexivity. Qed.

(** ** The stages of the handler *)

Section Stages.

Import filepath fileserver trace.

Variable GOOS : gostring.
Variable getwd : option gostring.
Variable ReplaceAll : gostring -> gostring -> gostring.
Variable TypeByExtension : gostring -> gostring.
Variable ServeContent : Serving.
Variable spec : Spec.

Lemma appendEvents_nil (c : Context) : appendEvents c [] = c.
Proof. destruct c. unfold appendEvents. cbn. rewrite app_nil_r. reflexivity. Qed.

Lemma appendEvents_app (c : Context) (a b : list Event) :
  appendEvents (appendEvents c a) b = appendEvents c (a ++ b).
Proof. unfold appendEvents. cbn. rewrite app_assoc. reflexivity. Qed.

Lemma Stat_run (name : gostring) (c : Context) :
  Stat spec name c = (fsStat (fileSystem spec) name, appendEvents c [EvStat name]).
Proof. reflexivity. Qed.

Lemma openFile_run (name : gostring) (c : Context) :
  openFile spec name c = (fsOpen (fileSystem spec) name, appendEvents c [EvOpen name]).
Proof. reflexivity. Qed.

Lemma bind_run {A B} (m : M.t A) (k : A -> M.t B) (c : Context) :
  M.bind m k c = k (fst (m c)) (snd (m c)).
Proof. unfold M.bind. destruct (m c). reflexivity. Qed.

Lemma walkParts_onlyStats (originalErr : GoError) (parts : list gostring) :
  forall seen, onlyStats (walkParts spec originalErr seen parts).
Proof.
  induction parts as [|part parts IH]; intros seen c.
  - exists []. split; [constructor|]. cbn. symmetry. apply appendEvents_nil.
  - cbn [walkParts]. destruct (length part =? 0); [apply IH|].
    rewrite bind_run, Stat_run. cbn [fst snd].
    destruct (fsStat (fileSystem spec) _) as [fi|e].
    + destruct (negb (IsDir fi)).
      * exists [EvStat (strings.Join (seen ++ [part]) separator)].
        split; [repeat constructor; eexists; reflexivity|reflexivity].
      * destruct (IH (seen ++ [part]) (appendEvents c [EvStat (strings.Join (seen ++ [part]) separator)]))
          as (stats & Hs & Heq).
        exists (EvStat (strings.Join (seen ++ [part]) separator) :: stats).
        split; [constructor; [eexists; reflexivity|assumption]|].
        rewrite Heq, appendEvents_app. reflexivity.
    + exists [EvStat (strings.Join (seen ++ [part]) separator)].
      split; [repeat constructor; eexists; reflexivity|reflexivity].
Qed.

Lemma mapDirOpenError_onlyStats (originalErr : GoError) (name : gostring) :
  onlyStats (mapDirOpenError spec originalErr name).
Proof.
  unfold mapDirOpenError. destruct (isNotExist originalErr || isPermission originalErr).
  - intros c. exists []. split; [constructor|]. cbn. symmetry. apply appendEvents_nil.
  - apply walkParts_onlyStats.
Qed.

Lemma indexLoop_onlyStats (filesToHide : list gostring) (dir : gostring)
      (info : FileInfo) (filename : gostring) (names : list gostring) :
  onlyStats (indexLoop getwd ReplaceAll spec filesToHide dir info filename names).
Proof.
  induction names as [|n names IH]; intros c.
  - exists []. split; [constructor|]. cbn. symmetry. apply appendEvents_nil.
  - cbn [indexLoop]. destruct (fileHidden getwd _ filesToHide); [apply IH|].
    rewrite bind_run, Stat_run. cbn [fst snd].
    destruct (fsStat (fileSystem spec) _) as [fi|e].
    + eexists. split; [|reflexivity]. repeat constructor. eexists; reflexivity.
    + destruct (IH (appendEvents c [EvStat (util.SanitizedPathJoin dir (ReplaceAll n ""))]))
        as (stats & Hs & Heq).
      eexists (_ :: stats). split; [constructor; [eexists; reflexivity|exact Hs]|].
      rewrite Heq, appendEvents_app. reflexivity.
Qed.

(** The outcomes of the handler after the platform guard. *)
Lemma resolve_results (r : Request) (c : Context) :
  In (fst (resolve getwd ReplaceAll TypeByExtension ServeContent spec r c))
     [resultNotFound; resultErrPermission; resultErrHandleFile;
      resultMethodNotAllowed; []].
Proof.
  unfold resolve. cbv zeta. rewrite bind_run, Stat_run. cbn [fst snd].
  destruct (fsStat (fileSystem spec) _) as [info|err].
  - rewrite bind_run.
    match goal with
    | |- context [let '(i, f) := ?x in _] => destruct x as [info' filename']
    end.
    destruct (IsDir info'); [cbn; auto|].
    destruct (fileHidden getwd filename' _); [cbn; auto|].
    rewrite bind_run, openFile_run. cbn [fst snd].
    destruct (fsOpen (fileSystem spec) filename') as [file|err].
    + rewrite bind_run. unfold serveFile.
      destruct (negb (gostring_eqb (Method r) MethodGet)
                && negb (gostring_eqb (Method r) MethodHead)).
      * cbn. auto 6.
      * cbn. destruct (length (header.Get _ _) =? 0); [destruct (length _ =? 0)|];
          cbn; auto 6.
    + rewrite bind_run.
      destruct (fst (mapDirOpenError spec err filename' _)) as [k t].
      destruct k; cbn; auto.
  - rewrite bind_run.
    destruct (fst (mapDirOpenError spec err _ _)) as [k t].
    destruct k; cbn; auto.
Qed.

Ltac simpl_context :=
  unfold appendEvents; cbn [ctxTags ctxStatus ctxHeader ctxEvents].

Lemma close_run (e : Event) (res : gostring) (c : Context) :
  M.bind (M.emit e) (fun _ => M.ret res) c = (res, appendEvents c [e]).
Proof. reflexivity. Qed.

Lemma reject_run (tag : gostring) (status : nat) (res : gostring) (c : Context) :
  M.bind (M.AddTag tag) (fun _ => M.bind (M.SetStatusCode status) (fun _ => M.ret res)) c
  = (res, mkContext (ctxTags c ++ [tag]) status (ctxHeader c) (ctxEvents c)).
Proof. reflexivity. Qed.

Lemma chosen_onlyStats (filesToHide : list gostring) (info : FileInfo)
      (filename : gostring) :
  onlyStats (if IsDir info && (0 <? length (IndexNames spec))
             then indexLoop getwd ReplaceAll spec filesToHide filename info filename
                            (IndexNames spec)
             else M.ret (info, filename)).
Proof.
  destruct (IsDir info && (0 <? length (IndexNames spec))).
  - apply indexLoop_onlyStats.
  - intros c. exists []. split; [constructor|]. cbn. symmetry. apply appendEvents_nil.
Qed.

(** The handler after the platform guard ends in one of the three ways. *)
Lemma resolve_resolved (r : Request) (c : Context) :
  resolved (fileSystem spec) TypeByExtension ServeContent r c
           (resolve getwd ReplaceAll TypeByExtension ServeContent spec r c).
Proof.
  unfold resolve. cbv zeta.
  set (filename := util.SanitizedPathJoin (ReplaceAll (Root spec) ".") (Path r)).
  set (filesToHide := transformHidePaths getwd ReplaceAll spec).
  rewrite bind_run, Stat_run. cbn [fst snd].
  destruct (fsStat (fileSystem spec) filename) as [info|err].
  - rewrite bind_run.
    destruct (chosen_onlyStats filesToHide info filename (appendEvents c [EvStat filename]))
      as (stats & Hstats & Hc).
    rewrite Hc, appendEvents_app.
    match goal with
    | |- context [let '(i, f) := ?x in _] => destruct x as [info' filename']
    end.
    assert (Hall : Forall isStat ([EvStat filename] ++ stats)).
    { constructor; [eexists; reflexivity|assumption]. }
    destruct (IsDir info').
    { rewrite reject_run. simpl_context.
      apply EndsBeforeOpen; [exact Hall|left; reflexivity]. }
    destruct (fileHidden getwd filename' filesToHide).
    { rewrite reject_run. simpl_context.
      apply EndsBeforeOpen; [exact Hall|left; reflexivity]. }
    rewrite bind_run, openFile_run. cbn [fst snd]. rewrite appendEvents_app.
    destruct (fsOpen (fileSystem spec) filename') as [file|err] eqn:Hopen.
    + rewrite bind_run.
      pose proof (EndsWithFile (fileSystem spec) TypeByExtension ServeContent r c
                               ([EvStat filename] ++ stats) info' filename' file
                               Hall Hopen) as H.
      rewrite <- app_assoc in *.
      destruct (serveFile TypeByExtension ServeContent r info' filename' file
        (calculateEtag info') _)
        as [res c'].
      exact H.
    + rewrite bind_run.
      destruct (mapDirOpenError_onlyStats
                  err filename'
                  (appendEvents c (([EvStat filename] ++ stats) ++ [EvOpen filename'])))
        as (stats' & Hstats' & Hm).
      rewrite Hm, appendEvents_app.
      assert (Hend : forall tag status res,
                 In (res, status)
                    [(resultNotFound, StatusNotFound);
                     (resultErrPermission, StatusForbidden);
                     (resultErrHandleFile, StatusInternalServerError)] ->
                 resolved (fileSystem spec) TypeByExtension ServeContent r c
                          (res, mkContext (ctxTags c ++ [tag]) status (ctxHeader c)
                                          (ctxEvents c ++ (([EvStat filename] ++ stats)
                                                             ++ [EvOpen filename']) ++ stats'))).
      { intros tag status res Hin.
        rewrite <- !app_assoc.
        pose proof (EndsAtOpen (fileSystem spec) TypeByExtension ServeContent r c
                               ([EvStat filename] ++ stats) filename' err stats'
                               tag status res Hall Hstats' Hopen Hin) as H.
        rewrite <- !app_assoc in H. exact H. }
      destruct (isNotExist _);
        [rewrite reject_run; simpl_context; apply Hend; left; reflexivity|].
      destruct (isPermission _);
        [rewrite reject_run; simpl_context; apply Hend; right; left; reflexivity|].
      rewrite reject_run. simpl_context. apply Hend. right; right; left; reflexivity.
  - rewrite bind_run.
    destruct (mapDirOpenError_onlyStats err filename (appendEvents c [EvStat filename]))
      as (stats & Hstats & Hm).
    rewrite Hm, appendEvents_app.
    assert (Hall : Forall isStat ([EvStat filename] ++ stats)).
    { constructor; [eexists; reflexivity|assumption]. }
    destruct (isNotExist _ || isInvalid _);
      [rewrite reject_run; simpl_context;
       apply EndsBeforeOpen; [exact Hall|left; reflexivity]|].
    destruct (isPermission _);
      [rewrite reject_run; simpl_context;
       apply EndsBeforeOpen; [exact Hall|right; left; reflexivity]|].
    rewrite reject_run. simpl_context.
    apply EndsBeforeOpen; [exact Hall|right; right; left; reflexivity].
Qed.

(** With a method other than [GET] and [HEAD] the end of the handler is
    the answer [methodNotAllowed]. *)
Lemma serveFile_not_allowed (r : Request) (info : FileInfo) (filename : gostring)
      (file : File) (etag : gostring) (c : Context) :
  Method r <> MethodGet -> Method r <> MethodHead ->
  serveFile TypeByExtension ServeContent r info filename file etag c
  = (resultMethodNotAllowed,
     mkContext (ctxTags c) StatusMethodNotAllowed
               (header.Add (ctxHeader c) "Allow" "GET, HEAD") (ctxEvents c)).
Proof.
  intros Hget Hhead. unfold serveFile.
  apply gostring_eqb_neq in Hget, Hhead. rewrite Hget, Hhead. reflexivity.
Qed.

Lemma stats_no_open (stats : list Event) (name : gostring) :
  Forall isStat stats -> ~ In (EvOpen name) stats.
Proof.
  intros Hall Hin. rewrite Forall_forall in Hall.
  destruct (Hall _ Hin) as (n & Hn). discriminate.
Qed.

Lemma stats_no_serve (stats : list Event) (n : gostring) (m : Z) (f : gostring) :
  Forall isStat stats -> ~ In (EvServeContent n m f) stats.
Proof.
  intros Hall Hin. rewrite Forall_forall in Hall.
  destruct (Hall _ Hin) as (x & Hx). discriminate.
Qed.

Lemma Values_Add (h : Header) (key value : gostring) :
  header.Values (header.Add h key value) key = header.Values h key ++ [value].
Proof.
  unfold header.Add, header.Values at 1. cbn [find fst].
  rewrite gostring_eqb_refl. reflexivity.
Qed.

Lemma rejection_results (res : gostring) (status : nat) :
  In (res, status)
     [(resultNotFound, StatusNotFound); (resultErrPermission, StatusForbidden);
      (resultErrHandleFile, StatusInternalServerError)] ->
  res <> [] /\ res <> resultMethodNotAllowed.
Proof.
  intros [H|[H|[H|[]]]]; injection H as <- _; split; discriminate.
Qed.

(** On a platform other than [windows] the guard lets every request
    through. *)
Lemma handle_other_platform (r : Request) (c : Context) :
  GOOS <> "windows"%string ->
  handle GOOS getwd ReplaceAll TypeByExtension ServeContent spec r c
  = resolve getwd ReplaceAll TypeByExtension ServeContent spec r c.
Proof.
  intros Hne. apply gostring_eqb_neq in Hne. unfold handle. cbv zeta.
  rewrite Hne. reflexivity.
Qed.

(** *** The walk of [mapDirOpenError] *)

Lemma walkParts_first (originalErr : GoError) (parts : list gostring) :
  forall seen c i,
    i < length parts ->
    nth i parts [] <> [] ->
    (forall j, j < i -> nth j parts [] <> [] ->
               exists fi, fsStat (fileSystem spec)
                                 (strings.Join (seen ++ firstn (S j) parts) separator)
                          = Ok fi
                          /\ IsDir fi = true) ->
    (forall fi, fsStat (fileSystem spec)
                       (strings.Join (seen ++ firstn (S i) parts) separator) = Ok fi ->
                IsDir fi = false ->
                fst (walkParts spec originalErr seen parts c) = ErrNotExist)
    /\ (forall e, fsStat (fileSystem spec)
                         (strings.Join (seen ++ firstn (S i) parts) separator) = Err e ->
                  fst (walkParts spec originalErr seen parts c) = originalErr).
Proof.
  induction parts as [|part parts IH]; intros seen c i Hi Hnth Hdirs.
  - cbn in Hi. lia.
  - cbn [walkParts]. destruct i as [|i].
    + cbn [nth] in Hnth. cbn [firstn].
      assert (Hlen : (length part =? 0) = false).
      { apply Nat.eqb_neq. destruct part; [congruence|discriminate]. }
      rewrite Hlen, bind_run, Stat_run. cbn [fst snd].
      split.
      * intros fi -> ->. reflexivity.
      * intros e ->. reflexivity.
    + cbn [length] in Hi. cbn [nth] in Hnth.
      assert (Hshift : forall k, seen ++ firstn (S (S k)) (part :: parts)
                                 = (seen ++ [part]) ++ firstn (S k) parts).
      { intros k. cbn [firstn]. rewrite <- app_assoc. reflexivity. }
      rewrite Hshift.
      assert (Hrest : forall c',
                 (forall fi, fsStat (fileSystem spec)
                                    (strings.Join ((seen ++ [part]) ++ firstn (S i) parts)
                                                  separator) = Ok fi ->
                             IsDir fi = false ->
                             fst (walkParts spec originalErr (seen ++ [part]) parts c')
                             = ErrNotExist)
                 /\ (forall e, fsStat (fileSystem spec)
                                      (strings.Join ((seen ++ [part]) ++ firstn (S i) parts)
                                                    separator) = Err e ->
                               fst (walkParts spec originalErr (seen ++ [part]) parts c')
                               = originalErr)).
      { intros c'. apply IH; [lia|assumption|].
        intros j Hj Hnj. rewrite <- Hshift. apply Hdirs; [lia|exact Hnj]. }
      destruct (length part =? 0) eqn:Hlen; [apply Hrest|].
      rewrite bind_run, Stat_run. cbn [fst snd].
      destruct (Hdirs 0 ltac:(lia)) as (fi0 & Hst & Hd).
      { cbn [nth]. apply Nat.eqb_neq in Hlen. intros ->. apply Hlen. reflexivity. }
      cbn [firstn] in Hst. rewrite Hst, Hd. cbn [negb]. apply Hrest.
Qed.

Lemma walkParts_all_directories (originalErr : GoError) (parts : list gostring) :
  forall seen c,
    (forall j, j < length parts -> nth j parts [] <> [] ->
               exists fi, fsStat (fileSystem spec)
                                 (strings.Join (seen ++ firstn (S j) parts) separator)
                          = Ok fi
                          /\ IsDir fi = true) ->
    fst (walkParts spec originalErr seen parts c) = originalErr.
Proof.
  induction parts as [|part parts IH]; intros seen c Hdirs; [reflexivity|].
  cbn [walkParts].
  assert (Hrest : forall c',
             fst (walkParts spec originalErr (seen ++ [part]) parts c') = originalErr).
  { intros c'. apply IH. intros j Hj Hnj.
    rewrite <- app_assoc. apply (Hdirs (S j)); [cbn [length]; lia|exact Hnj]. }
  destruct (length part =? 0) eqn:Hlen; [apply Hrest|].
  rewrite bind_run, Stat_run. cbn [fst snd].
  destruct (Hdirs 0 ltac:(cbn [length]; lia)) as (fi0 & Hst & Hd).
  { cbn [nth]. apply Nat.eqb_neq in Hlen. intros ->. apply Hlen. reflexivity. }
  cbn [firstn] in Hst. rewrite Hst, Hd. cbn [negb]. apply Hrest.
Qed.

(** *** The search for an index file *)

Lemma indexLoop_first (filesToHide : list gostring) (dir : gostring)
      (info : FileInfo) (filename : gostring) (pre : list gostring) :
  forall n post indexInfo c,
    Forall (fun x =>
              fileHidden getwd (util.SanitizedPathJoin dir (ReplaceAll x "")) filesToHide
              = true
              \/ exists e, fsStat (fileSystem spec)
                                  (util.SanitizedPathJoin dir (ReplaceAll x "")) = Err e)
           pre ->
    fileHidden getwd (util.SanitizedPathJoin dir (ReplaceAll n "")) filesToHide = false ->
    fsStat (fileSystem spec) (util.SanitizedPathJoin dir (ReplaceAll n "")) = Ok indexInfo ->
    fst (indexLoop getwd ReplaceAll spec filesToHide dir info filename (pre ++ n :: post) c)
    = (indexInfo, util.SanitizedPathJoin dir (ReplaceAll n "")).
Proof.
  induction pre as [|x pre IH]; intros n post indexInfo c Hpre Hvis Hst.
  - cbn [app indexLoop]. cbv zeta. rewrite Hvis, bind_run, Stat_run. cbn [fst snd].
    rewrite Hst. reflexivity.
  - inversion Hpre as [|? ? Hx Hpre']; subst.
    cbn [app indexLoop]. cbv zeta. destruct Hx as [Hh|(e & He)].
    + rewrite Hh. apply IH; assumption.
    + destruct (fileHidden getwd (util.SanitizedPathJoin dir (ReplaceAll x ""))
                           filesToHide); [apply IH; assumption|].
      rewrite bind_run, Stat_run. cbn [fst snd]. rewrite He. apply IH; assumption.
Qed.

Lemma indexLoop_none (filesToHide : list gostring) (dir : gostring)
      (info : FileInfo) (filename : gostring) (names : list gostring) :
  forall c,
    Forall (fun x =>
              fileHidden getwd (util.SanitizedPathJoin dir (ReplaceAll x "")) filesToHide
              = true
              \/ exists e, fsStat (fileSystem spec)
                                  (util.SanitizedPathJoin dir (ReplaceAll x "")) = Err e)
           names ->
    fst (indexLoop getwd ReplaceAll spec filesToHide dir info filename names c)
    = (info, filename).
Proof.
  induction names as [|x names IH]; intros c Hall; [reflexivity|].
  inversion Hall as [|? ? Hx Hall']; subst.
  cbn [indexLoop]. cbv zeta. destruct Hx as [Hh|(e & He)].
  - rewrite Hh. apply IH; assumption.
  - destruct (fileHidden getwd (util.SanitizedPathJoin dir (ReplaceAll x ""))
                         filesToHide); [apply IH; assumption|].
    rewrite bind_run, Stat_run. cbn [fst snd]. rewrite He. apply IH; assumption.
Qed.

Lemma serveFile_allowed (r : Request) (info : FileInfo) (filename : gostring)
      (file : File) (etag : gostring) (c : Context) :
  Method r = MethodGet \/ Method r = MethodHead ->
  fst (serveFile TypeByExtension ServeContent r info filename file etag c) = []
  /\ ctxEvents (snd (serveFile TypeByExtension ServeContent r info filename file etag c))
     = ctxEvents c ++ [EvServeContent (Name info) (ModTimeUnix info) (fileName file)].
Proof.
  intros Hm. unfold serveFile.
  assert (Hb : negb (gostring_eqb (Method r) MethodGet)
               && negb (gostring_eqb (Method r) MethodHead) = false).
  { destruct Hm as [-> | ->]; reflexivity. }
  rewrite Hb. cbn.
  destruct (length (header.Get _ _) =? 0); [destruct (length _ =? 0)|];
    split; reflexivity.
Qed.

Lemma serveFile_events (r : Request) (info : FileInfo) (filename : gostring)
      (file : File) (etag : gostring) (c : Context) :
  exists events,
    ctxEvents (snd (serveFile TypeByExtension ServeContent r info filename file etag c))
    = ctxEvents c ++ events.
Proof.
  unfold serveFile.
  destruct (negb (gostring_eqb (Method r) MethodGet)
            && negb (gostring_eqb (Method r) MethodHead)).
  - exists []. cbn. symmetry. apply app_nil_r.
  - cbn. destruct (length (header.Get _ _) =? 0); [destruct (length _ =? 0)|];
      eexists; reflexivity.
Qed.

End Stages.

(** ** The platform guard *)

(** C2 as claimed fails: on [windows] the request path [/a~b/file.txt]
    is rejected as an illegal short name although its last element,
    [file.txt], has no tilde. *)
Lemma short_name_guard_tilde_elsewhere :
  ~ (fst (samples.serve "windows" [] "GET" "/a~b/file.txt")
     = fileserver.resultIllegalShortName
     <-> length (path.Base (strings.TrimRight "/a~b/file.txt" ". ")) <= 12
         /\ strings.Contains (path.Base (strings.TrimRight "/a~b/file.txt" ". ")) "~"
            = true).
Proof.
  intros [H _]. specialize (H eq_refl). destruct H as [_ H].
  vm_compute in H. discriminate H.
Qed.

(** C2, amended: on [windows] the handler rejects a request path as an
    illegal short name exactly when the path has no colon, which is
    rejected first as an alternate data stream, and, after trimming its
    trailing dots and spaces, its last element has 12 bytes or fewer and
    the trimmed path has a tilde, in any element; on another platform
    the guard lets every path through. *)
Theorem handle_short_name_guard
        (GOOS : gostring) (getwd : option gostring)
        (ReplaceAll : gostring -> gostring -> gostring)
        (TypeByExtension : gostring -> gostring) (ServeContent : Serving)
        (spec : fileserver.Spec) (r : Request) (c : Context) :
  let trimmedPath := strings.TrimRight (Path r) ". " in
  (fst (fileserver.handle GOOS getwd ReplaceAll TypeByExtension ServeContent spec r c)
   = fileserver.resultIllegalShortName
   <-> GOOS = "windows"%string
       /\ strings.Contains (Path r) ":" = false
       /\ length (path.Base trimmedPath) <= 12
       /\ strings.Contains trimmedPath "~" = true)
  /\ (GOOS <> "windows"%string ->
      fileserver.handle GOOS getwd ReplaceAll TypeByExtension ServeContent spec r c
      = fileserver.resolve getwd ReplaceAll TypeByExtension ServeContent spec r c).
Proof.
  intros trimmedPath.
  assert (Hres : fst (fileserver.resolve getwd ReplaceAll TypeByExtension ServeContent spec r c)
                 <> fileserver.resultIllegalShortName).
  { pose proof (resolve_results getwd ReplaceAll TypeByExtension ServeContent spec r c) as Hin.
    intros Heq. rewrite Heq in Hin. cbn in Hin.
    repeat (destruct Hin as [Hin|Hin]; [discriminate Hin|]). exact Hin. }
  unfold fileserver.handle. cbv zeta. fold trimmedPath.
  destruct (gostring_eqb GOOS "windows") eqn:HG.
  - apply gostring_eqb_eq in HG. cbn [andb].
    split; [|intros Hne; congruence].
    destruct (strings.Contains (Path r) ":").
    + split; [discriminate|]. intros (_ & Hcolon & _). discriminate.
    + destruct (Nat.leb_spec (length (path.Base trimmedPath)) 12) as [Hle|Hgt];
        cbn [andb].
      * destruct (strings.Contains trimmedPath "~").
        -- split; [auto|reflexivity].
        -- split; [intros H; elim (Hres H)|]. intros (_ & _ & _ & Ht). discriminate.
      * split; [intros H; elim (Hres H)|]. intros (_ & _ & Hle & _). lia.
  - apply gostring_eqb_neq in HG. cbn [andb].
    split; [|reflexivity].
    split; [intros H; elim (Hres H)|]. intros (Hw & _). congruence.
Qed.

Lemma handle_short_name_guard_witness :
  fst (samples.serve "windows" [] "GET" "/PROGRA~1/x.txt")
  = fileserver.resultIllegalShortName
  /\ fst (samples.serve "linux" [] "GET" "/a~b/file.txt") = ""%string.
Proof.
  split.
  - apply (proj1 (handle_short_name_guard
                    "windows" (Some ("/srv"%string : gostring)) samples.noReplace
                    samples.noType
                    samples.plainServe (samples.siteSpec []) (mkRequest "GET" "/PROGRA~1/x.txt")
                    samples.fresh)).
    repeat split; try reflexivity. vm_compute. lia.
  - unfold samples.serve.
    rewrite (proj2 (handle_short_name_guard
                      "linux" (Some ("/srv"%string : gostring)) samples.noReplace
                      samples.noType
                      samples.plainServe (samples.siteSpec []) (mkRequest "GET" "/a~b/file.txt")
                      samples.fresh)) by discriminate.
    reflexivity.
Defined.

(** ** The method check *)

(** A request for a missing file is answered [notFound] whatever its
    method. *)
Example method_check_not_reached :
  fst (samples.serve "linux" [] "POST" "/missing.txt") = fileserver.resultNotFound.
Proof. reflexivity. Qed.

(** C3 as claimed fails: a [POST] request for an existing file is
    answered [methodNotAllowed] with the [Allow] header, but the file has
    been opened before the method is looked at. *)
Lemma method_check_after_open :
  ~ (fst (samples.serve "linux" [] "POST" "/file.txt") = fileserver.resultMethodNotAllowed
     /\ header.Get (ctxHeader (snd (samples.serve "linux" [] "POST" "/file.txt"))) "Allow"
        = "GET, HEAD"%string
     /\ forall name,
          ~ In (EvOpen name) (ctxEvents (snd (samples.serve "linux" [] "POST" "/file.txt")))).
Proof.
  intros (_ & _ & H). apply (H "/site/file.txt"%string).
  vm_compute. right. left. reflexivity.
Qed.

(** C3, amended: a request whose method is neither [GET] nor [HEAD] is
    never served a file; it is answered [methodNotAllowed] exactly when
    the handler gets as far as opening the file with success, and then
    with status 405 and one more value [GET, HEAD] of the [Allow]
    header, after calls to [Stat], one call to [Open] and the closing of
    the file, and nothing else. *)
Theorem handle_method_check
        (GOOS : gostring) (getwd : option gostring)
        (ReplaceAll : gostring -> gostring -> gostring)
        (TypeByExtension : gostring -> gostring) (ServeContent : Serving)
        (spec : fileserver.Spec) (r : Request) (c : Context) :
  Method r <> fileserver.MethodGet ->
  Method r <> fileserver.MethodHead ->
  let out := fileserver.handle GOOS getwd ReplaceAll TypeByExtension ServeContent spec r c in
  exists events,
    ctxEvents (snd out) = ctxEvents c ++ events
    /\ (forall n m f, ~ In (EvServeContent n m f) events)
    /\ fst out <> []
    /\ (fst out = fileserver.resultMethodNotAllowed
        <-> exists name file,
              In (EvOpen name) events
              /\ fsOpen (fileserver.fileSystem spec) name = Ok file)
    /\ (fst out = fileserver.resultMethodNotAllowed ->
        ctxStatus (snd out) = fileserver.StatusMethodNotAllowed
        /\ header.Values (ctxHeader (snd out)) "Allow"
           = header.Values (ctxHeader c) "Allow" ++ [("GET, HEAD"%string : gostring)]
        /\ exists stats name file,
             Forall trace.isStat stats
             /\ fsOpen (fileserver.fileSystem spec) name = Ok file
             /\ events = stats ++ [EvOpen name; EvClose (fileName file)]).
Proof.
  intros Hget Hhead out. pattern out.
  match goal with |- ?Q out => set (P := Q) end.
  assert (Hguard : forall tag res,
             res <> [] -> res <> fileserver.resultMethodNotAllowed ->
             P (res, mkContext (ctxTags c ++ [tag]) fileserver.StatusBadRequest
                               (ctxHeader c) (ctxEvents c))).
  { intros tag res H0 H1. subst P. cbn beta. exists []. cbn [fst snd ctxEvents].
    split; [symmetry; apply app_nil_r|].
    split; [intros n m f []|].
    split; [exact H0|].
    split; [|intros H; congruence].
    split; [intros H; congruence|]. intros (name & file & [] & _). }
  subst out. unfold fileserver.handle. cbv zeta.
  destruct (gostring_eqb GOOS "windows" && strings.Contains (Path r) ":").
  { rewrite reject_run. apply Hguard; discriminate. }
  destruct (gostring_eqb GOOS "windows" && _).
  { rewrite reject_run. apply Hguard; discriminate. }
  clear Hguard. subst P. cbn beta.
  pose proof (resolve_resolved getwd ReplaceAll TypeByExtension ServeContent spec r c) as Hres.
  destruct Hres as [stats tag status res Hstats Hin
                   |stats name err stats' tag status res Hstats Hstats' Hopen Hin
                   |stats info filename file Hstats Hopen].
  - destruct (rejection_results res status Hin) as [H0 H1].
    exists stats. cbn [fst snd ctxEvents].
    split; [reflexivity|].
    split; [intros n m f; apply stats_no_serve; assumption|].
    split; [exact H0|].
    split; [|intros H; congruence].
    split; [intros H; congruence|].
    intros (name & file & Hn & _). elim (stats_no_open stats name Hstats Hn).
  - destruct (rejection_results res status Hin) as [H0 H1].
    exists (stats ++ EvOpen name :: stats'). cbn [fst snd ctxEvents].
    split; [reflexivity|].
    split.
    { intros n m f Hs. apply in_app_or in Hs. destruct Hs as [Hs|[Hs|Hs]].
      - elim (stats_no_serve stats n m f Hstats Hs).
      - discriminate.
      - elim (stats_no_serve stats' n m f Hstats' Hs). }
    split; [exact H0|].
    split; [|intros H; congruence].
    split; [intros H; congruence|].
    intros (name' & file & Hn & Hok).
    apply in_app_or in Hn. destruct Hn as [Hn|[Hn|Hn]].
    + elim (stats_no_open stats name' Hstats Hn).
    + injection Hn as <-. congruence.
    + elim (stats_no_open stats' name' Hstats' Hn).
  - rewrite serveFile_not_allowed by assumption.
    exists (stats ++ [EvOpen filename; EvClose (fileName file)]).
    unfold trace.appendEvents. cbn [fst snd ctxEvents ctxStatus ctxHeader].
    split; [rewrite <- !app_assoc; reflexivity|].
    split.
    { intros n m f Hs. apply in_app_or in Hs. destruct Hs as [Hs|[Hs|[Hs|[]]]].
      - elim (stats_no_serve stats n m f Hstats Hs).
      - discriminate.
      - discriminate. }
    split; [discriminate|].
    split.
    { split; [|reflexivity]. intros _. exists filename, file.
      split; [|exact Hopen]. apply in_or_app. right. left. reflexivity. }
    intros _. split; [reflexivity|]. split; [apply Values_Add|].
    exists stats, filename, file. auto.
Qed.

Lemma handle_method_check_witness :
  fst (samples.serve "linux" [] "POST" "/file.txt") <> []
  /\ fst (samples.serve "linux" [] "DELETE" "/missing.txt") <> [].
Proof.
  split.
  - destruct (handle_method_check
                "linux" (Some ("/srv"%string : gostring)) samples.noReplace samples.noType
                samples.plainServe
                (samples.siteSpec []) (mkRequest "POST" "/file.txt") samples.fresh
                ltac:(discriminate) ltac:(discriminate))
      as (events & _ & _ & H & _).
    exact H.
  - destruct (handle_method_check
                "linux" (Some ("/srv"%string : gostring)) samples.noReplace samples.noType
                samples.plainServe
                (samples.siteSpec []) (mkRequest "DELETE" "/missing.txt") samples.fresh
                ltac:(discriminate) ltac:(discriminate))
      as (events & _ & _ & H & _).
    exact H.
Defined.

(** ** Errors from the file system *)

(** The request [/file.txt/sub] goes below a regular file: the error of
    [Stat] is none of the sorted ones, the walk finds the regular file
    and the answer is [notFound]. *)
Example below_regular_file_not_found :
  fsStat (fileserver.fileSystem (samples.siteSpec [])) "/site/file.txt/sub"
  = Err samples.ENOTDIR
  /\ samples.serve "linux" [] "GET" "/file.txt/sub"
     = (fileserver.resultNotFound,
        mkContext [("not found"%string : gostring)] 404 []
                  [EvStat "/site/file.txt/sub"; EvStat "/site"; EvStat "/site/file.txt"]).
Proof. split; reflexivity. Qed.

(** C8: [mapDirOpenError] gives back an error that says not-exist or
    permission as it is, without a call to the file system; for another
    error it takes the prefixes of the name that end with a non-empty
    part, in order of length: at the first one that is not an existing
    directory, the error becomes [ErrNotExist] if it exists, and stays
    as it is if its [Stat] fails; it stays as it is when all are
    directories.  A request whose [Stat] fails in the first of these
    ways is answered [notFound] with status 404. *)
Theorem mapDirOpenError_classification
        (spec : fileserver.Spec) (originalErr : GoError) (name : gostring) (c : Context) :
  let parts := strings.SplitByte name filepath.Separator in
  let prefix i := strings.Join (firstn (S i) parts) fileserver.separator in
  let directoriesBefore i :=
    forall j, j < i -> nth j parts [] <> [] ->
              exists fi, fsStat (fileserver.fileSystem spec) (prefix j) = Ok fi
                         /\ IsDir fi = true in
  (isNotExist originalErr = true \/ isPermission originalErr = true ->
   fileserver.mapDirOpenError spec originalErr name c = (originalErr, c))
  /\ (isNotExist originalErr = false -> isPermission originalErr = false ->
      (forall i fi,
          i < length parts -> nth i parts [] <> [] -> directoriesBefore i ->
          fsStat (fileserver.fileSystem spec) (prefix i) = Ok fi -> IsDir fi = false ->
          fst (fileserver.mapDirOpenError spec originalErr name c) = ErrNotExist
          /\ forall (GOOS : gostring) (getwd : option gostring)
                    (ReplaceAll : gostring -> gostring -> gostring)
                    (TypeByExtension : gostring -> gostring) (ServeContent : Serving)
                    (r : Request) (c' : Context),
               GOOS <> "windows"%string ->
               name = util.SanitizedPathJoin (ReplaceAll (fileserver.Root spec) ".")
                                             (Path r) ->
               fsStat (fileserver.fileSystem spec) name = Err originalErr ->
               fst (fileserver.handle GOOS getwd ReplaceAll TypeByExtension ServeContent
                 spec r c')
               = fileserver.resultNotFound
               /\ ctxStatus (snd (fileserver.handle GOOS getwd ReplaceAll
                                                    TypeByExtension ServeContent spec r c'))
                  = fileserver.StatusNotFound)
      /\ (forall i e,
             i < length parts -> nth i parts [] <> [] -> directoriesBefore i ->
             fsStat (fileserver.fileSystem spec) (prefix i) = Err e ->
             fst (fileserver.mapDirOpenError spec originalErr name c) = originalErr)
      /\ (directoriesBefore (length parts) ->
          fst (fileserver.mapDirOpenError spec originalErr name c) = originalErr)).
Proof.
  intros parts prefix directoriesBefore.
  unfold fileserver.mapDirOpenError. fold parts.
  split.
  - intros Hor.
    assert (H : isNotExist originalErr || isPermission originalErr = true)
      by (apply orb_true_iff; exact Hor).
    rewrite H. reflexivity.
  - intros Hne Hperm. rewrite Hne, Hperm. cbn [orb].
    assert (Hfirst : forall c0 i,
               i < length parts -> nth i parts [] <> [] -> directoriesBefore i ->
               (forall fi, fsStat (fileserver.fileSystem spec) (prefix i) = Ok fi ->
                           IsDir fi = false ->
                           fst (fileserver.walkParts spec originalErr [] parts c0)
                           = ErrNotExist)
               /\ (forall e, fsStat (fileserver.fileSystem spec) (prefix i) = Err e ->
                             fst (fileserver.walkParts spec originalErr [] parts c0)
                             = originalErr)).
    { intros c0 i Hi Hnth Hdirs.
      apply (walkParts_first spec originalErr parts [] c0 i Hi Hnth). exact Hdirs. }
    split; [|split].
    + intros i fi Hi Hnth Hdirs Hst Hd.
      split; [apply (proj1 (Hfirst c i Hi Hnth Hdirs) fi Hst Hd)|].
      intros GOOS getwd ReplaceAll TypeByExtension ServeContent r c' Hos Hname Hstat.
      rewrite handle_other_platform by assumption.
      unfold fileserver.resolve. cbv zeta. rewrite <- Hname.
      rewrite bind_run, Stat_run. cbn [fst snd]. rewrite Hstat.
      rewrite bind_run. unfold fileserver.mapDirOpenError. fold parts.
      rewrite Hne, Hperm. cbn [orb].
      rewrite (proj1 (Hfirst _ i Hi Hnth Hdirs) fi Hst Hd).
      split; reflexivity.
    + intros i e Hi Hnth Hdirs Hst.
      apply (proj2 (Hfirst c i Hi Hnth Hdirs) e Hst).
    + intros Hdirs.
      apply (walkParts_all_directories spec originalErr parts [] c). exact Hdirs.
Qed.

Lemma mapDirOpenError_classification_witness :
  fst (fileserver.mapDirOpenError (samples.siteSpec []) samples.ENOTDIR
                                  "/site/file.txt/sub" samples.fresh)
  = ErrNotExist
  /\ fst (samples.serve "linux" [] "GET" "/file.txt/sub") = fileserver.resultNotFound.
Proof.
  pose proof (mapDirOpenError_classification
                (samples.siteSpec []) samples.ENOTDIR "/site/file.txt/sub" samples.fresh)
    as (_ & H).
  destruct (H eq_refl eq_refl) as (H1 & _).
  assert (Hdirs : forall j, j < 2 ->
            nth j (strings.SplitByte "/site/file.txt/sub" filepath.Separator) [] <> [] ->
            exists fi,
              fsStat (fileserver.fileSystem (samples.siteSpec []))
                     (strings.Join
                        (firstn (S j) (strings.SplitByte "/site/file.txt/sub"
                                                         filepath.Separator))
                        fileserver.separator) = Ok fi
              /\ IsDir fi = true).
  { intros j Hj Hnth. destruct j as [|[|j]]; [elim Hnth; reflexivity| |lia].
    exists (samples.dir "site"). split; reflexivity. }
  destruct (H1 2 (samples.file "file.txt") ltac:(vm_compute; lia) ltac:(discriminate)
               Hdirs eq_refl eq_refl) as (Hmap & Hhandle).
  split; [exact Hmap|].
  apply (Hhandle "linux"%string (Some ("/srv"%string : gostring)) samples.noReplace
                 samples.noType
                 samples.plainServe (mkRequest "GET" "/file.txt/sub") samples.fresh).
  - discriminate.
  - reflexivity.
  - reflexivity.
Defined.

(** ** Index files *)

(** In [/docs] only [index.txt] exists and it is served; in [/blog] both
    index files exist, and [index.txt] is served when [index.html] is
    hidden; a directory without an index file is answered [notFound]. *)
Example index_examples :
  ctxEvents (snd (samples.serve "linux" [] "GET" "/docs/"))
  = [EvStat "/site/docs/"; EvStat "/site/docs/index.html"; EvStat "/site/docs/index.txt";
     EvOpen "/site/docs/index.txt";
     EvServeContent "index.txt" 1700000000 "/site/docs/index.txt";
     EvClose "/site/docs/index.txt"]
  /\ ctxEvents (snd (samples.serve "linux" [] "GET" "/blog"))
     = [EvStat "/site/blog"; EvStat "/site/blog/index.html";
        EvOpen "/site/blog/index.html";
        EvServeContent "index.html" 1700000000 "/site/blog/index.html";
        EvClose "/site/blog/index.html"]
  /\ ctxEvents (snd (samples.serve "linux" ["index.html"] "GET" "/blog"))
     = [EvStat "/site/blog"; EvStat "/site/blog/index.txt";
        EvOpen "/site/blog/index.txt";
        EvServeContent "index.txt" 1700000000 "/site/blog/index.txt";
        EvClose "/site/blog/index.txt"]
  /\ samples.serve "linux" ["index.*"] "GET" "/blog"
     = (fileserver.resultNotFound,
        mkContext [("not found"%string : gostring)] 404 [] [EvStat "/site/blog"])
  /\ fst (samples.serve "linux" [] "GET" "/a~b") = fileserver.resultNotFound.
Proof. repeat split; reflexivity. Qed.

(** C9: for a request that resolves to a directory, the handler takes
    the first name of [IndexNames] whose file is not hidden and exists,
    passing over the hidden and the missing ones; that file is the one
    it opens and serves; with no such name the answer is [notFound] with
    status 404. *)
Theorem index_file_selection
        (GOOS : gostring) (getwd : option gostring)
        (ReplaceAll : gostring -> gostring -> gostring)
        (TypeByExtension : gostring -> gostring) (ServeContent : Serving)
        (spec : fileserver.Spec) (r : Request) (c : Context) (dirInfo : FileInfo) :
  let hide := fileserver.transformHidePaths getwd ReplaceAll spec in
  let dir := util.SanitizedPathJoin (ReplaceAll (fileserver.Root spec) ".") (Path r) in
  let candidate n := util.SanitizedPathJoin dir (ReplaceAll n "") in
  let skipped n :=
    fileserver.fileHidden getwd (candidate n) hide = true
    \/ exists e, fsStat (fileserver.fileSystem spec) (candidate n) = Err e in
  let out := fileserver.handle GOOS getwd ReplaceAll TypeByExtension ServeContent spec r c in
  GOOS <> "windows"%string ->
  fsStat (fileserver.fileSystem spec) dir = Ok dirInfo ->
  IsDir dirInfo = true ->
  (forall pre n post info,
      fileserver.IndexNames spec = pre ++ n :: post ->
      Forall skipped pre ->
      fileserver.fileHidden getwd (candidate n) hide = false ->
      fsStat (fileserver.fileSystem spec) (candidate n) = Ok info ->
      (forall c',
          fst (fileserver.indexLoop getwd ReplaceAll spec hide dir dirInfo dir
                                    (fileserver.IndexNames spec) c')
          = (info, candidate n))
      /\ (IsDir info = true -> fst out = fileserver.resultNotFound)
      /\ (IsDir info = false ->
          In (EvOpen (candidate n)) (ctxEvents (snd out))
          /\ forall file,
               fsOpen (fileserver.fileSystem spec) (candidate n) = Ok file ->
               Method r = fileserver.MethodGet \/ Method r = fileserver.MethodHead ->
               fst out = []
               /\ In (EvServeContent (Name info) (ModTimeUnix info) (fileName file))
                     (ctxEvents (snd out))))
  /\ (Forall skipped (fileserver.IndexNames spec) ->
      fst out = fileserver.resultNotFound
      /\ ctxStatus (snd out) = fileserver.StatusNotFound).
Proof.
  intros hide dir candidate skipped out Hos Hstat Hdir.
  subst out. rewrite handle_other_platform by assumption.
  unfold fileserver.resolve. cbv zeta. fold hide. fold dir.
  rewrite bind_run, Stat_run. cbn [fst snd]. rewrite Hstat, Hdir. cbn [andb].
  rewrite bind_run.
  split.
  - intros pre n post info Hnames Hpre Hvis Hst.
    assert (Hloop : forall c',
               fst (fileserver.indexLoop getwd ReplaceAll spec hide dir dirInfo dir
                                         (fileserver.IndexNames spec) c')
               = (info, candidate n)).
    { intros c'. rewrite Hnames. apply indexLoop_first; assumption. }
    split; [exact Hloop|].
    assert (Hlen : (0 <? length (fileserver.IndexNames spec)) = true).
    { rewrite Hnames, length_app. cbn [length]. apply Nat.ltb_lt. lia. }
    rewrite Hlen, Hloop.
    destruct (indexLoop_onlyStats getwd ReplaceAll spec hide dir dirInfo dir
                                  (fileserver.IndexNames spec)
                                  (trace.appendEvents c [EvStat dir]))
      as (stats & Hstats & Hctx).
    rewrite Hctx, appendEvents_app.
    split.
    + intros Hd. rewrite Hd. reflexivity.
    + intros Hd. rewrite Hd, Hvis.
      rewrite bind_run, openFile_run. cbn [fst snd]. rewrite appendEvents_app.
      destruct (fsOpen (fileserver.fileSystem spec) (candidate n)) as [file|err].
      * rewrite bind_run.
        destruct (serveFile_events TypeByExtension ServeContent r info (candidate n) file
                                   (fileserver.calculateEtag info)
                                   (trace.appendEvents
                                      c (([EvStat dir] ++ stats) ++ [EvOpen (candidate n)])))
          as (events & Hev).
        split.
        -- rewrite close_run. cbn [fst snd trace.appendEvents ctxEvents].
           rewrite Hev. cbn [trace.appendEvents ctxEvents].
           rewrite <- !app_assoc. apply in_or_app. right.
           apply in_or_app. right. apply in_or_app. right. left. reflexivity.
        -- intros file' Hfile Hm. injection Hfile as <-.
           destruct (serveFile_allowed TypeByExtension ServeContent r info (candidate n) file
                                       (fileserver.calculateEtag info)
                                       (trace.appendEvents
                                          c (([EvStat dir] ++ stats)
                                               ++ [EvOpen (candidate n)])) Hm)
             as (Hres & Hsv).
           rewrite close_run. cbn [fst snd trace.appendEvents ctxEvents].
           split.
           ++ exact Hres.
           ++ rewrite Hsv. apply in_or_app. left. apply in_or_app. right.
              left. reflexivity.
      * split; [|intros file Hfile; discriminate].
        rewrite bind_run.
        destruct (mapDirOpenError_onlyStats
                    spec err (candidate n)
                    (trace.appendEvents c (([EvStat dir] ++ stats) ++ [EvOpen (candidate n)])))
          as (stats' & _ & Hm).
        assert (Hin : In (EvOpen (candidate n))
                         (ctxEvents (snd (fileserver.mapDirOpenError
                                            spec err (candidate n)
                                            (trace.appendEvents
                                               c (([EvStat dir] ++ stats)
                                                    ++ [EvOpen (candidate n)])))))).
        { rewrite Hm. cbn [trace.appendEvents ctxEvents].
          apply in_or_app. left. apply in_or_app. right.
          apply in_or_app. right. left. reflexivity. }
        destruct (isNotExist _); [exact Hin|]. destruct (isPermission _); exact Hin.
  - intros Hall.
    destruct (0 <? length (fileserver.IndexNames spec)).
    + rewrite indexLoop_none by exact Hall. rewrite Hdir. split; reflexivity.
    + cbn. rewrite Hdir. split; reflexivity.
Qed.

Lemma index_file_selection_witness :
  In (EvOpen "/site/blog/index.txt")
     (ctxEvents (snd (samples.serve "linux" ["index.html"] "GET" "/blog")))
  /\ fst (samples.serve "linux" ["index.*"] "GET" "/blog") = fileserver.resultNotFound.
Proof.
  pose proof (index_file_selection
                "linux" (Some ("/srv"%string : gostring)) samples.noReplace samples.noType
                samples.plainServe
                (samples.siteSpec ["index.html"]) (mkRequest "GET" "/blog") samples.fresh
                (samples.dir "blog") ltac:(discriminate) eq_refl eq_refl) as (Hsel & _).
  pose proof (index_file_selection
                "linux" (Some ("/srv"%string : gostring)) samples.noReplace samples.noType
                samples.plainServe
                (samples.siteSpec ["index.*"]) (mkRequest "GET" "/blog") samples.fresh
                (samples.dir "blog") ltac:(discriminate) eq_refl eq_refl) as (_ & Hnone).
  split.
  - destruct (Hsel [("index.html"%string : gostring)] ("index.txt"%string : gostring) []
                   (samples.file "index.txt") eq_refl) as (_ & _ & Hopen).
    + constructor; [left; vm_compute; reflexivity|constructor].
    + vm_compute. reflexivity.
    + vm_compute. reflexivity.
    + destruct (Hopen eq_refl) as [Hin _]. exact Hin.
  - apply Hnone. constructor; [left; vm_compute; reflexivity|].
    constructor; [left; vm_compute; reflexivity|constructor].
Defined.

(** * Further properties *)

(** ** Cleaned paths *)

Section CleanedPaths.

Import filepath lexical cleanpath.

Local Abbreviation JJ l := (strings.Join l [Separator]).

Lemma elements_Join_sepFree (l : list gostring) :
  Forall sepFree l -> l <> [] -> elements (JJ l) = l.
Proof.
  intros Hl Hne. induction Hl as [|e l He Hl IH]; [congruence|].
  destruct l as [|e' l].
  - apply elements_sepFree. exact He.
  - rewrite Join_cons by discriminate. rewrite elements_app.
    rewrite IH by discriminate. rewrite elements_sepFree by exact He. reflexivity.
Qed.

Lemma fold_enter_ups (ups : nat) :
  forall k, fold_left (enter false) (repeat (".."%string : gostring) ups) (k, [])
            = (k + ups, []).
Proof.
  induction ups as [|ups IH]; intros k.
  - cbn. f_equal. lia.
  - cbn [repeat fold_left].
    change (enter false (k, []) "..") with (S k, @nil gostring).
    rewrite IH. f_equal. lia.
Qed.

Lemma kept_sepFree (ups : nat) (names : list gostring) :
  Forall plainName names ->
  Forall sepFree (repeat (".."%string : gostring) ups ++ rev names).
Proof.
  intros Hn. apply Forall_app. split.
  - apply Forall_forall. intros e He. apply repeat_spec in He. subst e.
    repeat constructor.
  - apply Forall_rev. revert Hn. apply Forall_impl. intros e He. apply He.
Qed.

Lemma fold_enter_kept (rooted : bool) (ups : nat) (names : list gostring) :
  Forall plainName names -> (rooted = true -> ups = 0) ->
  fold_left (enter rooted) (repeat (".."%string : gostring) ups ++ rev names) (0, [])
  = (ups, names).
Proof.
  intros Hn Hr. rewrite fold_left_app.
  assert (Hups : fold_left (enter rooted) (repeat (".."%string : gostring) ups) (0, [])
                 = (ups, [])).
  { destruct rooted.
    - rewrite (Hr eq_refl). reflexivity.
    - apply (fold_enter_ups ups 0). }
  rewrite Hups, fold_enter_plain by (apply Forall_rev; exact Hn).
  cbn [fst snd]. rewrite rev_involutive, app_nil_r. reflexivity.
Qed.

Lemma Join_head_not_separator (l : list gostring) :
  Forall sepFree l -> Forall (fun e : gostring => e <> []) l -> l <> [] ->
  strings.HasPrefix (JJ l) "/" = false.
Proof.
  intros Hs Hn Hne. destruct l as [|e l]; [congruence|].
  inversion Hs as [|? ? He _]; subst. inversion Hn as [|? ? Hne0 _]; subst.
  destruct e as [|c e]; [congruence|].
  inversion He as [|? ? Hc _]; subst.
  rewrite HasPrefix_slash.
  destruct l; [exact Hc|]. rewrite Join_cons by discriminate. exact Hc.
Qed.

(** A rendered path, with or without a closing separator, cleans to
    itself without the separator. *)
Lemma Clean_render (rooted : bool) (st : state) (closing : bool) :
  valid rooted st ->
  Clean (render rooted st ++ (if closing then [Separator] else []))
  = render rooted st.
Proof.
  destruct st as [ups names]. intros [Hn Hr]. cbn [fst snd] in *.
  rewrite Clean_refines. unfold CleanSpec, read.
  set (K := repeat (".."%string : gostring) ups ++ rev names).
  assert (HK : fold_left (enter rooted) K (0, []) = (ups, names))
    by (apply fold_enter_kept; assumption).
  assert (Hsf : Forall sepFree K) by (apply kept_sepFree; assumption).
  assert (Hne : Forall (fun e : gostring => e <> []) K)
    by (apply kept_nonempty; assumption).
  assert (Htail : forall (l : list gostring) s,
             fold_left (enter rooted) (l ++ (if closing then [[]] else [])) s
             = fold_left (enter rooted) l s).
  { intros l s. destruct closing; [|rewrite app_nil_r; reflexivity].
    rewrite fold_left_app. cbn [fold_left]. apply enter_empty. }
  assert (Hel : forall b : gostring,
             elements (b ++ (if closing then [Separator] else []))
             = elements b ++ (if closing then [[]] else [])).
  { intros b. destruct closing; [|rewrite !app_nil_r; reflexivity].
    rewrite elements_app. reflexivity. }
  unfold render, body. cbn [fst snd]. fold K.
  destruct rooted.
  - cbn [app]. change (strings.HasPrefix (Separator :: _) "/") with true.
    change (Separator :: JJ K ++ (if closing then [Separator] else []))
      with ([] ++ Separator :: (JJ K ++ (if closing then [Separator] else []))).
    rewrite elements_app, fold_left_app.
    change (elements []) with [@nil ascii]. cbn [fold_left]. rewrite enter_empty.
    rewrite Hel, Htail.
    destruct K as [|k K'] eqn:HKeq.
    + change (elements (JJ [])) with [@nil ascii]. cbn [fold_left].
      rewrite enter_empty. cbn in HK. injection HK as <- <-. reflexivity.
    + rewrite elements_Join_sepFree by (assumption || discriminate).
      rewrite HK. unfold render, body. cbn [fst snd]. fold K. rewrite HKeq. reflexivity.
  - destruct K as [|k K'] eqn:HKeq.
    + change (JJ []) with (@nil ascii). cbv iota.
      cbn in HK. injection HK as <- <-.
      destruct closing; reflexivity.
    + pose proof (Join_head_not_separator (k :: K') Hsf Hne ltac:(discriminate)) as Hhd.
      pose proof (Join_nonempty (k :: K') Hne ltac:(discriminate)) as Hjn.
      destruct (JJ (k :: K')) as [|x xs] eqn:Hj; [congruence|].
      assert (Hpre : strings.HasPrefix ((x :: xs) ++ (if closing then [Separator] else []))
                                       "/" = false).
      { rewrite HasPrefix_slash in *. exact Hhd. }
      rewrite Hpre, Hel, Htail, <- Hj.
      rewrite elements_Join_sepFree by (assumption || discriminate).
      rewrite HK. unfold render, body. cbn [fst snd]. fold K. rewrite HKeq, Hj.
      reflexivity.
Qed.

Lemma read_valid (s : gostring) :
  valid (strings.HasPrefix s "/") (read (strings.HasPrefix s "/") s).
Proof.
  split; [apply read_plain|]. intros Hr. rewrite Hr. apply read_rooted_ups.
Qed.

Lemma Clean_idempotent (s : gostring) : Clean (Clean s) = Clean s.
Proof.
  rewrite (Clean_refines s). unfold CleanSpec.
  pose proof (Clean_render (strings.HasPrefix s "/") _ false (read_valid s)) as H.
  rewrite app_nil_r in H. exact H.
Qed.

Lemma Clean_rooted (s : gostring) :
  strings.HasPrefix (Clean s) "/" = strings.HasPrefix s "/".
Proof.
  rewrite Clean_refines. unfold CleanSpec, render.
  destruct (strings.HasPrefix s "/") eqn:Hs; [reflexivity|].
  destruct (read false s) as [ups names] eqn:Hread.
  pose proof (read_plain false s) as Hp. rewrite Hread in Hp. cbn [snd] in Hp.
  unfold body. cbn [fst snd].
  destruct (repeat (".."%string : gostring) ups ++ rev names) as [|k K] eqn:HK;
    [reflexivity|].
  pose proof (Join_head_not_separator (k :: K)) as Hhd. rewrite <- HK in Hhd.
  specialize (Hhd (kept_sepFree ups names Hp) (kept_nonempty ups names Hp)
                  ltac:(rewrite HK; discriminate)).
  rewrite HK in Hhd.
  pose proof (Join_nonempty (k :: K)) as Hjn. rewrite <- HK in Hjn.
  specialize (Hjn (kept_nonempty ups names Hp) ltac:(rewrite HK; discriminate)).
  rewrite HK in Hjn.
  destruct (JJ (k :: K)); [congruence|exact Hhd].
Qed.

End CleanedPaths.

(** ** More on the sanitized join *)

Section SanitizedJoin.

Import filepath lexical cleanpath.

Local Abbreviation JJ l := (strings.Join l [Separator]).

(** The join without the closing separator, as a rendered path. *)
Lemma descend_render (root : gostring) (names : list gostring) :
  Forall plainName names ->
  exists rooted ups below,
    valid rooted (ups, below)
    /\ Clean root = render rooted (ups, below)
    /\ descend (Clean root) names = render rooted (ups, rev names ++ below).
Proof.
  intros Hn.
  exists (strings.HasPrefix root "/").
  destruct (read (strings.HasPrefix root "/") root) as [ups below] eqn:Hread.
  exists ups, below.
  pose proof (read_valid root) as Hv. rewrite Hread in Hv.
  assert (Hc : Clean root = render (strings.HasPrefix root "/") (ups, below)).
  { rewrite Clean_refines. unfold CleanSpec. rewrite Hread. reflexivity. }
  split; [exact Hv|]. split; [exact Hc|].
  rewrite Hc. rewrite <- (rev_involutive names) at 1.
  symmetry. apply render_descend; [apply Hv|apply Forall_rev; exact Hn].
Qed.

Lemma descend_clean (root : gostring) (names : list gostring) (closing : bool) :
  Forall plainName names ->
  Clean (descend (Clean root) names ++ (if closing then [Separator] else []))
  = descend (Clean root) names.
Proof.
  intros Hn.
  destruct (descend_render root names Hn) as (rooted & ups & below & Hv & _ & Hd).
  rewrite Hd. apply Clean_render.
  destruct Hv as [Hb Hr]. split; [|exact Hr].
  cbn [snd] in *. apply Forall_app. split; [apply Forall_rev|]; assumption.
Qed.

Lemma descend_descend (root : gostring) (na nb : list gostring) :
  Forall plainName na -> Forall plainName nb ->
  descend (descend (Clean root) na) nb = descend (Clean root) (na ++ nb).
Proof.
  intros Ha Hb.
  destruct (descend_render root na Ha) as (rooted & ups & below & Hv & Hc & Hd).
  destruct Hv as [Hbelow Hr]. cbn [fst snd] in *.
  transitivity (render rooted (ups, rev nb ++ rev na ++ below)).
  - rewrite Hd.
    pose proof (render_descend rooted ups (rev na ++ below) (rev nb)) as H.
    rewrite rev_involutive in H. symmetry. apply H.
    + apply Forall_app. split; [apply Forall_rev|]; assumption.
    + apply Forall_rev. exact Hb.
  - rewrite Hc.
    pose proof (render_descend rooted ups below (rev (na ++ nb))) as H.
    rewrite rev_involutive in H. rewrite <- H.
    + rewrite rev_app_distr, <- app_assoc. reflexivity.
    + exact Hbelow.
    + apply Forall_rev. apply Forall_app. split; assumption.
Qed.

End SanitizedJoin.

(** X1: the sanitized join is a clean path, but for the separator it
    may end with: [filepath.Clean] leaves it as it is when no separator
    was appended, and takes just that separator away when one was. *)
Theorem SanitizedPathJoin_is_clean (root reqPath : gostring) :
  let p := util.SanitizedPathJoin root reqPath in
  if strings.HasSuffix reqPath "/" && (1 <? length reqPath)
  then p = filepath.Clean p ++ [filepath.Separator]
  else filepath.Clean p = p.
Proof.
  intros p. subst p.
  destruct (SanitizedPathJoin_shape root reqPath) as (names & Hn & _ & Heq).
  rewrite Heq.
  destruct (strings.HasSuffix reqPath "/" && (1 <? length reqPath)).
  - rewrite (descend_clean root names true Hn). reflexivity.
  - rewrite (descend_clean root names false Hn). symmetry. apply app_nil_r.
Qed.

(** X2: a sanitized join onto a sanitized join, as the handler does for
    an index file, stays lexically within the first root as well as
    within the first join. *)
Theorem SanitizedPathJoin_nested (root a b : gostring) :
  lexical.within root (util.SanitizedPathJoin (util.SanitizedPathJoin root a) b)
  /\ lexical.within (util.SanitizedPathJoin root a)
                    (util.SanitizedPathJoin (util.SanitizedPathJoin root a) b).
Proof.
  destruct (SanitizedPathJoin_shape root a) as (na & Hna & _ & Ha).
  destruct (SanitizedPathJoin_shape (util.SanitizedPathJoin root a) b)
    as (nb & Hnb & _ & Hb).
  assert (Hinner : filepath.Clean (util.SanitizedPathJoin root a)
                   = lexical.descend (filepath.Clean root) na).
  { rewrite Ha.
    destruct (strings.HasSuffix a "/" && (1 <? length a)).
    - apply (descend_clean root na true Hna).
    - apply (descend_clean root na false Hna). }
  split.
  - exists (na ++ nb). split; [apply Forall_app; split; assumption|].
    rewrite Hb, Hinner, descend_descend by assumption.
    destruct (strings.HasSuffix b "/" && (1 <? length b)).
    + right. reflexivity.
    + left. apply app_nil_r.
  - exists nb. split; [assumption|]. rewrite Hb.
    destruct (strings.HasSuffix b "/" && (1 <? length b)).
    + right. reflexivity.
    + left. apply app_nil_r.
Qed.

Section LeadingElements.

Import filepath lexical.

Lemma SanitizedPathJoin_congruence (root x y : gostring) :
  Clean ("/" ++ x) = Clean ("/" ++ y) ->
  strings.HasSuffix x "/" && (1 <? length x)
  = strings.HasSuffix y "/" && (1 <? length y) ->
  util.SanitizedPathJoin root x = util.SanitizedPathJoin root y.
Proof.
  intros Hc Hf. unfold util.SanitizedPathJoin. cbv zeta. rewrite Hc, Hf. reflexivity.
Qed.

Lemma closing_flag_prefix (pre req : gostring) :
  pre <> [] -> req <> [] -> req <> "/"%string ->
  strings.HasSuffix (pre ++ req) "/" && (1 <? length (pre ++ req))
  = strings.HasSuffix req "/" && (1 <? length req).
Proof.
  intros Hpre Hreq Hslash.
  destruct (exists_last Hreq) as (r & c & ->).
  rewrite app_assoc, !HasSuffix_snoc.
  destruct (isPathSeparator c) eqn:Hc; [|reflexivity].
  cbn [andb]. rewrite !length_app. cbn [length].
  destruct r as [|x r].
  - exfalso. apply Hslash. apply byte_eqb_eq in Hc. subst c. reflexivity.
  - destruct pre; [congruence|]. cbn [length app].
    transitivity true; [|symmetry]; apply Nat.ltb_lt; lia.
Qed.

(** A rooted path is read alike with and without a leading element that
    leaves the root where it is. *)
Lemma Clean_leading (skipped req : gostring) :
  sepFree skipped -> enter true (0, []) skipped = (0, []) ->
  Clean (Separator :: skipped ++ Separator :: req) = Clean (Separator :: req).
Proof.
  intros Hs He. rewrite !Clean_refines. unfold CleanSpec, read.
  change (strings.HasPrefix (Separator :: skipped ++ Separator :: req) "/") with true.
  change (strings.HasPrefix (Separator :: req) "/") with true.
  change (Separator :: skipped ++ Separator :: req)
    with ([] ++ Separator :: (skipped ++ Separator :: req)).
  change (Separator :: req) with ([] ++ Separator :: req) at 2.
  rewrite !elements_app, (elements_sepFree skipped Hs).
  change (elements []) with [@nil ascii]. cbn [app fold_left].
  rewrite enter_empty, He. reflexivity.
Qed.

End LeadingElements.

(** X3: the leading slash of a request path is optional: but for the
    request path [/] itself, whose doubling gets a closing separator, a
    request path resolves alike with one more slash in front. *)
Theorem SanitizedPathJoin_leading_slash (root reqPath : gostring) :
  reqPath <> "/"%string ->
  util.SanitizedPathJoin root ("/" ++ reqPath) = util.SanitizedPathJoin root reqPath.
Proof.
  intros Hne. apply SanitizedPathJoin_congruence.
  - apply (Clean_leading [] reqPath); [constructor|reflexivity].
  - destruct reqPath as [|c r]; [reflexivity|].
    apply (closing_flag_prefix "/"%string (c :: r)); (discriminate || assumption).
Qed.

Lemma SanitizedPathJoin_leading_slash_witness :
  util.SanitizedPathJoin "/site" "//docs/" = util.SanitizedPathJoin "/site" "/docs/"
  /\ util.SanitizedPathJoin "/site" "//" <> util.SanitizedPathJoin "/site" "/".
Proof.
  split.
  - apply (SanitizedPathJoin_leading_slash "/site" "/docs/"). discriminate.
  - vm_compute. discriminate.
Defined.

(** X4: a request path that starts with the element [..] or [.]
    resolves as without it, so that no run of leading [..] elements
    leads above the root; the request paths left out are the empty one
    and [/], which get no closing separator by themselves. *)
Theorem SanitizedPathJoin_leading_dots (root reqPath : gostring) :
  reqPath <> []%list -> reqPath <> "/"%string ->
  util.SanitizedPathJoin root ("../" ++ reqPath) = util.SanitizedPathJoin root reqPath
  /\ util.SanitizedPathJoin root ("./" ++ reqPath) = util.SanitizedPathJoin root reqPath
  /\ util.SanitizedPathJoin root ("/../" ++ reqPath) = util.SanitizedPathJoin root reqPath.
Proof.
  intros Hne Hslash.
  assert (Hplain : filepath.Clean ("/" ++ reqPath)
                   = filepath.Clean (filepath.Separator :: reqPath)) by reflexivity.
  split; [|split]; apply SanitizedPathJoin_congruence.
  - rewrite Hplain. apply (Clean_leading ".." reqPath); [repeat constructor|reflexivity].
  - apply (closing_flag_prefix "../"%string reqPath); (discriminate || assumption).
  - rewrite Hplain. apply (Clean_leading "." reqPath); [repeat constructor|reflexivity].
  - apply (closing_flag_prefix "./"%string reqPath); (discriminate || assumption).
  - rewrite Hplain.
    change ("/" ++ "/../"%string ++ reqPath)
      with (filepath.Separator :: [] ++ filepath.Separator
                               :: (".."%string ++ filepath.Separator :: reqPath)).
    rewrite (Clean_leading [] _); [|constructor|reflexivity].
    apply (Clean_leading ".." reqPath); [repeat constructor|reflexivity].
  - apply (closing_flag_prefix "/../"%string reqPath); (discriminate || assumption).
Qed.

Lemma SanitizedPathJoin_leading_dots_witness :
  util.SanitizedPathJoin "/site" "/../etc/passwd"
  = util.SanitizedPathJoin "/site" "etc/passwd"
  /\ util.SanitizedPathJoin "/site" "../" <> util.SanitizedPathJoin "/site" "".
Proof.
  split.
  - apply (SanitizedPathJoin_leading_dots "/site" "etc/passwd"); discriminate.
  - vm_compute. discriminate.
Defined.

(** ** More on hidden files *)

Section HiddenMore.

Import filepath lexical fileserver hiding.

Lemma Clean_closing (p : gostring) :
  p <> [] -> Clean (p ++ [Separator]) = Clean p.
Proof.
  intros Hne. rewrite !Clean_refines. unfold CleanSpec, read.
  assert (Hpre : strings.HasPrefix (p ++ [Separator]) "/" = strings.HasPrefix p "/").
  { rewrite !HasPrefix_slash. destruct p; [congruence|reflexivity]. }
  rewrite Hpre, elements_app, fold_left_app.
  change (elements []) with [@nil ascii]. cbn [fold_left]. rewrite enter_empty.
  reflexivity.
Qed.

Lemma canonical_closing (getwd : option gostring) (p : gostring) :
  p <> [] ->
  IsAbs p = true \/ (exists wd, getwd = Some wd /\ wd <> []) ->
  canonical getwd (p ++ [Separator]) = canonical getwd p.
Proof.
  intros Hne Habs. unfold canonical, Abs.
  assert (Hpre : IsAbs (p ++ [Separator]) = IsAbs p).
  { unfold IsAbs. rewrite !HasPrefix_slash. destruct p; [congruence|reflexivity]. }
  rewrite Hpre. destruct (IsAbs p) eqn:Hp.
  - apply Clean_closing. exact Hne.
  - destruct Habs as [Habs|(wd & -> & Hwd)]; [discriminate|].
    destruct wd as [|w0 wd]; [congruence|].
    destruct p as [|p0 p]; [congruence|].
    cbn [Join strings.Join].
    change ((w0 :: wd) ++ [Separator] ++ (p0 :: p) ++ [Separator])
      with ((w0 :: wd) ++ ([Separator] ++ (p0 :: p)) ++ [Separator]).
    rewrite app_assoc. rewrite Clean_closing by discriminate.
    reflexivity.
Qed.

Lemma canonical_Clean (getwd : option gostring) (p : gostring) :
  IsAbs p = true -> canonical getwd (Clean p) = canonical getwd p.
Proof.
  intros Hp. unfold canonical, Abs. unfold IsAbs in *.
  rewrite Clean_rooted, Hp. apply Clean_idempotent.
Qed.

End HiddenMore.

(** X5: the hide list is a set of patterns: the patterns of two lists
    put together hide what one of the lists hides, and the order of the
    patterns does not matter. *)
Theorem fileHidden_append_permute (getwd : option gostring) (p : gostring)
        (h1 h2 : list gostring) :
  fileserver.fileHidden getwd p (h1 ++ h2)
  = fileserver.fileHidden getwd p h1 || fileserver.fileHidden getwd p h2
  /\ (Permutation h1 h2 ->
      fileserver.fileHidden getwd p h1 = fileserver.fileHidden getwd p h2).
Proof.
  rewrite !fileHidden_existsb. split; [apply existsb_app|].
  intros Hperm. apply Bool.eq_true_iff_eq. rewrite !existsb_exists.
  split; intros (h & Hin & Hh); exists h; split; try assumption.
  - apply (Permutation_in h Hperm Hin).
  - apply (Permutation_in h (Permutation_sym Hperm) Hin).
Qed.

Lemma fileHidden_append_permute_witness :
  fileserver.fileHidden None "/site/.git/config" (gostrings ["*.bak"; ".git"])
  = fileserver.fileHidden None "/site/.git/config" (gostrings [".git"; "*.bak"]).
Proof.
  apply (proj2 (fileHidden_append_permute None "/site/.git/config"
                                          (gostrings ["*.bak"; ".git"])
                                          (gostrings [".git"; "*.bak"]))).
  apply perm_swap.
Defined.

(** X6: whether a file is hidden does not depend on how its name is
    spelled: a closing separator changes nothing when the name can be
    made absolute, and an absolute name is hidden as its cleaned form
    is. *)
Theorem fileHidden_spelling (getwd : option gostring) (p : gostring)
        (hide : list gostring) :
  p <> [] ->
  filepath.IsAbs p = true \/ (exists wd, getwd = Some wd /\ wd <> []) ->
  fileserver.fileHidden getwd (p ++ [filepath.Separator]) hide
  = fileserver.fileHidden getwd p hide
  /\ (filepath.IsAbs p = true ->
      fileserver.fileHidden getwd (filepath.Clean p) hide
      = fileserver.fileHidden getwd p hide).
Proof.
  intros Hne Habs. rewrite !fileHidden_existsb.
  rewrite (canonical_closing getwd p Hne Habs).
  split; [reflexivity|].
  intros Hp. rewrite (canonical_Clean getwd p Hp). reflexivity.
Qed.

Lemma fileHidden_spelling_witness :
  fileserver.fileHidden None "/site/docs/" (gostrings ["/site/docs"]) = true
  /\ fileserver.fileHidden None "/site/x/../docs" (gostrings ["/site/docs"]) = true.
Proof.
  pose proof (fileHidden_spelling None "/site/docs" (gostrings ["/site/docs"])
                                  ltac:(discriminate) (or_introl eq_refl)) as [H1 _].
  pose proof (fileHidden_spelling None "/site/x/../docs" (gostrings ["/site/docs"])
                                  ltac:(discriminate) (or_introl eq_refl)) as [_ H2].
  split.
  - transitivity (fileserver.fileHidden None "/site/docs" (gostrings ["/site/docs"]));
      [exact H1|vm_compute; reflexivity].
  - rewrite <- (H2 eq_refl). vm_compute. reflexivity.
Defined.

(** X7: when the working directory is known and absolute,
    [transformHidePaths] hands [fileHidden] the patterns it expects: each
    one is without a separator, or absolute and clean. *)
Theorem transformHidePaths_absolute
        (getwd : option gostring) (ReplaceAll : gostring -> gostring -> gostring)
        (spec : fileserver.Spec) (wd : gostring) :
  getwd = Some wd -> filepath.IsAbs wd = true ->
  Forall (fun h => strings.Contains h fileserver.separator = false
                   \/ (filepath.IsAbs h = true /\ filepath.Clean h = h))
         (fileserver.transformHidePaths getwd ReplaceAll spec).
Proof.
  intros -> Hwd. unfold fileserver.transformHidePaths.
  apply Forall_map. apply Forall_forall. intros pattern _. cbv zeta.
  destruct (strings.Contains (ReplaceAll pattern "") fileserver.separator) eqn:Hc.
  - right. unfold filepath.Abs.
    destruct (filepath.IsAbs (ReplaceAll pattern "")) eqn:Habs.
    + unfold filepath.IsAbs in *. rewrite Clean_rooted. split; [exact Habs|].
      apply Clean_idempotent.
    + destruct wd as [|w0 wd]; [discriminate|].
      cbn [filepath.Join]. unfold filepath.IsAbs in *. rewrite Clean_rooted.
      split; [|apply Clean_idempotent].
      rewrite HasPrefix_slash in *. exact Hwd.
  - left. exact Hc.
Qed.

Lemma transformHidePaths_absolute_witness :
  Forall (fun h => strings.Contains h fileserver.separator = false
                   \/ (filepath.IsAbs h = true /\ filepath.Clean h = h))
         (fileserver.transformHidePaths
            (Some ("/srv/app"%string : gostring)) samples.noReplace
            (samples.siteSpec ["./secret"; "*.bak"; "/site/../site/private/"])).
Proof.
  apply (transformHidePaths_absolute _ _ _ "/srv/app"%string); reflexivity.
Defined.

(** ** The form of the ETag *)

Section EtagForm.

Import strconv cleanpath.
Local Open Scope Z_scope.

Lemma digit_etagByte (x : Z) : etagByte (digit x) = true.
Proof.
  unfold etagByte, digit.
  assert (H : In (nth (Z.to_nat x) digits "0"%char) digits).
  { destruct (Nat.lt_ge_cases (Z.to_nat x) (length digits)) as [Hlt|Hge].
    - apply nth_In. exact Hlt.
    - rewrite nth_overflow by exact Hge. left. reflexivity. }
  apply orb_true_iff. left. apply existsb_exists.
  eexists. split; [exact H|]. apply byte_eqb_eq. reflexivity.
Qed.

Lemma formatBitsLoop_bytes (fuel : nat) :
  forall u b a,
    forallb etagByte a = true -> forallb etagByte (formatBitsLoop fuel u b a) = true.
Proof.
  induction fuel as [|fuel IH]; intros u b a Ha; [exact Ha|].
  cbn [formatBitsLoop]. destruct (b <=? u).
  - apply IH. cbn [forallb]. rewrite digit_etagByte. exact Ha.
  - cbn [forallb]. rewrite digit_etagByte. exact Ha.
Qed.

Lemma formatBitsLoop_length (fuel : nat) :
  forall u a (k : nat),
    (0 < k)%nat -> 0 <= u < 36 ^ Z.of_nat k ->
    (length a < length (formatBitsLoop (S fuel) u 36 a) <= length a + k)%nat.
Proof.
  induction fuel as [|fuel IH]; intros u a k Hk Hu.
  - cbn [formatBitsLoop]. destruct (36 <=? u); cbn [length]; lia.
  - remember (S fuel) as f eqn:Hf. cbn [formatBitsLoop]. subst f.
    destruct (Z.leb_spec 36 u) as [Hge|Hlt]; [|cbn [length]; lia].
    destruct k as [|[|k]]; [lia| |].
    + cbn in Hu. lia.
    + assert (Hq : 0 <= u / 36 < 36 ^ Z.of_nat (S k)).
      { rewrite (Nat2Z.inj_succ (S k)), Z.pow_succ_r in Hu by lia.
        split; [apply Z.div_pos; lia|]. apply Z.div_lt_upper_bound; lia. }
      specialize (IH (u / 36) (digit (u - u / 36 * 36) :: a) (S k) ltac:(lia) Hq).
      cbn [length] in IH. lia.
Qed.

Lemma FormatInt_bytes (i : Z) : forallb etagByte (FormatInt i 36) = true.
Proof.
  unfold FormatInt. destruct (i <? 0).
  - cbn [forallb]. rewrite formatBitsLoop_bytes by reflexivity. reflexivity.
  - apply formatBitsLoop_bytes. reflexivity.
Qed.

Lemma FormatInt_length (i : Z) :
  int64 i -> (1 <= length (FormatInt i 36) <= 14)%nat.
Proof.
  unfold int64. intros Hi. unfold FormatInt.
  assert (H13 : 2 ^ 63 < 36 ^ Z.of_nat 13) by (vm_compute; reflexivity).
  destruct (Z.ltb_spec i 0) as [Hneg|Hpos].
  - pose proof (formatBitsLoop_length 64 (- i) [] 13 ltac:(lia) ltac:(lia)) as Hlen.
    cbn [length] in *. lia.
  - pose proof (formatBitsLoop_length 64 i [] 13 ltac:(lia) ltac:(lia)) as Hlen.
    cbn [length] in *. lia.
Qed.

End EtagForm.

(** X8: the ETag is a well-formed strong validator: a quote, then
    digits, lower-case letters and minus signs only, so no quote and no
    [W/] mark, then a quote; for a modification time and a size of 64
    bits it has between 4 and 30 bytes. *)
Theorem calculateEtag_well_formed (d : FileInfo) :
  exists inner,
    fileserver.calculateEtag d = [fileserver.quote] ++ inner ++ [fileserver.quote]
    /\ forallb cleanpath.etagByte inner = true
    /\ ~ In fileserver.quote inner
    /\ (int64 (ModTimeUnix d) -> int64 (Size d) ->
        4 <= length (fileserver.calculateEtag d) <= 30).
Proof.
  exists (strconv.FormatInt (ModTimeUnix d) 36 ++ strconv.FormatInt (Size d) 36).
  assert (Hbytes : forallb cleanpath.etagByte
                     (strconv.FormatInt (ModTimeUnix d) 36
                        ++ strconv.FormatInt (Size d) 36) = true).
  { rewrite forallb_app, !FormatInt_bytes. reflexivity. }
  split; [|split; [exact Hbytes|split]].
  - unfold fileserver.calculateEtag. cbv zeta. rewrite <- !app_assoc. reflexivity.
  - intros Hin. rewrite forallb_forall in Hbytes.
    specialize (Hbytes _ Hin). vm_compute in Hbytes. discriminate.
  - intros Ht Hs. unfold fileserver.calculateEtag. cbv zeta.
    pose proof (FormatInt_length _ Ht). pose proof (FormatInt_length _ Hs).
    rewrite !length_app. cbn [length]. lia.
Qed.

Lemma calculateEtag_well_formed_witness :
  4 <= length (fileserver.calculateEtag (samples.file "index.html")) <= 30.
Proof.
  destruct (calculateEtag_well_formed (samples.file "index.html"))
    as (inner & _ & _ & _ & H).
  apply H; unfold int64; cbn; lia.
Defined.

(** ** The calls of [mapDirOpenError] and of the index search *)

Section Calls.

Import filepath fileserver trace.

Variable getwd : option gostring.
Variable ReplaceAll : gostring -> gostring -> gostring.
Variable spec : Spec.

Lemma StronglySorted_shift (l : list nat) :
  StronglySorted lt l -> StronglySorted lt (0 :: map S l).
Proof.
  intros Hs. constructor.
  - induction Hs as [|x l Hs IH Hall]; [constructor|].
    cbn [map]. constructor; [exact IH|].
    apply Forall_map. revert Hall. apply Forall_impl. intros y Hy. lia.
  - apply Forall_map. apply Forall_forall. intros y _. lia.
Qed.

Lemma StronglySorted_tail (x : nat) (l : list nat) :
  StronglySorted lt (x :: l) -> StronglySorted lt l.
Proof. intros H. inversion H. assumption. Qed.

Lemma walkParts_walk (originalErr : GoError) (parts : list gostring) :
  forall seen c,
    exists idxs,
      snd (walkParts spec originalErr seen parts c)
      = appendEvents
          c (map (fun i => EvStat (strings.Join (seen ++ firstn (S i) parts) separator))
                 idxs)
      /\ StronglySorted lt idxs
      /\ Forall (fun i => i < length parts /\ nth i parts [] <> []) idxs
      /\ (fst (walkParts spec originalErr seen parts c) = originalErr
          \/ fst (walkParts spec originalErr seen parts c) = ErrNotExist).
Proof.
  induction parts as [|part parts IH]; intros seen c.
  - exists []. cbn. rewrite appendEvents_nil. repeat split; try constructor. reflexivity.
  - assert (Hshift : forall idxs,
               map (fun i => EvStat (strings.Join ((seen ++ [part]) ++ firstn (S i) parts)
                                                  separator)) idxs
               = map (fun i => EvStat (strings.Join (seen ++ firstn (S i) (part :: parts))
                                                    separator)) (map S idxs)).
    { intros idxs. rewrite map_map. apply map_ext. intros i.
      cbn [firstn]. rewrite <- app_assoc. reflexivity. }
    assert (Hall : forall idxs,
               Forall (fun i => i < length parts /\ nth i parts [] <> []) idxs ->
               Forall (fun i => i < length (part :: parts)
                                /\ nth i (part :: parts) [] <> []) (map S idxs)).
    { intros idxs H. apply Forall_map. revert H. apply Forall_impl.
      intros i [Hi Hn]. cbn [length nth]. split; [lia|exact Hn]. }
    cbn [walkParts]. destruct (length part =? 0) eqn:Hlen.
    + destruct (IH (seen ++ [part]) c) as (idxs & Hev & Hs & Hf & Hres).
      exists (map S idxs). rewrite Hev, Hshift.
      split; [reflexivity|]. split; [exact (StronglySorted_tail _ _ (StronglySorted_shift _ Hs))|].
      split; [apply Hall; exact Hf|exact Hres].
    + assert (Hpart : part <> []).
      { intros ->. discriminate. }
      rewrite bind_run, Stat_run. cbn [fst snd].
      assert (Hone : exists idxs,
                 appendEvents c [EvStat (strings.Join (seen ++ [part]) separator)]
                 = appendEvents
                     c (map (fun i => EvStat (strings.Join
                                                (seen ++ firstn (S i) (part :: parts))
                                                separator)) idxs)
                 /\ StronglySorted lt idxs
                 /\ Forall (fun i => i < length (part :: parts)
                                     /\ nth i (part :: parts) [] <> []) idxs).
      { exists [0]. split; [reflexivity|]. split; [repeat constructor|].
        constructor; [|constructor]. cbn [length nth]. split; [lia|exact Hpart]. }
      destruct (fsStat (fileSystem spec) _) as [fi|e].
      * destruct (negb (IsDir fi)).
        -- destruct Hone as (idxs & Hev & Hs & Hf). exists idxs.
           cbn [fst snd]. rewrite Hev. auto.
        -- destruct (IH (seen ++ [part])
                        (appendEvents c [EvStat (strings.Join (seen ++ [part]) separator)]))
             as (idxs & Hev & Hs & Hf & Hres).
           exists (0 :: map S idxs). rewrite Hev, appendEvents_app, Hshift.
           split; [reflexivity|]. split; [apply StronglySorted_shift; exact Hs|].
           split; [|exact Hres].
           constructor; [cbn [length nth]; split; [lia|exact Hpart]|apply Hall; exact Hf].
      * destruct Hone as (idxs & Hev & Hs & Hf). exists idxs.
        cbn [fst snd]. rewrite Hev. auto.
Qed.

End Calls.

(** X9: [mapDirOpenError] gives back the error it is given or
    [ErrNotExist], never another one; it leaves the response as it is,
    and its calls to [Stat] are made on prefixes of the name that end in
    a non-empty part, each at most once, the shorter first. *)
Theorem mapDirOpenError_walk
        (spec : fileserver.Spec) (originalErr : GoError) (name : gostring) (c : Context) :
  let parts := strings.SplitByte name filepath.Separator in
  let out := fileserver.mapDirOpenError spec originalErr name c in
  (fst out = originalErr \/ fst out = ErrNotExist)
  /\ exists idxs,
       snd out
       = trace.appendEvents
           c (map (fun i => EvStat (strings.Join (firstn (S i) parts) fileserver.separator))
                  idxs)
       /\ StronglySorted lt idxs
       /\ Forall (fun i => i < length parts /\ nth i parts [] <> []) idxs.
Proof.
  intros parts out. subst out. unfold fileserver.mapDirOpenError. fold parts.
  destruct (isNotExist originalErr || isPermission originalErr).
  - split; [left; reflexivity|]. exists []. cbn. rewrite appendEvents_nil.
    repeat split; constructor.
  - destruct (walkParts_walk spec originalErr parts [] c) as (idxs & Hev & Hs & Hf & Hres).
    split; [exact Hres|]. exists idxs. auto.
Qed.

(** X10: the search for an index file calls [Stat] on the candidates
    that are not hidden, in the order of [IndexNames], up to the first one
    that exists, and on nothing else: a hidden candidate costs no call
    to the file system.  It keeps the file it started with when every
    name has been tried and each candidate is hidden or missing, and
    takes the last candidate it tried otherwise. *)
Theorem indexLoop_calls
        (getwd : option gostring) (ReplaceAll : gostring -> gostring -> gostring)
        (spec : fileserver.Spec) (filesToHide : list gostring) (dir : gostring)
        (info : FileInfo) (filename : gostring) (names : list gostring) (c : Context) :
  let candidate n := util.SanitizedPathJoin dir (ReplaceAll n "") in
  let visible n := negb (fileserver.fileHidden getwd (candidate n) filesToHide) in
  let missing n :=
    visible n = true ->
    exists e, fsStat (fileserver.fileSystem spec) (candidate n) = Err e in
  let out := fileserver.indexLoop getwd ReplaceAll spec filesToHide dir info filename
                                  names c in
  exists tried rest,
    names = tried ++ rest
    /\ snd out = trace.appendEvents c (map (fun n => EvStat (candidate n))
                                           (filter visible tried))
    /\ ((rest = [] /\ Forall missing tried /\ fst out = (info, filename))
        \/ exists pre n fi,
             tried = pre ++ [n]
             /\ Forall missing pre
             /\ visible n = true
             /\ fsStat (fileserver.fileSystem spec) (candidate n) = Ok fi
             /\ fst out = (fi, candidate n)).
Proof.
  intros candidate visible missing out. subst out.
  revert c. induction names as [|n names IH]; intros c.
  - exists [], []. split; [reflexivity|]. split.
    + cbn. symmetry. apply appendEvents_nil.
    + left. split; [reflexivity|]. split; [constructor|reflexivity].
  - cbn [fileserver.indexLoop]. cbv zeta. fold (candidate n).
    destruct (fileserver.fileHidden getwd (candidate n) filesToHide) eqn:Hh.
    + assert (Hmiss : missing n).
      { unfold missing, visible. rewrite Hh. discriminate. }
      destruct (IH c) as (tried & rest & -> & Hev & Hres).
      exists (n :: tried), rest. split; [reflexivity|].
      cbn [filter]. unfold visible at 1. rewrite Hh. cbn [negb].
      split; [exact Hev|].
      destruct Hres as [(Hrest & Hall & Hres)|(pre & m & fi & -> & Hall & Hv & Hst & Hres)].
      * left. split; [exact Hrest|]. split; [constructor; assumption|exact Hres].
      * right. exists (n :: pre), m, fi. split; [reflexivity|].
        split; [constructor; assumption|]. auto.
    + rewrite bind_run, Stat_run. cbn [fst snd].
      destruct (fsStat (fileserver.fileSystem spec) (candidate n)) as [fi|e] eqn:Hst.
      * exists [n], names. split; [reflexivity|].
        cbn [filter]. unfold visible at 1. rewrite Hh. cbn [negb map].
        split; [reflexivity|]. right. exists [], n, fi.
        split; [reflexivity|]. split; [constructor|].
        split; [unfold visible; rewrite Hh; reflexivity|]. split; [exact Hst|reflexivity].
      * assert (Hmiss : missing n).
        { intros _. exists e. exact Hst. }
        destruct (IH (trace.appendEvents c [EvStat (candidate n)]))
          as (tried & rest & -> & Hev & Hres).
        exists (n :: tried), rest. split; [reflexivity|].
        cbn [filter]. unfold visible at 1. rewrite Hh. cbn [negb map].
        rewrite Hev, appendEvents_app.
        split; [reflexivity|].
        destruct Hres
          as [(Hrest & Hall & Hres)|(pre & m & fi & -> & Hall & Hv & Hst' & Hres)].
        -- left. split; [exact Hrest|]. split; [constructor; assumption|exact Hres].
        -- right. exists (n :: pre), m, fi. split; [reflexivity|].
           split; [constructor; assumption|]. auto.
Qed.

Lemma indexLoop_calls_witness :
  exists tried rest,
    gostrings ["index.html"; "index.txt"] = tried ++ rest
    /\ snd (fileserver.indexLoop
              (Some ("/srv"%string : gostring)) samples.noReplace (samples.siteSpec [])
              (gostrings ["index.html"]) "/site/blog" (samples.dir "blog") "/site/blog"
              (gostrings ["index.html"; "index.txt"]) samples.fresh)
       = trace.appendEvents
           samples.fresh
           (map (fun n => EvStat (util.SanitizedPathJoin "/site/blog" n))
                (filter (fun n => negb (fileserver.fileHidden
                                          (Some ("/srv"%string : gostring))
                                          (util.SanitizedPathJoin "/site/blog" n)
                                          (gostrings ["index.html"])))
                        tried)).
Proof.
  destruct (indexLoop_calls
              (Some ("/srv"%string : gostring)) samples.noReplace (samples.siteSpec [])
              (gostrings ["index.html"]) "/site/blog" (samples.dir "blog") "/site/blog"
              (gostrings ["index.html"; "index.txt"]) samples.fresh)
    as (tried & rest & Hn & Hev & _).
  exists tried, rest. split; [exact Hn|exact Hev].
Defined.

(** * The exits of the handler *)

Section Resolution.

Import filepath fileserver trace exits.

Variable getwd : option gostring.
Variable ReplaceAll : gostring -> gostring -> gostring.
Variable TypeByExtension : gostring -> gostring.
Variable ServeContent : Serving.
Variable spec : Spec.

Ltac simpl_exit :=
  unfold trace.appendEvents; cbn [ctxTags ctxStatus ctxHeader ctxEvents].

Lemma isStat_map {A} (f : A -> gostring) (l : list A) :
  Forall isStat (map (fun x => EvStat (f x)) l).
Proof. apply Forall_map, Forall_forall. intros x _. eexists. reflexivity. Qed.

Lemma mapDirOpenError_mapped (err : GoError) (name : gostring) (c : Context) :
  exists err' stats,
    mapDirOpenError spec err name c = (err', appendEvents c stats)
    /\ mapped err err' stats.
Proof.
  unfold mapDirOpenError, mapped.
  destruct (isNotExist err || isPermission err) eqn:Hk.
  - exists err, []. cbn. rewrite appendEvents_nil. repeat split; auto.
  - destruct (walkParts_walk spec err (strings.SplitByte name Separator) [] c)
      as (idxs & Hev & _ & _ & Hres).
    eexists _, _. split; [apply injective_projections; [reflexivity|exact Hev]|].
    split; [apply isStat_map|]. split; [|exact Hres].
    apply orb_false_iff in Hk. intros [H|H]; destruct Hk; congruence.
Qed.

Lemma indexLoop_settles (r : Request) (dirInfo : FileInfo) (names : list gostring) :
  fsStat (fileSystem spec) (requested ReplaceAll spec r) = Ok dirInfo ->
  incl names (IndexNames spec) ->
  forall c,
  exists info filename stats,
    indexLoop getwd ReplaceAll spec (filesToHide getwd ReplaceAll spec)
              (requested ReplaceAll spec r) dirInfo (requested ReplaceAll spec r) names c
    = ((info, filename), appendEvents c stats)
    /\ Forall isStat stats
    /\ ((info, filename) = (dirInfo, requested ReplaceAll spec r)
        \/ exists n,
             In n (IndexNames spec)
             /\ filename = indexPath ReplaceAll spec r n
             /\ fileHidden getwd filename (filesToHide getwd ReplaceAll spec) = false
             /\ fsStat (fileSystem spec) filename = Ok info
             /\ In (EvStat filename) stats).
Proof.
  intros Hdir. induction names as [|n names IH]; intros Hincl c.
  - exists dirInfo, (requested ReplaceAll spec r), [].
    cbn. rewrite appendEvents_nil. auto.
  - assert (Hn : In n (IndexNames spec)) by (apply Hincl; left; reflexivity).
    assert (Hrest : incl names (IndexNames spec)).
    { intros x Hx. apply Hincl. right. exact Hx. }
    specialize (IH Hrest).
    cbn [indexLoop]. cbv zeta. fold (indexPath ReplaceAll spec r n).
    destruct (fileHidden getwd (indexPath ReplaceAll spec r n) _) eqn:Hh; [apply IH|].
    rewrite bind_run, Stat_run. cbn [fst snd].
    destruct (fsStat (fileSystem spec) (indexPath ReplaceAll spec r n)) as [fi|e] eqn:Hst.
    + exists fi, (indexPath ReplaceAll spec r n), [EvStat (indexPath ReplaceAll spec r n)].
      split; [reflexivity|]. split; [repeat constructor; eexists; reflexivity|].
      right. exists n. repeat split; try assumption. left. reflexivity.
    + destruct (IH (appendEvents c [EvStat (indexPath ReplaceAll spec r n)]))
        as (info & filename & stats & Heq & Hstats & Hcase).
      exists info, filename, (EvStat (indexPath ReplaceAll spec r n) :: stats).
      rewrite Heq, appendEvents_app.
      split; [reflexivity|].
      split; [constructor; [eexists; reflexivity|exact Hstats]|].
      destruct Hcase as [Hc|(m & Hm & Hf & Hhid & Hs & Hin)]; [left; exact Hc|].
      right. exists m. repeat split; try assumption. right. exact Hin.
Qed.

Lemma chosen_settles (r : Request) (info0 : FileInfo) (c : Context) :
  fsStat (fileSystem spec) (requested ReplaceAll spec r) = Ok info0 ->
  exists info filename stats,
    (if IsDir info0 && (0 <? length (IndexNames spec))
     then indexLoop getwd ReplaceAll spec (filesToHide getwd ReplaceAll spec)
                    (requested ReplaceAll spec r) info0 (requested ReplaceAll spec r)
                    (IndexNames spec)
     else M.ret (info0, requested ReplaceAll spec r)) c
    = ((info, filename), appendEvents c stats)
    /\ settles getwd ReplaceAll spec r info filename stats.
Proof.
  intros Hst.
  destruct (IsDir info0 && (0 <? length (IndexNames spec))) eqn:Hd.
  - apply andb_true_iff in Hd. destruct Hd as [Hd _].
    destruct (indexLoop_settles r info0 (IndexNames spec) Hst (incl_refl _) c)
      as (info & filename & stats & Heq & Hstats & Hcase).
    exists info, filename, stats. split; [exact Heq|].
    destruct Hcase as [Hc|(n & Hn & Hf & Hhid & Hs & Hin)].
    + injection Hc as -> ->. apply SettlesRequested; auto.
    + apply (SettlesIndex getwd ReplaceAll spec r info filename stats info0 n); auto.
  - exists info0, (requested ReplaceAll spec r), [].
    split; [cbn; rewrite appendEvents_nil; reflexivity|].
    apply SettlesRequested; auto.
Qed.

Lemma emit_run (e : Event) (res : gostring) (c : Context) :
  M.bind (M.emit e) (fun _ => M.ret res) c = (res, appendEvents c [e]).
Proof. reflexivity. Qed.

Lemma serveFile_served (r : Request) (info : FileInfo) (filename : gostring)
      (file : File) (etag : gostring) (c : Context) :
  Method r = MethodGet \/ Method r = MethodHead ->
  serveFile TypeByExtension ServeContent r info filename file etag c
  = ([], mkContext (ctxTags c) (ctxStatus c)
                   (ServeContent
                      r (Name info) (ModTimeUnix info) file
                      (contentTyped TypeByExtension filename
                                    (header.Set_ (ctxHeader c) "Etag" etag)))
                   (ctxEvents c
                      ++ [EvServeContent (Name info) (ModTimeUnix info) (fileName file)])).
Proof.
  intros Hm. unfold serveFile, contentTyped.
  assert (Hb : negb (gostring_eqb (Method r) MethodGet)
               && negb (gostring_eqb (Method r) MethodHead) = false).
  { destruct Hm as [-> | ->]; reflexivity. }
  rewrite Hb. cbv zeta.
  unfold M.bind, M.modifyHeader, M.getHeader, M.emit, M.ret.
  cbn [ctxTags ctxStatus ctxHeader ctxEvents].
  destruct (length (header.Get _ _) =? 0); [destruct (length _ =? 0)|]; reflexivity.
Qed.

(** The handler after the platform guard leaves by one of its exits. *)
Lemma resolve_resolution (r : Request) (c : Context) :
  resolution getwd ReplaceAll TypeByExtension ServeContent spec r c
             (resolve getwd ReplaceAll TypeByExtension ServeContent spec r c).
Proof.
  unfold resolve. cbv zeta.
  fold (root ReplaceAll spec). fold (requested ReplaceAll spec r).
  fold (filesToHide getwd ReplaceAll spec).
  set (filename0 := requested ReplaceAll spec r).
  set (hide := filesToHide getwd ReplaceAll spec).
  rewrite bind_run, Stat_run. cbn [fst snd].
  destruct (fsStat (fileSystem spec) filename0) as [info0|err] eqn:Hst.
  - rewrite bind_run.
    destruct (chosen_settles r info0 (appendEvents c [EvStat filename0]) Hst)
      as (info & filename & stats & Heq & Hset).
    fold filename0 hide in Heq. rewrite Heq. cbn [fst snd]. rewrite appendEvents_app.
    destruct (IsDir info) eqn:Hd.
    { rewrite reject_run. simpl_exit.
      exact (StillDirectory getwd ReplaceAll TypeByExtension ServeContent spec r c
                            info filename stats Hset Hd). }
    destruct (fileHidden getwd filename hide) eqn:Hh.
    { rewrite reject_run. simpl_exit.
      exact (Hidden getwd ReplaceAll TypeByExtension ServeContent spec r c
                    info filename stats Hset Hd Hh). }
    rewrite bind_run, openFile_run. cbn [fst snd]. rewrite appendEvents_app.
    destruct (fsOpen (fileSystem spec) filename) as [file|err] eqn:Hopen.
    + rewrite bind_run.
      destruct (gostring_eqb (Method r) MethodGet) eqn:Hget;
        [|destruct (gostring_eqb (Method r) MethodHead) eqn:Hhead].
      * apply gostring_eqb_eq in Hget.
        rewrite serveFile_served by (left; exact Hget).
        cbn [fst snd]. rewrite emit_run. simpl_exit. rewrite <- !app_assoc.
        exact (Served getwd ReplaceAll TypeByExtension ServeContent spec r c
                      info filename stats file Hset Hd Hh Hopen (or_introl Hget)).
      * apply gostring_eqb_eq in Hhead.
        rewrite serveFile_served by (right; exact Hhead).
        cbn [fst snd]. rewrite emit_run. simpl_exit. rewrite <- !app_assoc.
        exact (Served getwd ReplaceAll TypeByExtension ServeContent spec r c
                      info filename stats file Hset Hd Hh Hopen (or_intror Hhead)).
      * assert (Hg : Method r <> MethodGet).
        { intros Heq'. rewrite Heq', gostring_eqb_refl in Hget. discriminate. }
        assert (Hh' : Method r <> MethodHead).
        { intros Heq'. rewrite Heq', gostring_eqb_refl in Hhead. discriminate. }
        rewrite (serveFile_not_allowed TypeByExtension ServeContent) by assumption.
        cbn [fst snd]. rewrite emit_run. simpl_exit. rewrite <- !app_assoc.
        exact (NotAllowed getwd ReplaceAll TypeByExtension ServeContent spec r c
                          info filename stats file Hset Hd Hh Hopen Hg Hh').
    + rewrite bind_run.
      destruct (mapDirOpenError_mapped
                  err filename
                  (appendEvents c (([EvStat filename0] ++ stats) ++ [EvOpen filename])))
        as (err' & stats' & Hm & Hmapped).
      rewrite Hm. cbn [fst snd]. rewrite appendEvents_app.
      destruct (isNotExist err') eqn:Hne.
      { rewrite reject_run. simpl_exit.
        pose proof (OpenNotFound getwd ReplaceAll TypeByExtension ServeContent spec r c
                                 info filename stats err err' stats'
                                 Hset Hd Hh Hopen Hmapped Hne) as H.
        unfold rejection in H. cbn [app] in H |- *. rewrite <- !app_assoc. exact H. }
      destruct (isPermission err') eqn:Hpe.
      { rewrite reject_run. simpl_exit.
        pose proof (OpenPermission getwd ReplaceAll TypeByExtension ServeContent spec r c
                                   info filename stats err err' stats'
                                   Hset Hd Hh Hopen Hmapped Hne Hpe) as H.
        unfold rejection in H. cbn [app] in H |- *. rewrite <- !app_assoc. exact H. }
      rewrite reject_run. simpl_exit.
      pose proof (OpenOther getwd ReplaceAll TypeByExtension ServeContent spec r c
                            info filename stats err err' stats'
                            Hset Hd Hh Hopen Hmapped Hne Hpe) as H.
      unfold rejection in H. cbn [app] in H |- *. rewrite <- !app_assoc. exact H.
  - rewrite bind_run.
    destruct (mapDirOpenError_mapped err filename0 (appendEvents c [EvStat filename0]))
      as (err' & stats & Hm & Hmapped).
    rewrite Hm. cbn [fst snd]. rewrite appendEvents_app.
    destruct (isNotExist err' || isInvalid err') eqn:Hne.
    { rewrite reject_run. simpl_exit.
      exact (StatNotFound getwd ReplaceAll TypeByExtension ServeContent spec r c
                          err err' stats Hst Hmapped Hne). }
    destruct (isPermission err') eqn:Hpe.
    { rewrite reject_run. simpl_exit.
      exact (StatPermission getwd ReplaceAll TypeByExtension ServeContent spec r c
                            err err' stats Hst Hmapped Hne Hpe). }
    rewrite reject_run. simpl_exit.
    exact (StatOther getwd ReplaceAll TypeByExtension ServeContent spec r c
                     err err' stats Hst Hmapped Hne Hpe).
Qed.

(** The platform guard rejects the request without looking at the
    specification, or lets it through. *)
Lemma handle_cases (GOOS : gostring) (r : Request) :
  (forall getwd' ReplaceAll' TypeByExtension' ServeContent' spec' c,
      handle GOOS getwd' ReplaceAll' TypeByExtension' ServeContent' spec' r c
      = resolve getwd' ReplaceAll' TypeByExtension' ServeContent' spec' r c)
  \/ (GOOS = "windows"%string
      /\ exists tag res,
           In res [resultIllegalADSPath; resultIllegalShortName]
           /\ (res = resultIllegalADSPath <-> strings.Contains (Path r) ":" = true)
           /\ In tag (gostrings ["illegal ADS path"; "illegal short name"])
           /\ forall getwd' ReplaceAll' TypeByExtension' ServeContent' spec' c,
                handle GOOS getwd' ReplaceAll' TypeByExtension' ServeContent' spec' r c
                = (res, mkContext (ctxTags c ++ [tag]) StatusBadRequest (ctxHeader c)
                                  (ctxEvents c))).
Proof.
  unfold handle. cbv zeta.
  destruct (gostring_eqb GOOS "windows") eqn:HG; [|left; reflexivity].
  apply gostring_eqb_eq in HG. cbn [andb].
  destruct (strings.Contains (Path r) ":") eqn:Hc.
  - right. split; [exact HG|]. eexists _, _.
    split; [left; reflexivity|]. split; [split; reflexivity|].
    split; [left; reflexivity|]. reflexivity.
  - destruct ((length (path.Base (strings.TrimRight (Path r) ". ")) <=? 12)
              && strings.Contains (strings.TrimRight (Path r) ". ") "~").
    + right. split; [exact HG|]. eexists _, _.
      split; [right; left; reflexivity|].
      split; [split; [discriminate|intros H; discriminate H]|].
      split; [right; left; reflexivity|]. reflexivity.
    + left. reflexivity.
Qed.

End Resolution.

Ltac by_exit H :=
  destruct H as
    [ err err' stats Hstat Hmapped Hkind
    | err err' stats Hstat Hmapped Hkind Hperm
    | err err' stats Hstat Hmapped Hkind Hperm
    | info filename stats Hsettles Hdir
    | info filename stats Hsettles Hdir Hhidden
    | info filename stats err err' stats' Hsettles Hdir Hhidden Hopen Hmapped Hkind
    | info filename stats err err' stats' Hsettles Hdir Hhidden Hopen Hmapped Hkind Hperm
    | info filename stats err err' stats' Hsettles Hdir Hhidden Hopen Hmapped Hkind Hperm
    | info filename stats file Hsettles Hdir Hhidden Hopen Hget Hhead
    | info filename stats file Hsettles Hdir Hhidden Hopen Hmethod ];
  unfold exits.rejection; cbn [fst snd ctxTags ctxStatus ctxHeader ctxEvents].

Ltac in_list := repeat first [left; reflexivity | right].

(** ** The results and the response *)

(** X11: the results that [Results] declares are the results of the
    handler: the handler returns the empty result or a declared one,
    each declared result is returned for some request, and none is
    declared twice. *)
Theorem handle_results_declared :
  (forall GOOS getwd ReplaceAll TypeByExtension ServeContent spec r c,
      let res := fst (fileserver.handle GOOS getwd ReplaceAll TypeByExtension ServeContent
        spec r c) in
      res = [] \/ In res plugin.Results)
  /\ (forall res,
         In res plugin.Results ->
         exists GOOS getwd ReplaceAll TypeByExtension ServeContent spec r c,
           fst (fileserver.handle GOOS getwd ReplaceAll TypeByExtension ServeContent
             spec r c) = res)
  /\ NoDup plugin.Results.
Proof.
  split; [|split].
  - intros GOOS getwd ReplaceAll TypeByExtension ServeContent spec r c res. subst res.
    destruct (handle_cases GOOS r) as [Hres | (HG & tag & res & Hin & Hads & Htag & Hrej)].
    + rewrite Hres.
      pose proof (resolve_results getwd ReplaceAll TypeByExtension ServeContent spec r c) as Hin.
      cbn [In] in Hin.
      destruct Hin as [H|[H|[H|[H|[H|[]]]]]]; rewrite <- H;
        [right|right|right|right|left; reflexivity]; cbn; in_list.
    + rewrite Hrej. cbn [fst]. right.
      destruct Hin as [<-|[<-|[]]]; cbn; in_list.
  - intros res Hin.
    pose (wd := Some ("/srv"%string : gostring)).
    cbn [plugin.Results plugin.results In] in Hin.
    destruct Hin as [H|[H|[H|[H|[H|[H|[]]]]]]]; subst res.
    + exists ("windows"%string : gostring), wd, samples.noReplace, samples.noType,
    samples.plainServe,
        (samples.siteSpec []), (mkRequest "GET" "/file.txt:stream"), samples.fresh.
      vm_compute. reflexivity.
    + exists ("windows"%string : gostring), wd, samples.noReplace, samples.noType,
    samples.plainServe,
        (samples.siteSpec []), (mkRequest "GET" "/FILE~1.TXT"), samples.fresh.
      vm_compute. reflexivity.
    + exists ("linux"%string : gostring), wd, samples.noReplace, samples.noType,
    samples.plainServe,
        (samples.siteSpec []), (mkRequest "POST" "/file.txt"), samples.fresh.
      vm_compute. reflexivity.
    + exists ("linux"%string : gostring), wd, samples.noReplace, samples.noType,
    samples.plainServe,
        (samples.siteSpec []), (mkRequest "GET" "/missing.txt"), samples.fresh.
      vm_compute. reflexivity.
    + exists ("linux"%string : gostring), wd, samples.noReplace, samples.noType,
    samples.plainServe,
        (faults.failingSpec faults.EACCES), (mkRequest "GET" "/file.txt"), samples.fresh.
      vm_compute. reflexivity.
    + exists ("linux"%string : gostring), wd, samples.noReplace, samples.noType,
    samples.plainServe,
        (faults.failingSpec faults.EIO), (mkRequest "GET" "/file.txt"), samples.fresh.
      vm_compute. reflexivity.
  - unfold plugin.Results, plugin.results.
    repeat (constructor; [cbn; intros H; repeat destruct H as [H|H]; discriminate H || exact H|]).
    constructor.
Qed.

Lemma handle_results_declared_witness :
  exists GOOS getwd ReplaceAll TypeByExtension ServeContent spec r c,
    fst (fileserver.handle GOOS getwd ReplaceAll TypeByExtension ServeContent spec r c)
    = fileserver.resultErrHandleFile.
Proof.
  destruct handle_results_declared as (_ & H & _).
  apply H. vm_compute. in_list.
Defined.

(** X12: each result has its status code, and the response of a
    served file keeps the status it had; an answer with an error adds
    one tag to the context, the answer [methodNotAllowed] and the
    serving of a file add none. *)
Theorem handle_status_and_tags
        (GOOS : gostring) (getwd : option gostring)
        (ReplaceAll : gostring -> gostring -> gostring)
        (TypeByExtension : gostring -> gostring) (ServeContent : Serving)
        (spec : fileserver.Spec) (r : Request) (c : Context) :
  let out := fileserver.handle GOOS getwd ReplaceAll TypeByExtension ServeContent spec r c in
  exists tags,
    ctxTags (snd out) = ctxTags c ++ tags
    /\ In (fst out, ctxStatus (snd out), length tags)
          [(fileserver.resultIllegalADSPath, 400, 1);
           (fileserver.resultIllegalShortName, 400, 1);
           (fileserver.resultNotFound, 404, 1);
           (fileserver.resultErrPermission, 403, 1);
           (fileserver.resultErrHandleFile, 500, 1);
           (fileserver.resultMethodNotAllowed, 405, 0);
           ([], ctxStatus c, 0)].
Proof.
  intros out. subst out.
  destruct (handle_cases GOOS r) as [Hres | (HG & tag & res & Hin & Hads & Htag & Hrej)].
  - rewrite Hres.
    pose proof (resolve_resolution getwd ReplaceAll TypeByExtension ServeContent
      spec r c) as Hex.
    by_exit Hex;
      try (eexists [_]; split; [reflexivity|]; cbn [length]; in_list);
      exists []; (split; [symmetry; apply app_nil_r|]); cbn [length]; in_list.
  - rewrite Hrej. cbn [fst snd ctxTags ctxStatus].
    exists [tag]. split; [reflexivity|].
    destruct Hin as [<-|[<-|[]]]; cbn [length]; in_list.
Qed.

(** ** The header of the response *)

Section Headers.

Import fileserver.

Lemma find_filter_kept {A} (p q : A -> bool) (l : list A) :
  (forall x, p x = true -> q x = true) -> find p (filter q l) = find p l.
Proof.
  intros Hpq. induction l as [|x l IH]; [reflexivity|].
  cbn [filter find]. destruct (q x) eqn:Hq.
  - cbn [find]. rewrite IH. reflexivity.
  - destruct (p x) eqn:Hp; [|exact IH]. rewrite (Hpq x Hp) in Hq. discriminate.
Qed.

Lemma find_filter_dropped {A} (p q : A -> bool) (l : list A) :
  (forall x, p x = true -> q x = false) -> find p (filter q l) = None.
Proof.
  intros Hpq. induction l as [|x l IH]; [reflexivity|].
  cbn [filter]. destruct (q x) eqn:Hq; [|exact IH].
  cbn [find]. destruct (p x) eqn:Hp; [|exact IH]. rewrite (Hpq x Hp) in Hq. discriminate.
Qed.

Lemma Values_Del_same (h : Header) (key : gostring) :
  header.Values (header.Del h key) key = [].
Proof.
  unfold header.Values, header.Del. rewrite find_filter_dropped; [reflexivity|].
  intros kv ->. reflexivity.
Qed.

Lemma Values_Del_other (h : Header) (key key' : gostring) :
  key' <> key -> header.Values (header.Del h key) key' = header.Values h key'.
Proof.
  intros Hne. unfold header.Values, header.Del. rewrite find_filter_kept; [reflexivity|].
  intros kv Hkv. apply gostring_eqb_eq in Hkv. apply negb_true_iff, gostring_eqb_neq.
  congruence.
Qed.

Lemma Values_Set_same (h : Header) (key value : gostring) :
  header.Values (header.Set_ h key value) key = [value].
Proof.
  unfold header.Set_, header.Values. cbn [find fst]. rewrite gostring_eqb_refl. reflexivity.
Qed.

Lemma Values_Set_other (h : Header) (key key' value : gostring) :
  key' <> key -> header.Values (header.Set_ h key value) key' = header.Values h key'.
Proof.
  intros Hne. unfold header.Set_, header.Values at 1. cbn [find fst].
  replace (gostring_eqb key key') with false
    by (symmetry; apply gostring_eqb_neq; congruence).
  apply (Values_Del_other h key key' Hne).
Qed.

Lemma Values_Add_other (h : Header) (key key' value : gostring) :
  key' <> key -> header.Values (header.Add h key value) key' = header.Values h key'.
Proof.
  intros Hne. unfold header.Add, header.Values at 1. cbn [find fst].
  replace (gostring_eqb key key') with false
    by (symmetry; apply gostring_eqb_neq; congruence).
  apply (Values_Del_other h key key' Hne).
Qed.

Variable TypeByExtension : gostring -> gostring.
Variable ServeContent : Serving.

Lemma contentTyped_other (filename : gostring) (h : Header) (key : gostring) :
  key <> "Content-Type"%string ->
  header.Values (exits.contentTyped TypeByExtension filename h) key = header.Values h key.
Proof.
  intros Hne. unfold exits.contentTyped. cbv zeta.
  destruct (length (header.Get h "Content-Type") =? 0); [|reflexivity].
  destruct (length (TypeByExtension (filepath.Ext filename)) =? 0).
  - apply Values_Del_other. exact Hne.
  - apply Values_Set_other. exact Hne.
Qed.

Lemma contentTyped_values (filename : gostring) (h : Header) :
  header.Values (exits.contentTyped TypeByExtension filename h) "Content-Type"
  = if length (header.Get h "Content-Type") =? 0
    then (let mtyp := TypeByExtension (filepath.Ext filename) in
          if length mtyp =? 0 then [] else [mtyp])
    else header.Values h "Content-Type".
Proof.
  unfold exits.contentTyped. cbv zeta.
  destruct (length (header.Get h "Content-Type") =? 0); [|reflexivity].
  destruct (length (TypeByExtension (filepath.Ext filename)) =? 0).
  - apply Values_Del_same.
  - apply Values_Set_same.
Qed.

Lemma Get_Set_other (h : Header) (key key' value : gostring) :
  key' <> key -> header.Get (header.Set_ h key value) key' = header.Get h key'.
Proof. intros Hne. unfold header.Get. rewrite Values_Set_other by exact Hne. reflexivity. Qed.

End Headers.

(** X13: the handler itself writes to three keys of the header of the
    response, each at one exit: an answer with an error leaves the
    header as it is, but for [methodNotAllowed], which adds a value to
    [Allow]; when a file is served, the header that
    [http.ServeContent] is called on differs from the header before
    the request in the values of [Etag], and in those of
    [Content-Type] only when the response had no content type yet;
    what the header has more at the end is written by
    [http.ServeContent]. *)
Theorem handle_header_frame
        (GOOS : gostring) (getwd : option gostring)
        (ReplaceAll : gostring -> gostring -> gostring)
        (TypeByExtension : gostring -> gostring) (ServeContent : Serving)
        (spec : fileserver.Spec) (r : Request) (c : Context) :
  let out := fileserver.handle GOOS getwd ReplaceAll TypeByExtension ServeContent
                               spec r c in
  exists written : Header,
    (fst out <> [] -> ctxHeader (snd out) = written)
    /\ (fst out = [] ->
        exists name modtime file,
          ctxHeader (snd out) = ServeContent r name modtime file written)
    /\ (fst out <> [] -> fst out <> fileserver.resultMethodNotAllowed ->
        written = ctxHeader c)
    /\ forall key : gostring,
         let before := header.Values (ctxHeader c) key in
         let after := header.Values written key in
         after <> before ->
         (key = "Allow"%string
          /\ fst out = fileserver.resultMethodNotAllowed
          /\ after = before ++ [("GET, HEAD"%string : gostring)])
         \/ (key = "Etag"%string /\ fst out = [])
         \/ (key = "Content-Type"%string
             /\ fst out = []
             /\ header.Get (ctxHeader c) "Content-Type" = []).
Proof.
  intros out. subst out.
  destruct (handle_cases GOOS r) as [Hres | (HG & tag & res & Hin & Hads & Htag & Hrej)].
  - rewrite Hres.
    pose proof (resolve_resolution getwd ReplaceAll TypeByExtension ServeContent
                                   spec r c) as Hex.
    by_exit Hex;
      try (exists (ctxHeader c);
           split; [intros _; reflexivity|];
           split; [intros H; discriminate H|];
           split; [intros _ _; reflexivity|];
           intros key; cbv zeta; intros H; elim H; reflexivity).
    + exists (header.Add (ctxHeader c) "Allow" "GET, HEAD").
      split; [intros _; reflexivity|]. split; [intros H; discriminate H|].
      split; [intros _ H; elim H; reflexivity|].
      intros key; cbv zeta; intros Hch. left.
      destruct (list_eq_dec ascii_dec key ("Allow"%string : gostring)) as [->|Hne].
      * split; [reflexivity|]. split; [reflexivity|]. apply Values_Add.
      * elim Hch. apply Values_Add_other. exact Hne.
    + exists (exits.contentTyped TypeByExtension filename
                                 (header.Set_ (ctxHeader c) "Etag"
                                              (fileserver.calculateEtag info))).
      split; [intros H; elim H; reflexivity|].
      split; [intros _; exists (Name info), (ModTimeUnix info), file; reflexivity|].
      split; [intros H; elim H; reflexivity|].
      intros key; cbv zeta; intros Hch. right.
      destruct (list_eq_dec ascii_dec key ("Content-Type"%string : gostring)) as [->|Hct].
      * right. split; [reflexivity|]. split; [reflexivity|].
        rewrite contentTyped_values, Get_Set_other in Hch by discriminate.
        destruct (header.Get (ctxHeader c) "Content-Type") as [|b s] eqn:Hg;
          [reflexivity|].
        elim Hch. cbn [length Nat.eqb]. apply Values_Set_other. discriminate.
      * left. split; [|reflexivity].
        destruct (list_eq_dec ascii_dec key ("Etag"%string : gostring)) as [->|Het];
          [reflexivity|].
        elim Hch. rewrite contentTyped_other by exact Hct.
        apply Values_Set_other. exact Het.
  - rewrite Hrej. cbn [fst snd ctxHeader]. exists (ctxHeader c).
    split; [intros _; reflexivity|].
    split; [intros H; subst res; destruct Hin as [H|[H|[]]]; discriminate H|].
    split; [intros _ _; reflexivity|]. intros key; cbv zeta; intros H; elim H; reflexivity.
Qed.

Lemma handle_header_frame_witness :
  ctxHeader (snd (samples.serve "linux" [] "GET" "/missing.txt")) = ctxHeader samples.fresh.
Proof.
  destruct (handle_header_frame
              "linux" (Some ("/srv"%string : gostring)) samples.noReplace samples.noType
              samples.plainServe (samples.siteSpec []) (mkRequest "GET" "/missing.txt")
              samples.fresh) as (written & Hkept & _ & Hsame & _).
  transitivity written.
  - apply Hkept. vm_compute. discriminate.
  - apply Hsame; vm_compute; discriminate.
Defined.

(** X14: a request makes calls to [Stat], then at most one call to
    [Open]; a file that was opened is closed, once and as the last
    thing, with [ServeContent] as the only call in between; after an
    [Open] that fails there are only calls to [Stat]; nothing is closed
    that was not opened. *)
Theorem handle_open_close
        (GOOS : gostring) (getwd : option gostring)
        (ReplaceAll : gostring -> gostring -> gostring)
        (TypeByExtension : gostring -> gostring) (ServeContent : Serving)
        (spec : fileserver.Spec) (r : Request) (c : Context) :
  let out := fileserver.handle GOOS getwd ReplaceAll TypeByExtension ServeContent spec r c in
  exists stats rest,
    ctxEvents (snd out) = ctxEvents c ++ stats ++ rest
    /\ Forall trace.isStat stats
    /\ (rest = []
        \/ (exists name err stats',
               fsOpen (fileserver.fileSystem spec) name = Err err
               /\ Forall trace.isStat stats'
               /\ rest = EvOpen name :: stats')
        \/ (exists name file,
               fsOpen (fileserver.fileSystem spec) name = Ok file
               /\ (rest = [EvOpen name; EvClose (fileName file)]
                   \/ exists n m,
                        rest = [EvOpen name; EvServeContent n m (fileName file);
                                EvClose (fileName file)]))).
Proof.
  intros out. subst out.
  assert (Hsettled : forall info filename stats,
             exits.settles getwd ReplaceAll spec r info filename stats ->
             Forall trace.isStat (EvStat (exits.requested ReplaceAll spec r) :: stats)).
  { intros info filename stats Hs.
    constructor; [eexists; reflexivity|]. destruct Hs; assumption. }
  assert (Hmap : forall err err' stats,
             exits.mapped err err' stats ->
             Forall trace.isStat (EvStat (exits.requested ReplaceAll spec r) :: stats)).
  { intros err err' stats (Hs & _). constructor; [eexists; reflexivity|exact Hs]. }
  destruct (handle_cases GOOS r) as [Hres | (HG & tag & res & Hin & Hads & Htag & Hrej)].
  - rewrite Hres.
    pose proof (resolve_resolution getwd ReplaceAll TypeByExtension ServeContent
      spec r c) as Hex.
    by_exit Hex.
    1-3: exists (EvStat (exits.requested ReplaceAll spec r) :: stats), [];
      rewrite app_nil_r; split; [reflexivity|]; split; [eapply Hmap; eassumption|];
      left; reflexivity.
    1-2: exists (EvStat (exits.requested ReplaceAll spec r) :: stats), [];
      rewrite app_nil_r; split; [reflexivity|]; split; [eapply Hsettled; eassumption|];
      left; reflexivity.
    1-3: exists (EvStat (exits.requested ReplaceAll spec r) :: stats),
           (EvOpen filename :: stats');
      split; [reflexivity|]; split; [eapply Hsettled; eassumption|];
      right; left; exists filename, err, stats';
      split; [exact Hopen|]; split; [apply Hmapped|reflexivity].
    + exists (EvStat (exits.requested ReplaceAll spec r) :: stats),
        [EvOpen filename; EvClose (fileName file)].
      split; [reflexivity|]. split; [eapply Hsettled; eassumption|].
      right; right. exists filename, file. split; [exact Hopen|]. left. reflexivity.
    + exists (EvStat (exits.requested ReplaceAll spec r) :: stats),
        [EvOpen filename;
         EvServeContent (Name info) (ModTimeUnix info) (fileName file);
         EvClose (fileName file)].
      split; [reflexivity|]. split; [eapply Hsettled; eassumption|].
      right; right. exists filename, file. split; [exact Hopen|].
      right. eexists _, _. reflexivity.
  - rewrite Hrej. cbn [fst snd ctxEvents]. exists [], [].
    split; [rewrite app_nil_r; reflexivity|]. split; [constructor|]. left. reflexivity.
Qed.

(** ** The file that is opened *)

Section Settled.

Import filepath fileserver trace exits.

Lemma joined_within (root a : gostring) :
  lexical.within root (util.SanitizedPathJoin root a).
Proof.
  destruct (SanitizedPathJoin_shape root a) as (names & Hn & _ & Heq).
  exists names. split; [assumption|]. rewrite Heq.
  destruct (strings.HasSuffix a "/" && (1 <? length a)).
  - right. reflexivity.
  - left. apply app_nil_r.
Qed.

Lemma joined_twice_within (root a b : gostring) :
  lexical.within root (util.SanitizedPathJoin (util.SanitizedPathJoin root a) b).
Proof.
  destruct (SanitizedPathJoin_shape root a) as (na & Hna & _ & Ha).
  destruct (SanitizedPathJoin_shape (util.SanitizedPathJoin root a) b)
    as (nb & Hnb & _ & Hb).
  assert (Hinner : Clean (util.SanitizedPathJoin root a)
                   = lexical.descend (Clean root) na).
  { rewrite Ha.
    destruct (strings.HasSuffix a "/" && (1 <? length a)).
    - apply (descend_clean root na true Hna).
    - apply (descend_clean root na false Hna). }
  exists (na ++ nb). split; [apply Forall_app; split; assumption|].
  rewrite Hb, Hinner, descend_descend by assumption.
  destruct (strings.HasSuffix b "/" && (1 <? length b)).
  - right. reflexivity.
  - left. apply app_nil_r.
Qed.

Variable getwd : option gostring.
Variable ReplaceAll : gostring -> gostring -> gostring.
Variable spec : Spec.
Variable r : Request.

Lemma settles_file (info : FileInfo) (filename : gostring) (stats : list Event) :
  settles getwd ReplaceAll spec r info filename stats ->
  fsStat (fileSystem spec) filename = Ok info
  /\ lexical.within (root ReplaceAll spec) filename
  /\ Forall isStat (EvStat (requested ReplaceAll spec r) :: stats)
  /\ In (EvStat filename) (EvStat (requested ReplaceAll spec r) :: stats)
  /\ (filename = requested ReplaceAll spec r
      \/ exists n, In n (IndexNames spec) /\ filename = indexPath ReplaceAll spec r n).
Proof.
  intros [Hst -> Hstats | dirInfo n Hst Hd Hn -> Hh Hsi Hstats Hin].
  - split; [exact Hst|]. split; [apply joined_within|].
    split; [constructor; [eexists; reflexivity|exact Hstats]|].
    split; [left; reflexivity|left; reflexivity].
  - split; [exact Hsi|]. split; [apply joined_twice_within|].
    split; [constructor; [eexists; reflexivity|exact Hstats]|].
    split; [right; exact Hin|]. right. exists n. auto.
Qed.

Lemma only_open (q : gostring) (stats : list Event) (filename name : gostring)
      (rest : list Event) :
  Forall isStat (EvStat q :: stats) ->
  (forall n, ~ In (EvOpen n) rest) ->
  In (EvOpen name) (EvStat q :: stats ++ EvOpen filename :: rest) ->
  name = filename.
Proof.
  intros Hstats Hrest Hin.
  change (In (EvOpen name) ((EvStat q :: stats) ++ EvOpen filename :: rest)) in Hin.
  apply in_app_or in Hin. destruct Hin as [Hin|[Hin|Hin]].
  - elim (stats_no_open _ name Hstats Hin).
  - injection Hin as ->. reflexivity.
  - elim (Hrest name Hin).
Qed.

End Settled.

(** X15: the only file the handler opens is the requested file or an
    index file of it, and it opens it only if it lies lexically within
    the root, is not hidden, and a call to [Stat] of this request has
    shown it to exist and not to be a directory. *)
Theorem handle_opens_settled_file
        (GOOS : gostring) (getwd : option gostring)
        (ReplaceAll : gostring -> gostring -> gostring)
        (TypeByExtension : gostring -> gostring) (ServeContent : Serving)
        (spec : fileserver.Spec) (r : Request) (c : Context) :
  let out := fileserver.handle GOOS getwd ReplaceAll TypeByExtension ServeContent spec r c in
  exists events,
    ctxEvents (snd out) = ctxEvents c ++ events
    /\ forall name,
         In (EvOpen name) events ->
         lexical.within (exits.root ReplaceAll spec) name
         /\ fileserver.fileHidden getwd name (exits.filesToHide getwd ReplaceAll spec)
            = false
         /\ (exists info,
                fsStat (fileserver.fileSystem spec) name = Ok info
                /\ IsDir info = false)
         /\ In (EvStat name) events
         /\ (name = exits.requested ReplaceAll spec r
             \/ exists n,
                  In n (fileserver.IndexNames spec)
                  /\ name = exits.indexPath ReplaceAll spec r n).
Proof.
  intros out. subst out.
  assert (Hnone : forall q stats name,
             Forall trace.isStat stats -> ~ In (EvOpen name) (EvStat q :: stats)).
  { intros q stats name Hs. apply stats_no_open.
    constructor; [eexists; reflexivity|exact Hs]. }
  assert (Hopened :
            forall info filename stats rest,
              exits.settles getwd ReplaceAll spec r info filename stats ->
              IsDir info = false ->
              fileserver.fileHidden getwd filename (exits.filesToHide getwd ReplaceAll spec)
              = false ->
              (forall n, ~ In (EvOpen n) rest) ->
              forall name,
                In (EvOpen name)
                   (EvStat (exits.requested ReplaceAll spec r)
                           :: stats ++ EvOpen filename :: rest) ->
                lexical.within (exits.root ReplaceAll spec) name
                /\ fileserver.fileHidden getwd name
                                         (exits.filesToHide getwd ReplaceAll spec) = false
                /\ (exists info',
                       fsStat (fileserver.fileSystem spec) name = Ok info'
                       /\ IsDir info' = false)
                /\ In (EvStat name)
                      (EvStat (exits.requested ReplaceAll spec r)
                              :: stats ++ EvOpen filename :: rest)
                /\ (name = exits.requested ReplaceAll spec r
                    \/ exists n,
                         In n (fileserver.IndexNames spec)
                         /\ name = exits.indexPath ReplaceAll spec r n)).
  { intros info filename stats rest Hs Hd Hh Hrest name Hin.
    destruct (settles_file getwd ReplaceAll spec r info filename stats Hs)
      as (Hst & Hw & Hstats & Hstat & Hwhich).
    rewrite (only_open _ _ _ _ _ Hstats Hrest Hin).
    split; [exact Hw|]. split; [exact Hh|]. split; [exists info; auto|].
    split; [|exact Hwhich].
    change (In (EvStat filename)
               ((EvStat (exits.requested ReplaceAll spec r) :: stats)
                  ++ EvOpen filename :: rest)).
    apply in_or_app. left. exact Hstat. }
  destruct (handle_cases GOOS r) as [Hres | (HG & tag & res & Hin & Hads & Htag & Hrej)].
  - rewrite Hres.
    pose proof (resolve_resolution getwd ReplaceAll TypeByExtension ServeContent
      spec r c) as Hex.
    by_exit Hex; eexists; (split; [reflexivity|]).
    1-3: intros name Hin; elim (Hnone _ _ name (proj1 Hmapped) Hin).
    1-2: intros name Hin;
      destruct (settles_file getwd ReplaceAll spec r info filename stats Hsettles)
        as (_ & _ & Hstats & _);
      elim (stats_no_open _ name Hstats Hin).
    1-3: apply (Hopened info filename stats stats' Hsettles Hdir Hhidden);
      intros n; apply stats_no_open; apply Hmapped.
    + apply (Hopened info filename stats _ Hsettles Hdir Hhidden).
      intros n [H|[]]. discriminate H.
    + apply (Hopened info filename stats _ Hsettles Hdir Hhidden).
      intros n [H|[H|[]]]; discriminate H.
  - rewrite Hrej. cbn [fst snd ctxEvents]. exists [].
    split; [symmetry; apply app_nil_r|]. intros name [].
Qed.

Lemma handle_opens_settled_file_witness :
  fileserver.fileHidden (Some ("/srv"%string : gostring)) "/site/blog/index.txt"
                        (gostrings ["index.html"])
  = false.
Proof.
  destruct (handle_opens_settled_file
              "linux" (Some ("/srv"%string : gostring)) samples.noReplace samples.noType
              samples.plainServe
              (samples.siteSpec ["index.html"]) (mkRequest "GET" "/blog") samples.fresh)
    as (events & Heq & H).
  destruct (H ("/site/blog/index.txt"%string : gostring)) as (_ & Hh & _).
  - apply (f_equal (fun l => existsb (fun e => match e with
                                               | EvOpen n => gostring_eqb n "/site/blog/index.txt"
                                               | _ => false
                                               end) l)) in Heq.
    vm_compute in Heq. symmetry in Heq. apply existsb_exists in Heq.
    destruct Heq as (e & Hin & He). destruct e as [n|n|n|n m f]; try discriminate He.
    apply gostring_eqb_eq in He. rewrite He in Hin. exact Hin.
  - exact Hh.
Defined.

(** X16: when the handler serves a file, the method is [GET] or [HEAD];
    the file handed to [http.ServeContent] is the one that was opened,
    with the name and the modification time that [Stat] gave for the
    same file name, and it is closed afterwards; status and tags stay
    as they were.  The header that [http.ServeContent] is called on
    has the [Etag] computed from that file information; it keeps a
    content type that the response has, has otherwise the type of the
    file extension, or none where the extension has no type, which
    leaves the content type to [http.ServeContent]; its other keys are
    as before.  The header at the end is what [http.ServeContent]
    makes of that one. *)
Theorem handle_served
        (GOOS : gostring) (getwd : option gostring)
        (ReplaceAll : gostring -> gostring -> gostring)
        (TypeByExtension : gostring -> gostring) (ServeContent : Serving)
        (spec : fileserver.Spec) (r : Request) (c : Context) :
  let out := fileserver.handle GOOS getwd ReplaceAll TypeByExtension ServeContent
                               spec r c in
  fst out = [] ->
  (Method r = fileserver.MethodGet \/ Method r = fileserver.MethodHead)
  /\ ctxStatus (snd out) = ctxStatus c
  /\ ctxTags (snd out) = ctxTags c
  /\ exists info filename file stats written,
       fsStat (fileserver.fileSystem spec) filename = Ok info
       /\ fsOpen (fileserver.fileSystem spec) filename = Ok file
       /\ Forall trace.isStat stats
       /\ In (EvStat filename) stats
       /\ ctxEvents (snd out)
          = ctxEvents c
              ++ stats
              ++ [EvOpen filename;
                  EvServeContent (Name info) (ModTimeUnix info) (fileName file);
                  EvClose (fileName file)]
       /\ ctxHeader (snd out)
          = ServeContent r (Name info) (ModTimeUnix info) file written
       /\ header.Values written "Etag" = [fileserver.calculateEtag info]
       /\ header.Values written "Content-Type"
          = (if length (header.Get (ctxHeader c) "Content-Type") =? 0
             then (let mtyp := TypeByExtension (filepath.Ext filename) in
                   if length mtyp =? 0 then [] else [mtyp])
             else header.Values (ctxHeader c) "Content-Type")
       /\ forall key : gostring,
            key <> "Etag"%string -> key <> "Content-Type"%string ->
            header.Values written key = header.Values (ctxHeader c) key.
Proof.
  intros out. subst out.
  destruct (handle_cases GOOS r) as [Hres | (HG & tag & res & Hin & Hads & Htag & Hrej)].
  - rewrite Hres.
    pose proof (resolve_resolution getwd ReplaceAll TypeByExtension ServeContent
                                   spec r c) as Hex.
    by_exit Hex; try discriminate.
    intros _. split; [exact Hmethod|]. split; [reflexivity|]. split; [reflexivity|].
    destruct (settles_file getwd ReplaceAll spec r info filename stats Hsettles)
      as (Hst & _ & Hstats & Hstat & _).
    exists info, filename, file, (EvStat (exits.requested ReplaceAll spec r) :: stats),
      (exits.contentTyped TypeByExtension filename
                          (header.Set_ (ctxHeader c) "Etag"
                                       (fileserver.calculateEtag info))).
    split; [exact Hst|]. split; [exact Hopen|]. split; [exact Hstats|].
    split; [exact Hstat|]. split; [reflexivity|]. split; [reflexivity|].
    split; [|split].
    + rewrite contentTyped_other by discriminate. apply Values_Set_same.
    + rewrite contentTyped_values, Get_Set_other by discriminate.
      destruct (length (header.Get (ctxHeader c) "Content-Type") =? 0); [reflexivity|].
      apply Values_Set_other. discriminate.
    + intros key Het Hct. rewrite contentTyped_other by exact Hct.
      apply Values_Set_other. exact Het.
  - rewrite Hrej. cbn [fst]. intros H. subst res.
    destruct Hin as [H|[H|[]]]; discriminate H.
Qed.

Lemma handle_served_witness :
  ctxStatus (snd (samples.serve "linux" [] "HEAD" "/docs/")) = ctxStatus samples.fresh
  /\ ctxTags (snd (samples.serve "linux" [] "HEAD" "/docs/")) = ctxTags samples.fresh.
Proof.
  destruct (handle_served
              "linux" (Some ("/srv"%string : gostring)) samples.noReplace samples.noType
              samples.plainServe (samples.siteSpec []) (mkRequest "HEAD" "/docs/")
              samples.fresh)
    as (_ & Hstatus & Htags & _).
  - vm_compute. reflexivity.
  - split; [exact Hstatus|exact Htags].
Defined.

(** ** Errors of the file system *)

(** X17: the answers [errPermission] and [errHandleFile] pass on an
    error of the file system, from the [Stat] of the requested file or
    from [Open]: [errPermission] an error that says permission, with
    the text of the error as tag after [Stat] and the tag
    [permission denied] after [Open]; [errHandleFile] an error that
    says neither not-exist nor permission, with its text as tag. *)
Theorem handle_error_answers
        (GOOS : gostring) (getwd : option gostring)
        (ReplaceAll : gostring -> gostring -> gostring)
        (TypeByExtension : gostring -> gostring) (ServeContent : Serving)
        (spec : fileserver.Spec) (r : Request) (c : Context) :
  let out := fileserver.handle GOOS getwd ReplaceAll TypeByExtension ServeContent spec r c in
  (fst out = fileserver.resultErrPermission ->
   exists name err,
     isPermission err = true
     /\ ((name = exits.requested ReplaceAll spec r
          /\ fsStat (fileserver.fileSystem spec) name = Err err
          /\ ctxTags (snd out) = ctxTags c ++ [errText err])
         \/ (fsOpen (fileserver.fileSystem spec) name = Err err
             /\ ctxTags (snd out)
                = ctxTags c ++ [("permission denied"%string : gostring)])))
  /\ (fst out = fileserver.resultErrHandleFile ->
      exists name err,
        (fsStat (fileserver.fileSystem spec) name = Err err
         \/ fsOpen (fileserver.fileSystem spec) name = Err err)
        /\ isNotExist err = false
        /\ isPermission err = false
        /\ ctxTags (snd out) = ctxTags c ++ [errText err]).
Proof.
  intros out. subst out.
  assert (Hsame : forall err err' stats,
             exits.mapped err err' stats -> isPermission err' = true -> err' = err).
  { intros err err' stats (_ & _ & [H|H]) Hp; [exact H|]. subst err'. discriminate Hp. }
  assert (Hother : forall err err' stats,
             exits.mapped err err' stats -> isNotExist err' = false -> err' = err).
  { intros err err' stats (_ & _ & [H|H]) Hp; [exact H|]. subst err'. discriminate Hp. }
  destruct (handle_cases GOOS r) as [Hres | (HG & tag & res & Hin & Hads & Htag & Hrej)].
  - rewrite Hres.
    pose proof (resolve_resolution getwd ReplaceAll TypeByExtension ServeContent
      spec r c) as Hex.
    by_exit Hex; (split; [try (intros H; discriminate H)|try (intros H; discriminate H)]).
    + intros _. pose proof (Hsame _ _ _ Hmapped Hperm) as Heq; subst err'.
      exists (exits.requested ReplaceAll spec r), err. split; [exact Hperm|].
      left. auto.
    + intros _. apply orb_false_iff in Hkind. destruct Hkind as [Hne Hinv].
      pose proof (Hother _ _ _ Hmapped Hne) as Heq; subst err'.
      exists (exits.requested ReplaceAll spec r), err. auto.
    + intros _. pose proof (Hsame _ _ _ Hmapped Hperm) as Heq; subst err'.
      exists filename, err. split; [exact Hperm|]. right. auto.
    + intros _. pose proof (Hother _ _ _ Hmapped Hkind) as Heq; subst err'.
      exists filename, err. auto.
  - rewrite Hrej. cbn [fst].
    split; intros H; subst res; destruct Hin as [H|[H|[]]]; discriminate H.
Qed.

Lemma handle_error_answers_witness :
  exists name err,
    (fsStat (faults.failing faults.EIO) name = Err err
     \/ fsOpen (faults.failing faults.EIO) name = Err err)
    /\ isNotExist err = false
    /\ isPermission err = false
    /\ ctxTags (snd (fileserver.handle
                       "linux" (Some ("/srv"%string : gostring)) samples.noReplace
                       samples.noType samples.plainServe (faults.failingSpec faults.EIO)
                       (mkRequest "GET" "/file.txt") samples.fresh))
       = ctxTags samples.fresh ++ [errText err].
Proof.
  destruct (handle_error_answers
              "linux" (Some ("/srv"%string : gostring)) samples.noReplace samples.noType
              samples.plainServe
              (faults.failingSpec faults.EIO) (mkRequest "GET" "/file.txt") samples.fresh)
    as [_ H].
  apply H. vm_compute. reflexivity.
Defined.

(** ** The request *)

Section ByPath.

Import filepath fileserver trace.

Variable getwd : option gostring.
Variable ReplaceAll : gostring -> gostring -> gostring.
Variable TypeByExtension : gostring -> gostring.
Variable ServeContent : Serving.
Variable spec : Spec.

Lemma serveFile_access (r : Request) (info : FileInfo) (filename : gostring)
      (file : File) (etag : gostring) (c : Context) :
  let out := serveFile TypeByExtension ServeContent r info filename file etag c in
  ctxTags (snd out) = ctxTags c
  /\ filter exits.fileAccess (ctxEvents (snd out)) = filter exits.fileAccess (ctxEvents c)
  /\ In (fst out) [resultMethodNotAllowed; []].
Proof.
  cbv zeta.
  destruct (gostring_eqb (Method r) MethodGet) eqn:Hget;
    [|destruct (gostring_eqb (Method r) MethodHead) eqn:Hhead].
  - apply gostring_eqb_eq in Hget. rewrite serveFile_served by (left; exact Hget).
    cbn [fst snd ctxTags ctxEvents]. rewrite filter_app. cbn [filter exits.fileAccess].
    rewrite app_nil_r. repeat split. right. left. reflexivity.
  - apply gostring_eqb_eq in Hhead. rewrite serveFile_served by (right; exact Hhead).
    cbn [fst snd ctxTags ctxEvents]. rewrite filter_app. cbn [filter exits.fileAccess].
    rewrite app_nil_r. repeat split. right. left. reflexivity.
  - apply gostring_eqb_neq in Hget, Hhead.
    rewrite (serveFile_not_allowed TypeByExtension ServeContent) by assumption.
    cbn [fst snd ctxTags ctxEvents]. repeat split. left. reflexivity.
Qed.

Lemma resolve_by_path (r r' : Request) (c : Context) :
  Path r = Path r' ->
  let out := resolve getwd ReplaceAll TypeByExtension ServeContent spec r c in
  let out' := resolve getwd ReplaceAll TypeByExtension ServeContent spec r' c in
  filter exits.fileAccess (ctxEvents (snd out))
  = filter exits.fileAccess (ctxEvents (snd out'))
  /\ ctxTags (snd out) = ctxTags (snd out')
  /\ (fst out = fst out'
      \/ (In (fst out) [resultMethodNotAllowed; []]
          /\ In (fst out') [resultMethodNotAllowed; []])).
Proof.
  intros Hp. unfold resolve. cbv zeta. rewrite <- Hp.
  set (filename0 := util.SanitizedPathJoin (ReplaceAll (Root spec) ".") (Path r)).
  set (hide := transformHidePaths getwd ReplaceAll spec).
  rewrite !(bind_run (Stat spec filename0)), Stat_run. cbn [fst snd].
  destruct (fsStat (fileSystem spec) filename0) as [info0|err].
  - set (search := if IsDir info0 && (0 <? length (IndexNames spec))
                   then indexLoop getwd ReplaceAll spec hide filename0 info0 filename0
                                  (IndexNames spec)
                   else M.ret (info0, filename0)).
    rewrite !(bind_run search).
    destruct (search (appendEvents c [EvStat filename0])) as [[info filename] c1].
    cbn [fst snd].
    destruct (IsDir info); [repeat split; left; reflexivity|].
    destruct (fileHidden getwd filename hide); [repeat split; left; reflexivity|].
    rewrite !(bind_run (openFile spec filename)), openFile_run. cbn [fst snd].
    destruct (fsOpen (fileSystem spec) filename) as [file|err].
    + rewrite !bind_run.
      destruct (serveFile_access r info filename file (calculateEtag info)
                                 (appendEvents c1 [EvOpen filename]))
        as (Ht & He & Hr).
      destruct (serveFile_access r' info filename file (calculateEtag info)
                                 (appendEvents c1 [EvOpen filename]))
        as (Ht' & He' & Hr').
      unfold M.ret, M.emit. cbn [fst snd ctxEvents ctxTags] in *.
      rewrite !filter_app, He, He', Ht, Ht'.
      split; [reflexivity|]. split; [reflexivity|]. right. split; assumption.
    + repeat split. left. reflexivity.
  - repeat split. left. reflexivity.
Qed.

End ByPath.

(** X18: the method of a request has no part in the calls to the file
    system nor in the tags: two requests for the same path make the
    same calls to [Stat], [Open] and [Close], in the same order, and
    leave the same tags; their results are the same unless both come
    from the method check. *)
Theorem handle_file_access_by_path
        (GOOS : gostring) (getwd : option gostring)
        (ReplaceAll : gostring -> gostring -> gostring)
        (TypeByExtension : gostring -> gostring) (ServeContent : Serving)
        (spec : fileserver.Spec) (r r' : Request) (c : Context) :
  Path r = Path r' ->
  let out := fileserver.handle GOOS getwd ReplaceAll TypeByExtension ServeContent spec r c in
  let out' := fileserver.handle GOOS getwd ReplaceAll TypeByExtension ServeContent spec r' c in
  filter exits.fileAccess (ctxEvents (snd out))
  = filter exits.fileAccess (ctxEvents (snd out'))
  /\ ctxTags (snd out) = ctxTags (snd out')
  /\ (fst out = fst out'
      \/ (In (fst out) [fileserver.resultMethodNotAllowed; []]
          /\ In (fst out') [fileserver.resultMethodNotAllowed; []])).
Proof.
  intros Hp out out'. subst out out'. unfold fileserver.handle. cbv zeta. rewrite <- Hp.
  destruct (gostring_eqb GOOS "windows" && strings.Contains (Path r) ":");
    [repeat split; left; reflexivity|].
  destruct (gostring_eqb GOOS "windows" && _); [repeat split; left; reflexivity|].
  apply resolve_by_path. exact Hp.
Qed.

Lemma handle_file_access_by_path_witness :
  filter exits.fileAccess (ctxEvents (snd (samples.serve "linux" [] "GET" "/docs/")))
  = filter exits.fileAccess (ctxEvents (snd (samples.serve "linux" [] "DELETE" "/docs/"))).
Proof.
  destruct (handle_file_access_by_path
              "linux" (Some ("/srv"%string : gostring)) samples.noReplace samples.noType
              samples.plainServe
              (samples.siteSpec []) (mkRequest "GET" "/docs/") (mkRequest "DELETE" "/docs/")
              samples.fresh eq_refl) as [H _].
  exact H.
Defined.

(** X19: the platform guard answers before any call to the file
    system: an answer [illegalADSPath], which is given exactly for a
    path with a colon on [windows], or [illegalShortName] has status
    400 and one tag and leaves the header and the events as they were;
    every other request starts with the [Stat] of the sanitized join of
    the root and the request path. *)
Theorem handle_guard_first
        (GOOS : gostring) (getwd : option gostring)
        (ReplaceAll : gostring -> gostring -> gostring)
        (TypeByExtension : gostring -> gostring) (ServeContent : Serving)
        (spec : fileserver.Spec) (r : Request) (c : Context) :
  let out := fileserver.handle GOOS getwd ReplaceAll TypeByExtension ServeContent spec r c in
  let guarded := In (fst out) [fileserver.resultIllegalADSPath;
                               fileserver.resultIllegalShortName] in
  (fst out = fileserver.resultIllegalADSPath
   <-> GOOS = "windows"%string /\ strings.Contains (Path r) ":" = true)
  /\ (guarded ->
      GOOS = "windows"%string
      /\ exists tag,
           In tag (gostrings ["illegal ADS path"; "illegal short name"])
           /\ snd out = mkContext (ctxTags c ++ [tag]) 400 (ctxHeader c) (ctxEvents c))
  /\ (~ guarded ->
      exists events,
        ctxEvents (snd out)
        = ctxEvents c
            ++ EvStat (util.SanitizedPathJoin (ReplaceAll (fileserver.Root spec) ".")
                                              (Path r))
            :: events).
Proof.
  intros out guarded. subst out guarded.
  destruct (handle_cases GOOS r) as [Hres | (HG & tag & res & Hin & Hads & Htag & Hrej)].
  - assert (Hnot : forall res',
               In res' [fileserver.resultIllegalADSPath;
                        fileserver.resultIllegalShortName] ->
               fst (fileserver.handle GOOS getwd ReplaceAll TypeByExtension ServeContent
                 spec r c)
               <> res').
    { intros res' Hin Heq. rewrite Hres in Heq.
      pose proof (resolve_results getwd ReplaceAll TypeByExtension ServeContent spec r c) as Hr.
      rewrite Heq in Hr. cbn [In] in Hin, Hr.
      destruct Hin as [<-|[<-|[]]];
        repeat (destruct Hr as [Hr|Hr]; [discriminate Hr|]); exact Hr. }
    split; [|split].
    + split.
      * intros H. elim (Hnot _ ltac:(left; reflexivity) H).
      * intros [HG Hc]. exfalso.
        pose proof (Hres getwd ReplaceAll TypeByExtension ServeContent spec c) as Hh.
        unfold fileserver.handle in Hh. cbv zeta in Hh.
        rewrite HG, Hc in Hh. cbn [gostring_eqb andb] in Hh.
        apply (Hnot fileserver.resultIllegalADSPath ltac:(left; reflexivity)).
        change (gostring_eqb ("windows"%string : gostring) ("windows"%string : gostring)
                && true) with true in Hh.
        rewrite Hres, <- Hh. reflexivity.
    + intros Hin. elim (Hnot _ Hin). reflexivity.
    + intros _. rewrite Hres.
      pose proof (resolve_resolution getwd ReplaceAll TypeByExtension ServeContent
        spec r c) as Hex.
      by_exit Hex; eexists; reflexivity.
  - rewrite Hrej. cbn [fst snd ctxEvents].
    split; [|split].
    + rewrite Hads. split; [intros H; split; assumption|intros [_ H]; exact H].
    + intros _. split; [exact HG|]. exists tag. split; [exact Htag|reflexivity].
    + intros Hnot. elim Hnot. exact Hin.
Qed.

Lemma handle_guard_first_witness :
  exists events,
    ctxEvents (snd (samples.serve "windows" [] "GET" "/file.txt"))
    = ctxEvents samples.fresh ++ EvStat "/site/file.txt" :: events.
Proof.
  destruct (handle_guard_first
              "windows" (Some ("/srv"%string : gostring)) samples.noReplace samples.noType
              samples.plainServe
              (samples.siteSpec []) (mkRequest "GET" "/file.txt") samples.fresh)
    as (_ & _ & H).
  apply H. vm_compute. intros [H0|[H0|[]]]; discriminate H0.
Defined.

(** X20: a file that is hidden is answered as a file that does not
    exist: for a requested file that exists, is not a directory and is
    hidden, the result and the whole context, the calls to the file
    system included, are those that the same request gets on a file
    system where [Stat] says that the file does not exist; unless the
    platform guard has answered, that is [notFound] with status 404,
    the tag [not found] and the one call to [Stat]. *)
Theorem hidden_file_as_missing
        (GOOS : gostring) (getwd : option gostring)
        (ReplaceAll : gostring -> gostring -> gostring)
        (TypeByExtension : gostring -> gostring) (ServeContent : Serving)
        (spec : fileserver.Spec) (r : Request) (c : Context)
        (info : FileInfo) (fsMissing : FS) (e : GoError) :
  let filename := exits.requested ReplaceAll spec r in
  let specMissing := fileserver.mkSpec fsMissing (fileserver.Root spec)
                                       (fileserver.Hide spec)
                                       (fileserver.IndexNames spec) in
  let out := fileserver.handle GOOS getwd ReplaceAll TypeByExtension ServeContent spec r c in
  fsStat (fileserver.fileSystem spec) filename = Ok info ->
  IsDir info = false ->
  fileserver.fileHidden getwd filename (exits.filesToHide getwd ReplaceAll spec) = true ->
  fsStat fsMissing filename = Err e ->
  isNotExist e = true ->
  fileserver.handle GOOS getwd ReplaceAll TypeByExtension ServeContent specMissing r c = out
  /\ (~ In (fst out) [fileserver.resultIllegalADSPath; fileserver.resultIllegalShortName] ->
      out = (fileserver.resultNotFound,
             exits.rejection c "not found" 404 [EvStat filename])).
Proof.
  intros filename specMissing out Hst Hd Hh Hmiss He. subst out.
  assert (Hhidden : fileserver.resolve getwd ReplaceAll TypeByExtension ServeContent spec r c
                    = (fileserver.resultNotFound,
                       exits.rejection c "not found" 404 [EvStat filename])).
  { unfold fileserver.resolve. cbv zeta.
    fold (exits.root ReplaceAll spec). fold (exits.requested ReplaceAll spec r).
    fold (exits.filesToHide getwd ReplaceAll spec). fold filename.
    rewrite bind_run, Stat_run. cbn [fst snd]. rewrite Hst, Hd. cbn [andb].
    rewrite bind_run. cbn [M.ret fst snd]. rewrite Hd, Hh. reflexivity. }
  assert (Hmissing : fileserver.resolve getwd ReplaceAll TypeByExtension ServeContent
    specMissing r c
                     = (fileserver.resultNotFound,
                        exits.rejection c "not found" 404 [EvStat filename])).
  { unfold fileserver.resolve. cbv zeta.
    change (util.SanitizedPathJoin (ReplaceAll (fileserver.Root specMissing) ".") (Path r))
      with filename.
    rewrite bind_run, Stat_run. cbn [fst snd].
    change (fsStat (fileserver.fileSystem specMissing) filename)
      with (fsStat fsMissing filename).
    rewrite Hmiss. unfold fileserver.mapDirOpenError. rewrite He. cbn [orb].
    rewrite bind_run. cbn [M.ret fst snd]. rewrite He. reflexivity. }
  destruct (handle_cases GOOS r) as [Hres | (HG & tag & res & Hin & Hads & Htag & Hrej)].
  - rewrite !Hres, Hhidden, Hmissing. split; [reflexivity|]. intros _. reflexivity.
  - rewrite !Hrej. split; [reflexivity|]. intros Hnot. elim Hnot. exact Hin.
Qed.

Lemma hidden_file_as_missing_witness :
  samples.serve "linux" ["*.txt"] "GET" "/file.txt"
  = (fileserver.resultNotFound,
     mkContext [("not found"%string : gostring)] 404 [] [EvStat "/site/file.txt"]).
Proof.
  pose proof (hidden_file_as_missing
                "linux" (Some ("/srv"%string : gostring)) samples.noReplace samples.noType
                samples.plainServe
                (samples.siteSpec ["*.txt"]) (mkRequest "GET" "/file.txt") samples.fresh
                (samples.file "file.txt") (faults.failing ErrNotExist) ErrNotExist) as H.
  cbv zeta in H.
  destruct H as [_ H].
  - vm_compute. reflexivity.
  - reflexivity.
  - vm_compute. reflexivity.
  - vm_compute. reflexivity.
  - reflexivity.
  - apply H. vm_compute. intros [H0|[H0|[]]]; discriminate H0.
Defined.

(** ** Hidden names in the request path *)

Section HiddenNames.

Import filepath lexical fileserver hiding cleanpath.

Local Abbreviation JJ l := (strings.Join l [Separator]).

Lemma enter_keeps_plain (rooted : bool) (st : state) (e : gostring) :
  Forall plainName (snd st) -> sepFree e ->
  Forall plainName (snd (enter rooted st e)).
Proof.
  destruct st as [ups names]. cbn [snd]. intros Hn He. unfold enter.
  destruct (gostring_eqb e "" || gostring_eqb e ".") eqn:H0; [exact Hn|].
  destruct (gostring_eqb e "..") eqn:H1.
  - destruct names as [|n names].
    + destruct rooted; [exact Hn|constructor].
    + inversion Hn. assumption.
  - apply orb_false_iff in H0. destruct H0 as [H0 H0'].
    apply gostring_eqb_neq in H0, H0', H1.
    constructor; [|exact Hn]. repeat split; assumption.
Qed.

Lemma fold_enter_keeps_plain (rooted : bool) (l : list gostring) :
  Forall sepFree l ->
  forall st, Forall plainName (snd st) ->
             Forall plainName (snd (fold_left (enter rooted) l st)).
Proof.
  induction 1 as [|e l He Hl IH]; intros st Hst; [exact Hst|].
  cbn [fold_left]. apply IH. apply enter_keeps_plain; assumption.
Qed.

(** The elements of a rendered path that ends in some names. *)
Lemma rendered_elements (rooted : bool) (ups : nat) (below names : list gostring)
      (closing : bool) :
  Forall plainName below -> Forall plainName names -> names <> [] ->
  elements (render rooted (ups, rev names ++ below)
              ++ (if closing then [Separator] else []))
  = (if rooted then [[]] else [])
      ++ (repeat (".."%string : gostring) ups ++ rev below)
      ++ names ++ (if closing then [[]] else []).
Proof.
  intros Hb Hn Hne. unfold render, body. cbn [fst snd].
  rewrite rev_app_distr, rev_involutive, app_assoc.
  set (K := (repeat (".."%string : gostring) ups ++ rev below) ++ names).
  assert (HK : K <> []).
  { subst K. intros H. apply app_eq_nil in H. destruct H. contradiction. }
  assert (Hsf : Forall sepFree K).
  { subst K. apply Forall_app. split; [apply kept_sepFree; exact Hb|].
    revert Hn. apply Forall_impl. intros e He. apply He. }
  assert (Hnn : Forall (fun e : gostring => e <> []) K).
  { subst K. apply Forall_app. split; [apply kept_nonempty; exact Hb|].
    apply plain_nonempty. exact Hn. }
  assert (Hel : elements (JJ K ++ (if closing then [Separator] else []))
                = K ++ (if closing then [[]] else [])).
  { destruct closing.
    - rewrite elements_app, elements_Join_sepFree by assumption. reflexivity.
    - rewrite !app_nil_r. apply elements_Join_sepFree; assumption. }
  assert (Hout : (if rooted then [[]] else [])
                   ++ (repeat (".."%string : gostring) ups ++ rev below)
                   ++ names ++ (if closing then [[]] else [])
                 = (if rooted then [[]] else [])
                     ++ K ++ (if closing then [@nil ascii] else [])).
  { subst K. rewrite <- !app_assoc. reflexivity. }
  rewrite Hout. destruct rooted.
  - change ((Separator :: JJ K) ++ (if closing then [Separator] else []))
      with ([] ++ Separator :: (JJ K ++ (if closing then [Separator] else []))).
    rewrite elements_app, Hel. reflexivity.
  - pose proof (Join_nonempty K Hnn HK) as Hj.
    destruct (JJ K) as [|x xs] eqn:HJ; [congruence|]. exact Hel.
Qed.

(** A name of the request stays an element of the file name that the
    hide patterns are compared with. *)
Lemma canonical_keeps_names (getwd : option gostring) (root : gostring)
      (names : list gostring) (closing : bool) (h : gostring) :
  Forall plainName names -> In h names ->
  In h (elements (canonical getwd (descend (Clean root) names
                                     ++ (if closing then [Separator] else [])))).
Proof.
  intros Hn Hin.
  assert (Hne : names <> []) by (intros ->; destruct Hin).
  destruct (descend_render root names Hn) as (rooted & ups & below & Hv & _ & Hd).
  destruct Hv as [Hb _]. cbn [snd] in Hb.
  assert (Hin' : forall (rooted' : bool) (ups' : nat) (below' : list gostring)
                        (closing' : bool),
             Forall plainName below' ->
             In h (elements (render rooted' (ups', rev names ++ below')
                               ++ (if closing' then [Separator] else [])))).
  { intros rooted' ups' below' closing' Hb'.
    rewrite rendered_elements by assumption.
    apply in_or_app. right. apply in_or_app. right. apply in_or_app. left. exact Hin. }
  assert (Hclean : Clean (descend (Clean root) names
                            ++ (if closing then [Separator] else []))
                   = render rooted (ups, rev names ++ below)).
  { rewrite descend_clean by exact Hn. exact Hd. }
  set (p := descend (Clean root) names ++ (if closing then [Separator] else [])) in *.
  assert (Hp : p <> []).
  { intros Hnil. apply (f_equal elements) in Hnil.
    subst p. rewrite Hd, rendered_elements in Hnil by assumption.
    change (elements []) with [@nil ascii] in Hnil.
    pose proof (Hin' rooted ups below closing Hb) as Hh.
    rewrite rendered_elements in Hh by assumption. rewrite Hnil in Hh.
    destruct Hh as [Hh|[]]. subst h.
    rewrite Forall_forall in Hn. destruct (Hn _ Hin) as [H0 _]. congruence. }
  unfold canonical, Abs. destruct (IsAbs p).
  - rewrite Hclean. rewrite <- (app_nil_r (render _ _)).
    apply (Hin' rooted ups below false Hb).
  - destruct getwd as [wd|].
    + destruct wd as [|w0 wd].
      * cbn [Join]. destruct p as [|p0 p'] eqn:Hpeq; [congruence|].
        cbn [strings.Join]. rewrite Hclean. rewrite <- (app_nil_r (render _ _)).
        apply (Hin' rooted ups below false Hb).
      * cbn [Join strings.Join].
        change ((w0 :: wd) ++ [Separator] ++ p) with ((w0 :: wd) ++ Separator :: p).
        rewrite Clean_refines. unfold CleanSpec.
        assert (Hpre : strings.HasPrefix ((w0 :: wd) ++ Separator :: p) "/"
                       = strings.HasPrefix (w0 :: wd) "/").
        { rewrite !HasPrefix_slash. reflexivity. }
        rewrite Hpre, read_app.
        set (rw := strings.HasPrefix (w0 :: wd) "/").
        subst p. rewrite Hd, rendered_elements by assumption.
        rewrite !fold_left_app.
        match goal with
        | |- context [fold_left (enter rw) names ?s] => set (st1 := s)
        end.
        assert (Hst1 : Forall plainName (snd st1)).
        { subst st1.
          apply fold_enter_keeps_plain;
            [apply Forall_rev; revert Hb; apply Forall_impl; intros e He; apply He|].
          apply fold_enter_keeps_plain;
            [apply Forall_forall; intros e He; apply repeat_spec in He; subst e;
             repeat constructor|].
          apply fold_enter_keeps_plain; [destruct rooted; repeat constructor|].
          apply read_plain. }
        rewrite (fold_enter_plain rw names Hn st1).
        assert (Hlast : fold_left (enter rw) (if closing then [[]] else [])
                                  (fst st1, rev names ++ snd st1)
                        = (fst st1, rev names ++ snd st1)).
        { destruct closing; reflexivity. }
        rewrite Hlast. rewrite <- (app_nil_r (render _ _)).
        apply (Hin' rw (fst st1) (snd st1) false Hst1).
    + subst p. rewrite Hd. apply (Hin' rooted ups below closing Hb).
Qed.

Lemma hidden_by_name (getwd : option gostring) (root : gostring)
      (names : list gostring) (closing : bool) (h : gostring) (hide : list gostring) :
  Forall plainName names -> In h names ->
  In h hide -> strings.Contains h separator = false -> literal h ->
  fileHidden getwd (descend (Clean root) names ++ (if closing then [Separator] else []))
             hide
  = true.
Proof.
  intros Hn Hin Hh Hc Hl. rewrite fileHidden_existsb. apply existsb_exists.
  exists h. split; [exact Hh|]. unfold patternHides. rewrite Hc. cbn [negb].
  apply orb_true_iff. left. apply existsb_exists. exists h.
  split; [apply (canonical_keeps_names getwd root names closing h Hn Hin)|].
  apply (Match_literal h h Hl). reflexivity.
Qed.

Lemma request_names (reqPath : gostring) (names : list gostring) (h : gostring) :
  Forall plainName names ->
  Clean (Separator :: reqPath) = Separator :: JJ names ->
  h <> [] ->
  In h (elements (Clean ("/" ++ reqPath))) ->
  In h names.
Proof.
  intros Hn Hc Hh Hin.
  change ("/" ++ reqPath) with (Separator :: reqPath) in Hin. rewrite Hc in Hin.
  change (Separator :: JJ names) with ([] ++ Separator :: JJ names) in Hin.
  rewrite elements_app in Hin. change (elements []) with [@nil ascii] in Hin.
  destruct Hin as [Hin|Hin]; [congruence|].
  destruct names as [|n names].
  - destruct Hin as [Hin|[]]. congruence.
  - rewrite elements_Join in Hin by (assumption || discriminate). exact Hin.
Qed.

(** The requested file and its index files are hidden by a name of the
    request path. *)
Lemma hidden_name_in_request (getwd : option gostring) (root reqPath : gostring)
      (h : gostring) (hide : list gostring) :
  In h hide -> strings.Contains h separator = false -> literal h -> h <> [] ->
  In h (elements (Clean ("/" ++ reqPath))) ->
  fileHidden getwd (util.SanitizedPathJoin root reqPath) hide = true
  /\ forall n, fileHidden getwd
                          (util.SanitizedPathJoin (util.SanitizedPathJoin root reqPath) n)
                          hide = true.
Proof.
  intros Hh Hc Hl Hne Hin.
  destruct (SanitizedPathJoin_shape root reqPath) as (na & Hna & Hca & Ha).
  pose proof (request_names reqPath na h Hna Hca Hne Hin) as Hin'.
  split.
  - rewrite Ha. apply (hidden_by_name getwd root na _ h hide); assumption.
  - intros n.
    destruct (SanitizedPathJoin_shape (util.SanitizedPathJoin root reqPath) n)
      as (nb & Hnb & _ & Hb).
    assert (Hinner : Clean (util.SanitizedPathJoin root reqPath)
                     = descend (Clean root) na).
    { rewrite Ha. apply descend_clean. exact Hna. }
    rewrite Hb, Hinner, descend_descend by assumption.
    apply (hidden_by_name getwd root (na ++ nb) _ h hide); try assumption.
    + apply Forall_app. split; assumption.
    + apply in_or_app. left. exact Hin'.
Qed.

End HiddenNames.

(** X21: a name on the hide list hides everything below it from the
    handler: when an element of the cleaned request path is a hide
    pattern that stands for itself, the handler opens no file, makes no
    call but [Stat], serves nothing, and answers [notFound] where the
    requested file exists, as it does for a missing one. *)
Theorem hidden_name_never_served
        (GOOS : gostring) (getwd : option gostring)
        (ReplaceAll : gostring -> gostring -> gostring)
        (TypeByExtension : gostring -> gostring) (ServeContent : Serving)
        (spec : fileserver.Spec) (r : Request) (c : Context) (h : gostring) :
  let out := fileserver.handle GOOS getwd ReplaceAll TypeByExtension ServeContent spec r c in
  In h (fileserver.transformHidePaths getwd ReplaceAll spec) ->
  strings.Contains h fileserver.separator = false ->
  hiding.literal h ->
  h <> [] ->
  In h (lexical.elements (filepath.Clean ("/" ++ Path r))) ->
  In (fst out) [fileserver.resultIllegalADSPath; fileserver.resultIllegalShortName;
                fileserver.resultNotFound; fileserver.resultErrPermission;
                fileserver.resultErrHandleFile]
  /\ (exists stats,
         Forall trace.isStat stats /\ ctxEvents (snd out) = ctxEvents c ++ stats)
  /\ (forall info,
         fsStat (fileserver.fileSystem spec) (exits.requested ReplaceAll spec r) = Ok info ->
         In (fst out) [fileserver.resultIllegalADSPath; fileserver.resultIllegalShortName;
                       fileserver.resultNotFound]).
Proof.
  intros out Hh Hc Hl Hne Hin. subst out.
  destruct (hidden_name_in_request getwd (exits.root ReplaceAll spec) (Path r) h _
                                   Hh Hc Hl Hne Hin) as [Hreq Hidx].
  assert (Hset : forall info filename stats,
             exits.settles getwd ReplaceAll spec r info filename stats ->
             fileserver.fileHidden getwd filename
                                   (exits.filesToHide getwd ReplaceAll spec) = true
             /\ Forall trace.isStat (EvStat (exits.requested ReplaceAll spec r) :: stats)).
  { intros info filename stats Hs.
    destruct (settles_file getwd ReplaceAll spec r info filename stats Hs)
      as (_ & _ & Hstats & _ & [-> | (n & _ & ->)]).
    - split; [exact Hreq|exact Hstats].
    - split; [apply Hidx|exact Hstats]. }
  assert (Hmap : forall err err' stats,
             exits.mapped err err' stats ->
             Forall trace.isStat (EvStat (exits.requested ReplaceAll spec r) :: stats)).
  { intros err err' stats (Hs & _). constructor; [eexists; reflexivity|exact Hs]. }
  destruct (handle_cases GOOS r) as [Hres | (HG & tag & res & Hin' & Hads & Htag & Hrej)].
  - rewrite Hres.
    pose proof (resolve_resolution getwd ReplaceAll TypeByExtension ServeContent
      spec r c) as Hex.
    by_exit Hex;
      try (destruct (Hset _ _ _ Hsettles) as [Hhid _]; congruence).
    + split; [in_list|]. split; [eexists; split; [eapply Hmap; eassumption|reflexivity]|].
      intros info Hok. in_list.
    + split; [in_list|]. split; [eexists; split; [eapply Hmap; eassumption|reflexivity]|].
      intros info Hok. congruence.
    + split; [in_list|]. split; [eexists; split; [eapply Hmap; eassumption|reflexivity]|].
      intros info Hok. congruence.
    + destruct (Hset _ _ _ Hsettles) as [_ Hstats].
      split; [in_list|]. split; [eexists; split; [exact Hstats|reflexivity]|].
      intros info' Hok. in_list.
    + destruct (Hset _ _ _ Hsettles) as [_ Hstats].
      split; [in_list|]. split; [eexists; split; [exact Hstats|reflexivity]|].
      intros info' Hok. in_list.
  - rewrite Hrej. cbn [fst snd ctxEvents].
    assert (Hres : In res [fileserver.resultIllegalADSPath;
                           fileserver.resultIllegalShortName;
                           fileserver.resultNotFound]).
    { destruct Hin' as [<-|[<-|[]]]; in_list. }
    split; [destruct Hin' as [<-|[<-|[]]]; in_list|].
    split; [exists []; split; [constructor|symmetry; apply app_nil_r]|].
    intros _ _. exact Hres.
Qed.

Lemma hidden_name_never_served_witness :
  In (fst (samples.serve "linux" ["docs"] "GET" "/docs/index.txt"))
     [fileserver.resultIllegalADSPath; fileserver.resultIllegalShortName;
      fileserver.resultNotFound].
Proof.
  pose proof (hidden_name_never_served
                "linux" (Some ("/srv"%string : gostring)) samples.noReplace samples.noType
                samples.plainServe
                (samples.siteSpec ["docs"]) (mkRequest "GET" "/docs/index.txt")
                samples.fresh ("docs"%string : gostring)) as H.
  cbv zeta in H.
  destruct H as (_ & _ & H).
  - vm_compute. left. reflexivity.
  - reflexivity.
  - repeat constructor.
  - discriminate.
  - vm_compute. right. left. reflexivity.
  - apply (H (samples.file "index.txt")). vm_compute. reflexivity.
Defined.

(** ** Request paths with the same file *)

Section SameFile.

Import filepath lexical cleanpath.

Local Abbreviation JJ l := (strings.Join l [Separator]).

(** A rendered path is read back as the state it renders. *)
Lemma read_render (rooted : bool) (st : state) :
  valid rooted st -> read rooted (render rooted st) = st.
Proof.
  destruct st as [ups names]. intros [Hn Hr]. cbn [fst snd] in *.
  unfold read, render, body. cbn [fst snd].
  set (K := repeat (".."%string : gostring) ups ++ rev names).
  assert (HK : fold_left (enter rooted) K (0, []) = (ups, names))
    by (apply fold_enter_kept; assumption).
  assert (Hsf : Forall sepFree K) by (apply kept_sepFree; assumption).
  assert (Hne : Forall (fun e : gostring => e <> []) K)
    by (apply kept_nonempty; assumption).
  destruct rooted.
  - change (Separator :: JJ K) with ([] ++ Separator :: JJ K).
    rewrite elements_app, fold_left_app.
    change (elements []) with [@nil ascii]. cbn [fold_left]. rewrite enter_empty.
    destruct K as [|k K'] eqn:HKeq.
    + change (elements (JJ [])) with [@nil ascii]. cbn [fold_left].
      rewrite enter_empty. exact HK.
    + rewrite elements_Join_sepFree by (assumption || discriminate). exact HK.
  - destruct K as [|k K'] eqn:HKeq.
    + change (JJ []) with (@nil ascii). cbv iota.
      change (elements "."%string) with [("."%string : gostring)].
      cbn [fold_left]. exact HK.
    + pose proof (Join_nonempty (k :: K') Hne ltac:(discriminate)) as Hjn.
      destruct (JJ (k :: K')) as [|x xs] eqn:Hj; [congruence|].
      rewrite <- Hj. rewrite elements_Join_sepFree by (assumption || discriminate).
      exact HK.
Qed.

Lemma descend_injective (root : gostring) (na nb : list gostring) :
  Forall plainName na -> Forall plainName nb ->
  descend (Clean root) na = descend (Clean root) nb -> na = nb.
Proof.
  intros Ha Hb Heq.
  set (rooted := strings.HasPrefix root "/").
  destruct (read rooted root) as [ups below] eqn:Hread.
  pose proof (read_valid root) as Hv. fold rooted in Hv. rewrite Hread in Hv.
  assert (Hc : Clean root = render rooted (ups, below)).
  { rewrite Clean_refines. unfold CleanSpec. fold rooted. rewrite Hread. reflexivity. }
  assert (Hd : forall names,
             Forall plainName names ->
             descend (Clean root) names = render rooted (ups, rev names ++ below)
             /\ valid rooted (ups, rev names ++ below)).
  { intros names Hn. split.
    - rewrite Hc. rewrite <- (rev_involutive names) at 1.
      symmetry. apply render_descend; [apply Hv|apply Forall_rev; exact Hn].
    - destruct Hv as [Hbelow Hr]. split; [|exact Hr].
      cbn [snd] in *. apply Forall_app. split; [apply Forall_rev|]; assumption. }
  destruct (Hd na Ha) as [Hda Hva]. destruct (Hd nb Hb) as [Hdb Hvb].
  rewrite Hda, Hdb in Heq. apply (f_equal (read rooted)) in Heq.
  rewrite !read_render in Heq by assumption.
  injection Heq as Heq. apply app_inv_tail in Heq.
  rewrite <- (rev_involutive na), <- (rev_involutive nb), Heq. reflexivity.
Qed.

End SameFile.

(** X22: two request paths are joined to the same file name exactly
    when they are the same after cleaning and both or neither get the
    closing separator: request paths that differ after cleaning never
    name the same file. *)
Theorem SanitizedPathJoin_same_file (root a b : gostring) :
  util.SanitizedPathJoin root a = util.SanitizedPathJoin root b
  <-> filepath.Clean ("/" ++ a) = filepath.Clean ("/" ++ b)
      /\ strings.HasSuffix a "/" && (1 <? length a)
         = strings.HasSuffix b "/" && (1 <? length b).
Proof.
  split.
  - intros Heq.
    destruct (SanitizedPathJoin_shape root a) as (na & Hna & Hca & Ha).
    destruct (SanitizedPathJoin_shape root b) as (nb & Hnb & Hcb & Hb).
    assert (Hclean : filepath.Clean (util.SanitizedPathJoin root a)
                     = filepath.Clean (util.SanitizedPathJoin root b))
      by (rewrite Heq; reflexivity).
    rewrite Ha, Hb in Hclean.
    assert (Hd : lexical.descend (filepath.Clean root) na
                 = lexical.descend (filepath.Clean root) nb).
    { destruct (strings.HasSuffix a "/" && (1 <? length a));
        destruct (strings.HasSuffix b "/" && (1 <? length b));
        rewrite ?(descend_clean root na true Hna), ?(descend_clean root na false Hna),
          ?(descend_clean root nb true Hnb), ?(descend_clean root nb false Hnb)
          in Hclean; exact Hclean. }
    pose proof (descend_injective root na nb Hna Hnb Hd) as Hn. subst nb.
    split.
    + change ("/" ++ a) with (filepath.Separator :: a).
      change ("/" ++ b) with (filepath.Separator :: b).
      rewrite Hca, Hcb. reflexivity.
    + rewrite Ha, Hb in Heq. apply app_inv_head in Heq.
      destruct (strings.HasSuffix a "/" && (1 <? length a));
        destruct (strings.HasSuffix b "/" && (1 <? length b));
        try reflexivity; discriminate Heq.
  - intros [Hc Hf]. apply SanitizedPathJoin_congruence; assumption.
Qed.

Lemma SanitizedPathJoin_same_file_witness :
  util.SanitizedPathJoin "/site" "/docs/../blog//index.html"
  = util.SanitizedPathJoin "/site" "blog/./index.html".
Proof.
  apply (proj2 (SanitizedPathJoin_same_file
                  "/site" "/docs/../blog//index.html" "blog/./index.html")).
  split; vm_compute; reflexivity.
Defined.

(** ** Files that are served, directories that are hidden *)

(** X23: a regular file that exists, is not hidden and can be opened is
    served to a [GET] or [HEAD] request that passes the platform guard,
    with one [Stat], the [Open], [ServeContent] with the name and the
    modification time of the file, and the closing of the file, and
    with no search for an index file. *)
Theorem handle_serves_regular_file
        (GOOS : gostring) (getwd : option gostring)
        (ReplaceAll : gostring -> gostring -> gostring)
        (TypeByExtension : gostring -> gostring) (ServeContent : Serving)
        (spec : fileserver.Spec) (r : Request) (c : Context)
        (info : FileInfo) (file : File) :
  let filename := exits.requested ReplaceAll spec r in
  let out := fileserver.handle GOOS getwd ReplaceAll TypeByExtension ServeContent spec r c in
  ~ In (fst out) [fileserver.resultIllegalADSPath; fileserver.resultIllegalShortName] ->
  fsStat (fileserver.fileSystem spec) filename = Ok info ->
  IsDir info = false ->
  fileserver.fileHidden getwd filename (exits.filesToHide getwd ReplaceAll spec) = false ->
  fsOpen (fileserver.fileSystem spec) filename = Ok file ->
  Method r = fileserver.MethodGet \/ Method r = fileserver.MethodHead ->
  fst out = []
  /\ ctxEvents (snd out)
     = ctxEvents c
         ++ [EvStat filename; EvOpen filename;
             EvServeContent (Name info) (ModTimeUnix info) (fileName file);
             EvClose (fileName file)].
Proof.
  intros filename out Hguard Hst Hd Hh Hopen Hm. subst out.
  destruct (handle_cases GOOS r) as [Hres | (HG & tag & res & Hin & Hads & Htag & Hrej)].
  - rewrite Hres. clear Hguard Hres.
    unfold fileserver.resolve. cbv zeta.
    fold (exits.root ReplaceAll spec). fold (exits.requested ReplaceAll spec r).
    fold (exits.filesToHide getwd ReplaceAll spec). fold filename.
    rewrite bind_run, Stat_run. cbn [fst snd]. rewrite Hst, Hd. cbn [andb].
    rewrite bind_run. cbn [M.ret fst snd]. rewrite Hd, Hh.
    rewrite bind_run, openFile_run. cbn [fst snd]. rewrite Hopen.
    rewrite bind_run, (serveFile_served TypeByExtension ServeContent) by exact Hm.
    cbn [fst snd]. rewrite emit_run.
    unfold trace.appendEvents. cbn [fst snd ctxEvents].
    split; [reflexivity|]. rewrite <- !app_assoc. reflexivity.
  - elim Hguard. rewrite Hrej. exact Hin.
Qed.

Lemma handle_serves_regular_file_witness :
  fst (samples.serve "linux" ["*.html"] "HEAD" "/blog/index.txt") = [].
Proof.
  pose proof (handle_serves_regular_file
                "linux" (Some ("/srv"%string : gostring)) samples.noReplace samples.noType
                samples.plainServe
                (samples.siteSpec ["*.html"]) (mkRequest "HEAD" "/blog/index.txt")
                samples.fresh (samples.file "index.txt") (mkFile "/site/blog/index.txt"))
    as H.
  cbv zeta in H.
  destruct H as [H _].
  - vm_compute. intros [H0|[H0|[]]]; discriminate H0.
  - vm_compute. reflexivity.
  - reflexivity.
  - vm_compute. reflexivity.
  - vm_compute. reflexivity.
  - right. reflexivity.
  - exact H.
Defined.

Section HiddenDirectories.

Import filepath lexical fileserver hiding cleanpath.

Local Abbreviation JJ l := (strings.Join l [Separator]).

Lemma hidden_by_path (getwd : option gostring) (p h : gostring) (hide : list gostring) :
  IsAbs p = true -> In h hide -> strings.Contains h separator = true -> literal h ->
  (Clean p = h \/ exists rest, Clean p = h ++ separator ++ rest) ->
  fileHidden getwd p hide = true.
Proof.
  intros Hp Hh Hc Hl Hb. rewrite fileHidden_existsb. apply existsb_exists.
  exists h. split; [exact Hh|]. unfold patternHides, canonical, Abs.
  rewrite Hp, Hc. cbn [negb]. apply orb_true_iff.
  destruct Hb as [-> | (rest & ->)].
  - right. apply (Match_literal h h Hl). reflexivity.
  - left. apply prefix_then_separator. exists rest. reflexivity.
Qed.

Lemma index_below (p h n : gostring) :
  IsAbs p = true -> strings.Contains h separator = true -> h <> "/"%string ->
  (Clean p = h \/ exists rest, Clean p = h ++ separator ++ rest) ->
  IsAbs (util.SanitizedPathJoin p n) = true
  /\ (Clean (util.SanitizedPathJoin p n) = h
      \/ exists rest, Clean (util.SanitizedPathJoin p n) = h ++ separator ++ rest).
Proof.
  intros Hp Hc Hroot Hb.
  destruct (SanitizedPathJoin_shape p n) as (nb & Hnb & _ & Heq).
  assert (Hhead : strings.HasPrefix (Clean p) "/" = true).
  { rewrite Clean_rooted. exact Hp. }
  assert (Hnotroot : Clean p <> "/"%string).
  { intros Hr. destruct Hb as [Hb | (rest & Hb)]; rewrite Hr in Hb.
    - apply Hroot. symmetry. exact Hb.
    - destruct h as [|c h]; [discriminate Hc|].
      destruct h; discriminate Hb. }
  assert (Hdesc : nb <> [] ->
                  descend (Clean p) nb = Clean p ++ Separator :: JJ nb).
  { intros Hne. unfold descend. destruct nb as [|b0 nb']; [congruence|].
    replace (gostring_eqb (Clean p) ".") with false.
    2:{ symmetry. apply gostring_eqb_neq. intros Hdot. rewrite Hdot in Hhead.
        discriminate Hhead. }
    replace (gostring_eqb (Clean p) "/") with false
      by (symmetry; apply gostring_eqb_neq; exact Hnotroot).
    reflexivity. }
  split.
  - unfold IsAbs. rewrite Heq, HasPrefix_slash. rewrite HasPrefix_slash in Hhead.
    destruct nb as [|b0 nb'].
    + cbn [descend]. destruct (Clean p) as [|c0 cp]; [discriminate Hhead|exact Hhead].
    + rewrite Hdesc by discriminate.
      destruct (Clean p) as [|c0 cp]; [discriminate Hhead|exact Hhead].
  - assert (Hclean : Clean (util.SanitizedPathJoin p n) = descend (Clean p) nb).
    { rewrite Heq. apply descend_clean. exact Hnb. }
    rewrite Hclean. destruct nb as [|b0 nb'].
    + cbn [descend]. exact Hb.
    + rewrite Hdesc by discriminate. right.
      destruct Hb as [-> | (rest & ->)].
      * exists (JJ (b0 :: nb')). reflexivity.
      * exists (rest ++ Separator :: JJ (b0 :: nb')).
        unfold separator. rewrite <- !app_assoc. reflexivity.
Qed.

End HiddenDirectories.

(** X24: a directory on the hide list hides what is below it from the
    handler: when the requested file, with an absolute name, is a hide
    pattern that stands for itself and has a separator, or lies below
    it, the handler opens no file, makes no call but [Stat], looks at no
    index file and serves nothing; where the requested file exists the
    answer is [notFound]. *)
Theorem hidden_directory_never_served
        (GOOS : gostring) (getwd : option gostring)
        (ReplaceAll : gostring -> gostring -> gostring)
        (TypeByExtension : gostring -> gostring) (ServeContent : Serving)
        (spec : fileserver.Spec) (r : Request) (c : Context) (h : gostring) :
  let filename := exits.requested ReplaceAll spec r in
  let out := fileserver.handle GOOS getwd ReplaceAll TypeByExtension ServeContent spec r c in
  In h (fileserver.transformHidePaths getwd ReplaceAll spec) ->
  strings.Contains h fileserver.separator = true ->
  hiding.literal h ->
  h <> "/"%string ->
  filepath.IsAbs filename = true ->
  (filepath.Clean filename = h
   \/ exists rest, filepath.Clean filename = h ++ fileserver.separator ++ rest) ->
  In (fst out) [fileserver.resultIllegalADSPath; fileserver.resultIllegalShortName;
                fileserver.resultNotFound; fileserver.resultErrPermission;
                fileserver.resultErrHandleFile]
  /\ (exists stats,
         Forall trace.isStat stats /\ ctxEvents (snd out) = ctxEvents c ++ stats)
  /\ (forall info,
         fsStat (fileserver.fileSystem spec) filename = Ok info ->
         In (fst out) [fileserver.resultIllegalADSPath; fileserver.resultIllegalShortName;
                       fileserver.resultNotFound]).
Proof.
  intros requestedFile out Hh Hc Hl Hroot Habs Hbelow. subst out.
  assert (Hset : forall info name stats,
             exits.settles getwd ReplaceAll spec r info name stats ->
             fileserver.fileHidden getwd name (exits.filesToHide getwd ReplaceAll spec)
             = true
             /\ Forall trace.isStat (EvStat requestedFile :: stats)).
  { intros info name stats Hs.
    destruct (settles_file getwd ReplaceAll spec r info name stats Hs)
      as (_ & _ & Hstats & _ & [-> | (n & _ & ->)]).
    - split; [|exact Hstats]. apply (hidden_by_path getwd requestedFile h); assumption.
    - split; [|exact Hstats].
      destruct (index_below requestedFile h (ReplaceAll n "") Habs Hc Hroot Hbelow)
        as [Habs' Hbelow'].
      apply (hidden_by_path getwd _ h); assumption. }
  assert (Hmap : forall err err' stats,
             exits.mapped err err' stats ->
             Forall trace.isStat (EvStat requestedFile :: stats)).
  { intros err err' stats (Hs & _). constructor; [eexists; reflexivity|exact Hs]. }
  destruct (handle_cases GOOS r) as [Hres | (HG & tag & res & Hin' & Hads & Htag & Hrej)].
  - rewrite Hres.
    pose proof (resolve_resolution getwd ReplaceAll TypeByExtension ServeContent
      spec r c) as Hex.
    fold requestedFile in Hex.
    by_exit Hex;
      try (destruct (Hset _ _ _ Hsettles) as [Hhid _]; congruence).
    + split; [in_list|]. split; [eexists; split; [eapply Hmap; eassumption|reflexivity]|].
      intros info Hok. in_list.
    + split; [in_list|]. split; [eexists; split; [eapply Hmap; eassumption|reflexivity]|].
      intros info Hok. unfold requestedFile in Hok. congruence.
    + split; [in_list|]. split; [eexists; split; [eapply Hmap; eassumption|reflexivity]|].
      intros info Hok. unfold requestedFile in Hok. congruence.
    + destruct (Hset _ _ _ Hsettles) as [_ Hstats].
      split; [in_list|]. split; [eexists; split; [exact Hstats|reflexivity]|].
      intros info' Hok. in_list.
    + destruct (Hset _ _ _ Hsettles) as [_ Hstats].
      split; [in_list|]. split; [eexists; split; [exact Hstats|reflexivity]|].
      intros info' Hok. in_list.
  - rewrite Hrej. cbn [fst snd ctxEvents].
    assert (Hres : In res [fileserver.resultIllegalADSPath;
                           fileserver.resultIllegalShortName;
                           fileserver.resultNotFound]).
    { destruct Hin' as [<-|[<-|[]]]; in_list. }
    split; [destruct Hin' as [<-|[<-|[]]]; in_list|].
    split; [exists []; split; [constructor|symmetry; apply app_nil_r]|].
    intros _ _. exact Hres.
Qed.

Lemma hidden_directory_never_served_witness :
  In (fst (samples.serve "linux" ["/site/blog"] "GET" "/blog/"))
     [fileserver.resultIllegalADSPath; fileserver.resultIllegalShortName;
      fileserver.resultNotFound].
Proof.
  pose proof (hidden_directory_never_served
                "linux" (Some ("/srv"%string : gostring)) samples.noReplace samples.noType
                samples.plainServe
                (samples.siteSpec ["/site/blog"]) (mkRequest "GET" "/blog/")
                samples.fresh ("/site/blog"%string : gostring)) as H.
  cbv zeta in H.
  destruct H as (_ & _ & H).
  - vm_compute. left. reflexivity.
  - reflexivity.
  - repeat constructor.
  - discriminate.
  - reflexivity.
  - left. vm_compute. reflexivity.
  - apply (H (samples.dir "blog")). vm_compute. reflexivity.
Defined.
